(** * Node-style deep-import resolution: [tryNodeResolve] and [resolveDeepImport]

    A shallow embedding of [src/temp/loadConfigFromFile.ts]: the helpers
    [isBuiltin] and [cleanUrl], the regular expressions [bareImportRE] and
    [deepImportRE], the deep-import resolver [resolveDeepImport] and the
    orchestrator [tryNodeResolve].

    JavaScript values read from a package manifest are modelled as a JSON
    tree, [undefined] as [None].  Functions that the source calls but does
    not define (node:path, node:fs, the exports resolver, the browser-field
    mapper, the filesystem candidate resolver, ...) are the fields of the
    class [Host]; every call to an effectful one is recorded in an event
    list, so that a statement can say which collaborators a resolution
    consulted, in which order and with which arguments.  Thrown errors are
    an explicit outcome. *)

From Stdlib Require Import String Ascii ZArith Lia.
From stdpp Require Import base gmap strings list pretty.

(** ** Strings

    A string holds the UTF-8 bytes of the JavaScript string, as the
    literals of this file do.  The characters the source tests for one by
    one are all ASCII, and in UTF-8 a byte below 128 is always such a
    character.  Lengths and positions count bytes; on ASCII text these are
    the UTF-16 code units the source counts.  The line ends U+2028 and
    U+2029 of the regular expressions, and the length of a string as
    JavaScript counts it, are written out where they matter ([firstLine],
    [js_length]). *)

Module Str.

(** The one-character string holding a double quote (code 34). *)
Definition dquote : string := String (ascii_of_nat 34) EmptyString.

(** The NUL character, written '\0' in the source. *)
Definition nul : ascii := ascii_of_nat 0.

Definition is_empty (s : string) : bool :=
  match s with EmptyString => true | String _ _ => false end.

(** [s.slice(n)] for a non-negative [n]. *)
Fixpoint drop (n : nat) (s : string) : string :=
  match n, s with
  | O, _ => s
  | S _, EmptyString => EmptyString
  | S n', String _ rest => drop n' rest
  end.

(** The prefix of [s] before the first character satisfying [p]. *)
Fixpoint take_until (p : ascii -> bool) (s : string) : string :=
  match s with
  | EmptyString => EmptyString
  | String c rest => if p c then EmptyString else String c (take_until p rest)
  end.

(** What follows the first character satisfying [p], when there is one. *)
Fixpoint after_first (p : ascii -> bool) (s : string) : option string :=
  match s with
  | EmptyString => None
  | String c rest => if p c then Some rest else after_first p rest
  end.

Fixpoint last (s : string) : option ascii :=
  match s with
  | EmptyString => None
  | String c EmptyString => Some c
  | String _ rest => last rest
  end.

Fixpoint has_char (c : ascii) (s : string) : bool :=
  match s with
  | EmptyString => false
  | String d rest => Ascii.eqb c d || has_char c rest
  end.

(** [s.indexOf(sub)], [None] standing for -1. *)
Definition indexOf (sub s : string) : option nat := String.index 0 sub s.

(** [s.includes(sub)]. *)
Definition includes (sub s : string) : bool :=
  match indexOf sub s with Some _ => true | None => false end.

(** [s.slice(start)] where [start] is the result of [indexOf]: JavaScript
    counts a negative start from the end, so -1 keeps the last character. *)
Definition slice_from (start : option nat) (s : string) : string :=
  match start with
  | Some n => drop n s
  | None => drop (String.length s - 1) s
  end.

(** [xs.includes(x)] on an array of strings. *)
Definition mem (x : string) (xs : list string) : bool :=
  existsb (String.eqb x) xs.

End Str.

(** ** JavaScript values *)

(** A parsed manifest value.  Numbers are restricted to integers. *)
#[warnings="-register-all"]
Inductive json : Type :=
| JNull
| JBool (b : bool)
| JNum (n : Z)
| JStr (s : string)
| JArr (items : list json)
| JObj (fields : list (string * json)).

(** The result of reading a property: [None] is [undefined]. *)
Definition jsval : Type := option json.

(** JavaScript truthiness, as [if (v)] and [&&] test it. *)
Definition truthy (v : jsval) : bool :=
  match v with
  | None | Some JNull => false
  | Some (JBool b) => b
  | Some (JNum n) => negb (n =? 0)%Z
  | Some (JStr s) => negb (Str.is_empty s)
  | Some (JArr _) | Some (JObj _) => true
  end.

(** Truthiness of a [string | undefined]. *)
Definition str_truthy (s : option string) : bool :=
  match s with
  | Some (String _ _) => true
  | _ => false
  end.

(** [isObject], lines 524-526:
    [Object.prototype.toString.call(value) === '[object Object]']. *)
Definition isObject (v : jsval) : bool :=
  match v with Some (JObj _) => true | _ => false end.

(** [Array.isArray]. *)
Definition Array_isArray (v : jsval) : bool :=
  match v with Some (JArr _) => true | _ => false end.

Fixpoint assoc (k : string) (fs : list (string * json)) : jsval :=
  match fs with
  | [] => None
  | (k', v) :: rest => if String.eqb k k' then Some v else assoc k rest
  end.

(** The property read [v.k], and [v?.k], for a name [k] written in the
    source, which no built-in prototype carries: own properties of an
    object; anything else has none. *)
Definition js_get (v : jsval) (k : string) : jsval :=
  match v with
  | Some (JObj fs) => assoc k fs
  | _ => None
  end.

(** String conversion inside a template literal. *)
Fixpoint json_toString (v : json) : string :=
  match v with
  | JNull => "null"
  | JBool true => "true"
  | JBool false => "false"
  | JNum n => pretty n
  | JStr s => s
  | JArr items =>
      (fix join (l : list json) : string :=
         match l with
         | [] => EmptyString
         | x :: rest =>
             let sx := match x with JNull => EmptyString | _ => json_toString x end in
             match rest with
             | [] => sx
             | _ :: _ => sx +:+ "," +:+ join rest
             end
         end) items
  | JObj _ => "[object Object]"
  end.

Definition js_toString (v : jsval) : string :=
  match v with
  | None => "undefined"
  | Some j => json_toString j
  end.

(** A [string | undefined] inside a template literal. *)
Definition str_toString (s : option string) : string :=
  match s with
  | None => "undefined"
  | Some s => s
  end.

(** The kinds of value a parsed manifest holds besides [null], by the
    built-in prototype their members are inherited from. *)
Inductive JsKind : Type :=
| KObject
| KArray
| KString
| KNumber
| KBoolean.

(** What a read with a computed key, [v?.[k]], gives on a manifest value:
    a value of the manifest (an own property, an element, a length), one
    code unit of a string, a member inherited from the built-in prototypes
    (a function or a prototype object), or [undefined]. *)
Inductive Member : Type :=
| MemberValue (v : json)
| MemberCodeUnit
| MemberInherited
| MemberUndefined.

(** Truthiness of what was read: functions, objects and one-unit strings
    are truthy. *)
Definition member_truthy (m : Member) : bool :=
  match m with
  | MemberValue v => truthy (Some v)
  | MemberCodeUnit | MemberInherited => true
  | MemberUndefined => false
  end.

(** [m?.k] for a property name [k] that no built-in carries: only a value
    of the manifest can have it. *)
Definition member_get (m : Member) (k : string) : jsval :=
  match m with
  | MemberValue v => js_get (Some v) k
  | _ => None
  end.

Definition isDigit (c : ascii) : bool :=
  let n := nat_of_ascii c in (48 <=? n) && (n <=? 57).

Fixpoint digitsValue (acc : N) (s : string) : option N :=
  match s with
  | EmptyString => Some acc
  | String c rest =>
      if isDigit c
      then digitsValue (acc * 10 + N.of_nat (nat_of_ascii c - 48)) rest
      else None
  end.

(** A property key that is an index: the decimal digits of a number,
    without a leading zero. *)
Definition arrayIndex (k : string) : option N :=
  match k with
  | EmptyString => None
  | String c rest =>
      if Ascii.eqb c "0" && negb (Str.is_empty rest) then None
      else digitsValue 0 k
  end.

(** [s.length]: the number of UTF-16 code units.  A character of one to
    three bytes is one unit, a character of four bytes is two. *)
Fixpoint js_length (s : string) : N :=
  match s with
  | EmptyString => 0
  | String c rest =>
      let n := N_of_ascii c in
      ((if n <? 128 then 1
        else if n <? 192 then 0
        else if n <? 240 then 1
        else 2) + js_length rest)%N
  end.

(** ** Constants and regular expressions of the source *)

(** Lines 31-39. *)
Definition DEFAULT_EXTENSIONS : list string :=
  [".mjs"; ".js"; ".mts"; ".ts"; ".jsx"; ".tsx"; ".json"].

(** Lines 318-322. *)
Definition browserExternalId : string := "__vite-browser-external".
Definition optionalPeerDepId : string := "__vite-optional-peer-dep".

(** Line 59. *)
Definition NODE_BUILTIN_NAMESPACE : string := "node:".

(** The entries the source adds to node's [builtinModules], lines 42-57. *)
Definition extraBuiltins : list string :=
  ["assert/strict"; "diagnostics_channel"; "dns/promises"; "fs/promises";
   "path/posix"; "path/win32"; "readline/promises"; "stream/consumers";
   "stream/promises"; "stream/web"; "timers/promises"; "util/types"; "wasi"].

(** [\w] of a regular expression without the unicode flag. *)
Definition isWordChar (c : ascii) : bool :=
  let n := nat_of_ascii c in
  ((48 <=? n) && (n <=? 57)) || ((65 <=? n) && (n <=? 90))
  || ((97 <=? n) && (n <=? 122)) || (n =? 95).

(** The line terminators, which [.] does not match without the [s] flag:
    LF, CR, U+2028 and U+2029.  The last two are three bytes each. *)
Definition lineSeparator : string :=
  String (ascii_of_nat 226) (String (ascii_of_nat 128)
    (String (ascii_of_nat 168) EmptyString)).

Definition paragraphSeparator : string :=
  String (ascii_of_nat 226) (String (ascii_of_nat 128)
    (String (ascii_of_nat 169) EmptyString)).

Definition startsWithLineTerminator (s : string) : bool :=
  match s with
  | EmptyString => false
  | String c _ =>
      let n := nat_of_ascii c in
      (n =? 10) || (n =? 13)
      || String.prefix lineSeparator s || String.prefix paragraphSeparator s
  end.


(** The longest prefix that [.*] can match: what comes before the first
    line terminator. *)
Fixpoint firstLine (s : string) : string :=
  match s with
  | EmptyString => EmptyString
  | String c rest =>
      if startsWithLineTerminator (String c rest) then EmptyString
      else String c (firstLine rest)
  end.

Definition isSlash (c : ascii) : bool := Ascii.eqb c "/".
Definition isAt (c : ascii) : bool := Ascii.eqb c "@".

(** [bareImportRE.test(id)], line 312: the first character is a word
    character or an at sign, and the negative lookahead refuses a colon
    followed by two slashes anywhere on the rest of the first line. *)
Definition bareImportRE (id : string) : bool :=
  match id with
  | EmptyString => false
  | String c rest =>
      (isWordChar c || isAt c)
      && negb (Str.includes "://" (firstLine rest))
  end.

(** [id.match(deepImportRE)], line 313.  First alternative: a character
    other than an at sign, the longest run of non-slash characters, then a
    slash; the group is everything before that slash.  Second alternative:
    an at sign, one or more non-slash characters, a slash, one or more
    non-slash characters, then a slash; the group is everything before the
    second slash.  The result is the group that matched, the source's
    [deepMatch[1] || deepMatch[2]], or [None] when nothing matches. *)
Definition deepImportRE (id : string) : option string :=
  match id with
  | EmptyString => None
  | String c rest =>
      if isAt c then
        let scope := Str.take_until isSlash rest in
        match Str.after_first isSlash rest with
        | None => None
        | Some rest2 =>
            let name := Str.take_until isSlash rest2 in
            match Str.after_first isSlash rest2 with
            | None => None
            | Some _ =>
                if Str.is_empty scope || Str.is_empty name then None
                else Some (String c scope +:+ "/" +:+ name)
            end
        end
      else
        match Str.after_first isSlash rest with
        | None => None
        | Some _ => Some (String c (Str.take_until isSlash rest))
        end
  end.

(** [postfixRE], line 314: from the first question mark or hash to the
    end of the string (the [s] flag lets the dot cross line ends). *)
Definition isPostfixStart (c : ascii) : bool :=
  Ascii.eqb c "?" || Ascii.eqb c "#".

(** [cleanUrl], lines 315-317. *)
Definition cleanUrl (url : string) : string :=
  Str.take_until isPostfixStart url.

(** ** Data model *)

(** The identity of the [Map] handed over as [options.packageCache]. *)
Definition PackageCache : Type := N.

(** [InternalResolveOptions], the fields the two functions read.  A flag
    that the source only tests for truthiness is a [bool]. *)
Record Options : Type := {
  root : string;
  dedupe : option (list string);
  isBuild : bool;
  preserveSymlinks : bool;
  packageCache : option PackageCache;
  tryEsmOnly : bool;
  idOnly : bool;
  scan : bool;
  ssrOptimizeCheck : bool;
  (** [options.ssrConfig?.optimizeDeps?.exclude] and [.include] *)
  ssrExclude : option (list string);
  ssrInclude : option (list string);
  browserField : bool;
  isRequire : option bool;
  mainFields : list string;
  extensions : list string
}.

(** [PackageData]: the immutable part of a package object.  [ref] is the
    object's identity; its two memo tables live in the [Store] under it. *)
Record PackageData : Type := {
  ref : N;
  dir : string;
  data : json;
  hasSideEffects : string -> jsval
}.

(** [PartialResolvedId]; an absent property is [None]. *)
Record PartialResolvedId : Type := {
  res_id : string;
  res_external : option bool;
  res_moduleSideEffects : option jsval
}.

(** [depsOptimizer.options]. *)
Record DepOptimizationOptions : Type := {
  exclude : option (list string);
  include : option (list string)
}.

Definition OptimizedInfo : Type := json.

(** [DepsOptimizer], the pre-bundling coordinator. *)
Record DepsOptimizer : Type := {
  optimizerOptions : DepOptimizationOptions;
  (** [depsOptimizer.metadata.browserHash] *)
  browserHash : string;
  registerMissingImport : string -> string -> OptimizedInfo;
  getOptimizedDepId : OptimizedInfo -> string
}.

(** The three results of [mapWithBrowserField]: a string, [false], or
    [undefined]. *)
Inductive BrowserMapping : Type :=
| Mapped (target : string)
| MappedFalse
| NotMapped.

(** ** Effects: thrown errors, the package memo tables, the call log *)

(** A thrown [Error], by its message. *)
Definition JsError : Type := string.

Inductive outcome (A : Type) : Type :=
| Ret (a : A)
| Throw (e : JsError).
Arguments Ret {A} a.
Arguments Throw {A} e.

(** Calls to collaborators that read the filesystem, parse manifests or
    talk to the pre-bundling coordinator, with their arguments. *)
Inductive Event : Type :=
| EvExistsSync (file : string)
| EvResolvePackageData (pkgId basedir : string) (symlinks : bool)
    (cache : option PackageCache)
| EvFindNearestMainPackageData (basedir : string) (cache : option PackageCache)
| EvFindNearestPackageData (basedir : string) (cache : option PackageCache)
| EvResolvePackageEntry (id : string) (pkg : N) (targetWeb : bool)
    (options : Options)
| EvResolveExportsOrImports (pkg : N) (key : string) (options : Options)
    (targetWeb : bool)
| EvMapWithBrowserField (pkg : N) (relativePath : string)
| EvTryFsResolve (fsPath : string) (options : Options)
    (tryIndex targetWeb : bool)
| EvRegisterMissingImport (id resolved : string).

(** The memo tables of all package objects, keyed by the object's identity
    and the requested subpath. [webResolvedImports] is the field the source
    reads off the package object (line 530) and writes at line 581. *)
Record Store : Type := {
  webResolvedImports : gmap (N * string) string;
  nodeResolvedImports : gmap (N * string) string
}.

(** A computation: from the store before to an outcome, the store after and
    the calls it made, oldest first.  A throw keeps the store and the calls
    made so far. *)
Definition M (A : Type) : Type := Store -> outcome A * Store * list Event.

Definition ret {A} (a : A) : M A := fun st => (Ret a, st, []).

Definition throw {A} (e : JsError) : M A := fun st => (Throw e, st, []).

Definition bind {A B} (m : M A) (k : A -> M B) : M B :=
  fun st =>
    match m st with
    | (Ret a, st1, ev1) =>
        match k a st1 with
        | (r, st2, ev2) => (r, st2, ev1 ++ ev2)
        end
    | (Throw e, st1, ev1) => (Throw e, st1, ev1)
    end.

(** [try { m } catch (err) { handler err }]. *)
Definition tryCatch {A} (m : M A) (handler : JsError -> M A) : M A :=
  fun st =>
    match m st with
    | (Ret a, st1, ev1) => (Ret a, st1, ev1)
    | (Throw e, st1, ev1) =>
        match handler e st1 with
        | (r, st2, ev2) => (r, st2, ev1 ++ ev2)
        end
    end.

(** A call to a collaborator: log it, then return or throw what it does. *)
Definition call {A} (ev : Event) (result : outcome A) : M A :=
  fun st => (result, st, [ev]).

Notation "'let*' x := m 'in' k" := (bind m (fun x => k))
  (at level 10, x name, m at level 100, k at level 200,
   format "'[v' 'let*'  x  :=  m  'in' '/' k ']'").
Notation "'do*' m 'in' k" := (bind m (fun _ => k))
  (at level 10, m at level 100, k at level 200,
   format "'[v' 'do*'  m  'in' '/' k ']'").

(** Modelled from the spec: [getResolvedCache] and [setResolvedCache] are
    closures of the package object, built where package data is loaded,
    outside [src/].  The spec keys a resolution cache entry by
    (packageId, subpath, targetIsWeb); the entries for the web target are
    the package's [webResolvedImports] table, the others sit in a second
    table of the same shape. *)
Definition cacheEntry (st : Store) (pkg : PackageData) (key : string)
    (targetWeb : bool) : option string :=
  if targetWeb then webResolvedImports st !! (ref pkg, key)
  else nodeResolvedImports st !! (ref pkg, key).

Definition getResolvedCache (pkg : PackageData) (key : string)
    (targetWeb : bool) : M (option string) :=
  fun st => (Ret (cacheEntry st pkg key targetWeb), st, []).

Definition setResolvedCache (pkg : PackageData) (key entry : string)
    (targetWeb : bool) : M unit :=
  fun st =>
    (Ret tt,
     if targetWeb
     then {| webResolvedImports := <[(ref pkg, key) := entry]> (webResolvedImports st);
             nodeResolvedImports := nodeResolvedImports st |}
     else {| webResolvedImports := webResolvedImports st;
             nodeResolvedImports := <[(ref pkg, key) := entry]> (nodeResolvedImports st) |},
     []).

(** The assignment [webResolvedImports[id] = v] of line 581. *)
Definition setWebResolvedImport (pkg : PackageData) (key v : string) : M unit :=
  fun st =>
    (Ret tt,
     {| webResolvedImports := <[(ref pkg, key) := v]> (webResolvedImports st);
        nodeResolvedImports := nodeResolvedImports st |},
     []).

(** ** What the source calls and does not define *)

Class Host : Type := {
  (** node:path *)
  path_isAbsolute : string -> bool;
  path_dirname : string -> string;
  path_extname : string -> string;
  path_join : string -> string -> string;
  (** node's documentation: a zero-length string is not absolute *)
  path_isAbsolute_empty : path_isAbsolute EmptyString = false;
  (** node:fs *)
  fs_existsSync : string -> bool;
  (** node:module *)
  builtinModules : list string;
  (** the runtime's built-in prototypes: does a value of this kind
      inherit a member under this name? *)
  prototypeHas : JsKind -> string -> bool;
  (** package lookup *)
  resolvePackageData :
    string -> string -> bool -> option PackageCache -> outcome (option PackageData);
  findNearestMainPackageData :
    string -> option PackageCache -> outcome (option PackageData);
  findNearestPackageData :
    string -> option PackageCache -> outcome (option PackageData);
  (** resolvers *)
  resolvePackageEntry :
    string -> PackageData -> bool -> Options -> outcome (option string);
  resolveExportsOrImports :
    json -> string -> Options -> bool -> string -> outcome (option string);
  mapWithBrowserField : string -> jsval -> outcome BrowserMapping;
  tryFsResolve : string -> Options -> bool -> bool -> outcome (option string);
  splitFileAndPostfix : string -> string * string;
  (** constants and predicates of the optimizer *)
  DEFAULT_MAIN_FIELDS : list string;
  isInNodeModules : string -> bool;
  isOptimizable : string -> DepOptimizationOptions -> bool;
  OPTIMIZABLE_ENTRY_RE : string -> bool;
  SPECIAL_QUERY_RE : string -> bool;
  injectQuery : string -> string -> string
}.

Section Resolver.

Context {host : Host}.

(** [isBuiltin], lines 42-66. *)
Definition builtins : list string := builtinModules ++ extraBuiltins.

Definition isBuiltin (id : string) : bool :=
  Str.mem
    (if String.prefix NODE_BUILTIN_NAMESPACE id
     then Str.drop (String.length NODE_BUILTIN_NAMESPACE) id
     else id)
    builtins.

(** ** [resolveDeepImport], lines 527-600 *)

(** Line 545: the [exports] and [browser] fields of the manifest. *)
Definition exportsField (pkg : PackageData) : jsval :=
  js_get (Some (data pkg)) "exports".

Definition browserFieldTable (pkg : PackageData) : jsval :=
  js_get (Some (data pkg)) "browser".

(** How the exports and browser branches leave: by the early [return] of
    line 581, or on to the filesystem step with the value of [relativeId]. *)
Inductive Flow : Type :=
| Return (v : option string)
| Continue (relativeId : option string).

(** The message of the [Error] thrown at lines 569-572. *)
Definition subpathNotDefinedMessage (relativeId : option string)
    (pkgDir : string) : string :=
  "Package subpath '" +:+ str_toString relativeId +:+ "' is not defined by "
  +:+ Str.dquote +:+ "exports" +:+ Str.dquote +:+ " in "
  +:+ path_join pkgDir "package.json" +:+ ".".

(** Lines 547-583: map [relativeId] through the exports field or else the
    browser field. *)
Definition mapRelativeId (id : string) (pkg : PackageData) (targetWeb : bool)
    (options : Options) : M Flow :=
  if truthy (exportsField pkg) then
    let* relativeId :=
      (if isObject (exportsField pkg) && negb (Array_isArray (exportsField pkg)) then
         let '(file, postfix) := splitFileAndPostfix id in
         let* exportsId :=
           call (EvResolveExportsOrImports (ref pkg) file options targetWeb)
             (resolveExportsOrImports (data pkg) file options targetWeb "exports") in
         ret (match exportsId with
              | Some e => Some (e +:+ postfix)
              | None => None
              end)
       else ret None) in
    if str_truthy relativeId then ret (Continue relativeId)
    else throw (subpathNotDefinedMessage relativeId (dir pkg))
  else if targetWeb && browserField options && isObject (browserFieldTable pkg) then
    let '(file, postfix) := splitFileAndPostfix id in
    let* mapped :=
      call (EvMapWithBrowserField (ref pkg) file)
        (mapWithBrowserField file (browserFieldTable pkg)) in
    match mapped with
    | Mapped m =>
        if Str.is_empty m then ret (Continue (Some id))
        else ret (Continue (Some (m +:+ postfix)))
    | MappedFalse =>
        do* setWebResolvedImport pkg id browserExternalId in
        ret (Return (Some browserExternalId))
    | NotMapped => ret (Continue (Some id))
    end
  else ret (Continue (Some id)).

(** Lines 585-599: the filesystem step. *)
Definition resolveRelativeId (id : string) (pkg : PackageData)
    (targetWeb : bool) (options : Options) (relativeId : option string)
    : M (option string) :=
  match relativeId with
  | Some (String c rest) =>
      let* resolved :=
        call (EvTryFsResolve (path_join (dir pkg) (String c rest)) options
                (negb (truthy (exportsField pkg))) targetWeb)
          (tryFsResolve (path_join (dir pkg) (String c rest)) options
             (negb (truthy (exportsField pkg))) targetWeb) in
      if str_truthy resolved then
        match resolved with
        | Some r => do* setResolvedCache pkg id r targetWeb in ret (Some r)
        | None => ret None
        end
      else ret None
  | _ => ret None
  end.

Definition resolveDeepImport (id : string) (pkg : PackageData)
    (targetWeb : bool) (options : Options) : M (option string) :=
  let* cache := getResolvedCache pkg id targetWeb in
  if str_truthy cache then ret cache
  else
    let* flow := mapRelativeId id pkg targetWeb options in
    match flow with
    | Return v => ret v
    | Continue relativeId => resolveRelativeId id pkg targetWeb options relativeId
    end.

(** ** [tryNodeResolve], lines 324-521 *)

(** Lines 336-338: [pkgId]. *)
Definition packageIdOf (id : string) : string :=
  match deepImportRE id with
  | Some group => group
  | None => id
  end.

(** Lines 340-352: the value of [basedir].  [fs.existsSync] is only called
    when the tests before it let the evaluation reach it. *)
Definition chooseBasedir (id : string) (importer : option string)
    (options : Options) : M string :=
  let pkgId := packageIdOf id in
  if match dedupe options with
     | Some names => Str.mem pkgId names
     | None => false
     end
  then ret (root options)
  else
    match importer with
    | Some imp =>
        if negb (Str.is_empty imp) && path_isAbsolute imp then
          if match Str.last imp with
             | Some c => Ascii.eqb c "*"
             | None => false
             end
          then ret (path_dirname imp)
          else
            let* found :=
              call (EvExistsSync (cleanUrl imp))
                (Ret (fs_existsSync (cleanUrl imp))) in
            if found then ret (path_dirname imp) else ret (root options)
        else ret (root options)
    | None => ret (root options)
    end.

(** A member found on the prototype chain, when the value has none of
    its own under the key. *)
Definition inherited (kind : JsKind) (k : string) : Member :=
  if prototypeHas kind k then MemberInherited else MemberUndefined.

(** The read [v?.[k]] with a computed key: [undefined] on [undefined] and
    [null]; the own properties of an object, the elements and the length
    of an array, the code units and the length of a string; then what the
    value inherits. *)
Definition js_index (v : jsval) (k : string) : Member :=
  match v with
  | None | Some JNull => MemberUndefined
  | Some (JObj fields) =>
      match assoc k fields with
      | Some x => MemberValue x
      | None => inherited KObject k
      end
  | Some (JArr items) =>
      if String.eqb k "length"
      then MemberValue (JNum (Z.of_nat (length items)))
      else
        match arrayIndex k with
        | Some i =>
            match items !! N.to_nat i with
            | Some x => MemberValue x
            | None => inherited KArray k
            end
        | None => inherited KArray k
        end
  | Some (JStr s) =>
      if String.eqb k "length"
      then MemberValue (JNum (Z.of_N (js_length s)))
      else
        match arrayIndex k with
        | Some i =>
            if (i <? js_length s)%N then MemberCodeUnit
            else inherited KString k
        | None => inherited KString k
        end
  | Some (JNum _) => inherited KNumber k
  | Some (JBool _) => inherited KBoolean k
  end.

(** Lines 366-369: the consumer's manifest marks [id] an optional peer. *)
Definition isOptionalPeerDep (mainPkg : jsval) (id : string) : bool :=
  member_truthy (js_index (js_get mainPkg "peerDependencies") id)
  && truthy (member_get (js_index (js_get mainPkg "peerDependenciesMeta") id)
               "optional").

(** Line 371. *)
Definition optionalPeerDepResult (mainPkg : jsval) (id : string)
    : PartialResolvedId :=
  {| res_id := optionalPeerDepId +:+ ":" +:+ id +:+ ":"
               +:+ js_toString (js_get mainPkg "name");
     res_external := None;
     res_moduleSideEffects := None |}.

(** Lines 355-377: the package was not found. *)
Definition resolveMissingPackage (id basedir : string) (options : Options)
    : M (option PartialResolvedId) :=
  if negb (String.eqb basedir (root options))
     && negb (isBuiltin id)
     && negb (Str.has_char Str.nul id)
     && bareImportRE id
  then
    let* found :=
      call (EvFindNearestMainPackageData basedir (packageCache options))
        (findNearestMainPackageData basedir (packageCache options)) in
    let mainPkg : jsval := option_map data found in
    if truthy mainPkg then
      if isOptionalPeerDep mainPkg id
      then ret (Some (optionalPeerDepResult mainPkg id))
      else ret None
    else ret None
  else ret None.

(** Line 379: [resolveId], chosen by whether [deepImportRE] matched. *)
Definition resolveId (deep : bool) (unresolvedId : string) (pkg : PackageData)
    (targetWeb : bool) (options : Options) : M (option string) :=
  if deep then resolveDeepImport unresolvedId pkg targetWeb options
  else
    call (EvResolvePackageEntry unresolvedId (ref pkg) targetWeb options)
      (resolvePackageEntry unresolvedId pkg targetWeb options).

(** Lines 391-396: the options of the second attempt. *)
Definition esmOptions (options : Options) : Options :=
  {| root := root options;
     dedupe := dedupe options;
     isBuild := isBuild options;
     preserveSymlinks := preserveSymlinks options;
     packageCache := packageCache options;
     tryEsmOnly := tryEsmOnly options;
     idOnly := idOnly options;
     scan := scan options;
     ssrOptimizeCheck := ssrOptimizeCheck options;
     ssrExclude := ssrExclude options;
     ssrInclude := ssrInclude options;
     browserField := browserField options;
     isRequire := Some false;
     mainFields := DEFAULT_MAIN_FIELDS;
     extensions := DEFAULT_EXTENSIONS |}.

(** Lines 382-397: the first attempt, and the second when [tryEsmOnly]. *)
Definition resolveWithRetry (deep : bool) (unresolvedId : string)
    (pkg : PackageData) (targetWeb : bool) (options : Options)
    : M (option string) :=
  let* resolved :=
    tryCatch (resolveId deep unresolvedId pkg targetWeb options)
      (fun err => if tryEsmOnly options then ret None else throw err) in
  if negb (str_truthy resolved) && tryEsmOnly options
  then resolveId deep unresolvedId pkg targetWeb (esmOptions options)
  else ret resolved.

Definition isJsExtension (ext : string) : bool :=
  String.eqb ext ".js" || String.eqb ext ".mjs" || String.eqb ext ".cjs".

(** Lines 402-426: [processResult], with the variables it closes over. *)
Definition processResult (id : string) (deep : bool) (pkg : PackageData)
    (externalize allowLinkedExternal : bool) (resolved : PartialResolvedId)
    : PartialResolvedId :=
  if negb externalize then resolved
  else if negb allowLinkedExternal && negb (isInNodeModules (res_id resolved))
  then resolved
  else
    let resolvedExt := path_extname (res_id resolved) in
    if negb (Str.is_empty resolvedExt) && negb (isJsExtension resolvedExt)
    then resolved
    else
      let resolvedId :=
        if deep
           && negb (truthy (exportsField pkg))
           && negb (String.eqb (path_extname id) resolvedExt)
        then Str.slice_from (Str.indexOf id (res_id resolved)) (res_id resolved)
        else id in
      {| res_id := resolvedId;
         res_external := Some true;
         res_moduleSideEffects := res_moduleSideEffects resolved |}.

Definition plainResult (resolved : string) : PartialResolvedId :=
  {| res_id := resolved; res_external := None; res_moduleSideEffects := None |}.

Definition withSideEffects (pkg : PackageData) (resolved : string)
    : PartialResolvedId :=
  {| res_id := resolved;
     res_external := None;
     res_moduleSideEffects := Some (hasSideEffects pkg resolved) |}.

Definition memOpt (x : string) (xs : option (list string)) : bool :=
  match xs with
  | Some l => Str.mem x l
  | None => false
  end.

(** The error of reading a property of [undefined], where the source
    asserts [depsOptimizer!]. *)
Definition undefinedOptimizer : JsError :=
  "Cannot read properties of undefined".

(** Lines 464-482: [skipOptimization]; the operands are evaluated left to
    right and [findNearestPackageData] only when the ones before it leave
    the result open. *)
Definition skipOptimization (id pkgId : string) (importer : option string)
    (options : Options) (ssr : bool) (resolved ext : string) (isJsType : bool)
    (excludeList includeList : option (list string)) : M bool :=
  if negb isJsType
     || (str_truthy importer
         && match importer with Some imp => isInNodeModules imp | None => false end)
     || memOpt pkgId excludeList
     || memOpt id excludeList
     || SPECIAL_QUERY_RE resolved
     || (negb (ssrOptimizeCheck options) && negb (isBuild options) && ssr)
  then ret true
  else if negb ssr then ret false
  else
    let* cjsLike :=
      (if String.eqb ext ".cjs" then ret true
       else if String.eqb ext ".js" then
         let* nearest :=
           call (EvFindNearestPackageData (path_dirname resolved) (packageCache options))
             (findNearestPackageData (path_dirname resolved) (packageCache options)) in
         ret (match js_get (option_map data nearest) "type" with
              | Some (JStr t) => negb (String.eqb t "module")
              | _ => true
              end)
       else ret false) in
    ret (negb cjsLike && negb (memOpt pkgId includeList || memOpt id includeList)).

(** Lines 428-520: from a truthy [resolved] to the result. *)
Definition shapeResult (id : string) (importer : option string)
    (options : Options) (depsOptimizer : option DepsOptimizer)
    (ssr externalize allowLinkedExternal : bool) (deep : bool)
    (pkg : PackageData) (resolved : string) : M (option PartialResolvedId) :=
  let pkgId := packageIdOf id in
  if negb (idOnly options)
     && ((negb (scan options) && isBuild options && negb (bool_decide (is_Some depsOptimizer)))
         || externalize)
  then
    ret (Some (processResult id deep pkg externalize allowLinkedExternal
                 (withSideEffects pkg resolved)))
  else
    let ext := path_extname resolved in
    if negb (ssrOptimizeCheck options)
       && (negb (isInNodeModules resolved)
           || negb (bool_decide (is_Some depsOptimizer))
           || scan options)
    then ret (Some (plainResult resolved))
    else
      let isJsType :=
        match depsOptimizer with
        | Some d => isOptimizable resolved (optimizerOptions d)
        | None => OPTIMIZABLE_ENTRY_RE resolved
        end in
      let excludeList :=
        if ssrOptimizeCheck options then ssrExclude options
        else match depsOptimizer with
             | Some d => exclude (optimizerOptions d)
             | None => None
             end in
      let includeList :=
        if ssrOptimizeCheck options then ssrInclude options
        else match depsOptimizer with
             | Some d => include (optimizerOptions d)
             | None => None
             end in
      let* skip :=
        skipOptimization id pkgId importer options ssr resolved ext isJsType
          excludeList includeList in
      if ssrOptimizeCheck options then
        ret (Some (plainResult
                     (if skip then injectQuery resolved "__vite_skip_optimization"
                      else resolved)))
      else
        let* resolved' :=
          (if skip then
             if negb (isBuild options) then
               match depsOptimizer with
               | Some d =>
                   let versionHash := browserHash d in
                   if negb (Str.is_empty versionHash) && isJsType
                   then ret (injectQuery resolved ("v=" +:+ versionHash))
                   else ret resolved
               | None => throw undefinedOptimizer
               end
             else ret resolved
           else
             match depsOptimizer with
             | Some d =>
                 let* optimizedInfo :=
                   call (EvRegisterMissingImport id resolved)
                     (Ret (registerMissingImport d id resolved)) in
                 ret (getOptimizedDepId d optimizedInfo)
             | None => throw undefinedOptimizer
             end) in
        if negb (idOnly options) && negb (scan options) && isBuild options
        then ret (Some (withSideEffects pkg resolved'))
        else ret (Some (plainResult resolved')).

(** Lines 398-520: nothing for a falsy [resolved], else the shaped result. *)
Definition finishResolve (id : string) (importer : option string)
    (options : Options) (depsOptimizer : option DepsOptimizer)
    (ssr externalize allowLinkedExternal : bool) (deep : bool)
    (pkg : PackageData) (resolved : option string)
    : M (option PartialResolvedId) :=
  match resolved with
  | Some (String c rest) =>
      shapeResult id importer options depsOptimizer ssr externalize
        allowLinkedExternal deep pkg (String c rest)
  | _ => ret None
  end.

(** Line 380. *)
Definition unresolvedIdOf (id : string) : string :=
  match deepImportRE id with
  | Some group => "." +:+ Str.drop (String.length group) id
  | None => id
  end.

Definition tryNodeResolve (id : string) (importer : option string)
    (options : Options) (targetWeb : bool)
    (depsOptimizer : option DepsOptimizer)
    (ssr externalize allowLinkedExternal : bool)
    : M (option PartialResolvedId) :=
  let deep := bool_decide (is_Some (deepImportRE id)) in
  let pkgId := packageIdOf id in
  let* basedir := chooseBasedir id importer options in
  let* pkg :=
    call (EvResolvePackageData pkgId basedir (preserveSymlinks options)
            (packageCache options))
      (resolvePackageData pkgId basedir (preserveSymlinks options)
         (packageCache options)) in
  match pkg with
  | None => resolveMissingPackage id basedir options
  | Some pkg =>
      let* resolved :=
        resolveWithRetry deep (unresolvedIdOf id) pkg targetWeb options in
      finishResolve id importer options depsOptimizer ssr externalize
        allowLinkedExternal deep pkg resolved
  end.

End Resolver.

(** ** Reading a run *)

(** The [tryIndex] flags of the filesystem candidate resolutions in a log. *)
Definition tryIndexFlags (evs : list Event) : list bool :=
  omap (fun ev => match ev with
                  | EvTryFsResolve _ _ tryIndex _ => Some tryIndex
                  | _ => None
                  end) evs.

(** The stems handed to the filesystem candidate resolver in a log. *)
Definition fsLookups (evs : list Event) : list string :=
  omap (fun ev => match ev with
                  | EvTryFsResolve stem _ _ _ => Some stem
                  | _ => None
                  end) evs.

(** The paths looked up in a browser-field table in a log. *)
Definition browserLookups (evs : list Event) : list string :=
  omap (fun ev => match ev with
                  | EvMapWithBrowserField _ p => Some p
                  | _ => None
                  end) evs.

(** The subpaths handed to the exports resolver in a log. *)
Definition exportsLookups (evs : list Event) : list string :=
  omap (fun ev => match ev with
                  | EvResolveExportsOrImports _ key _ _ => Some key
                  | _ => None
                  end) evs.

(** The files whose existence a log checked. *)
Definition existenceChecks (evs : list Event) : list string :=
  omap (fun ev => match ev with
                  | EvExistsSync file => Some file
                  | _ => None
                  end) evs.

(** The package lookup of line 354, as it appears in the log. *)
Definition packageLookup (id basedir : string) (options : Options) : Event :=
  EvResolvePackageData (packageIdOf id) basedir (preserveSymlinks options)
    (packageCache options).

(** The package id of the specifier is not in the dedupe list (line 341). *)
Definition notDeduped (id : string) (options : Options) : Prop :=
  forall names : list string,
    dedupe options = Some names -> packageIdOf id ∉ names.

(** A run that came after the calls [earlier]. *)
Definition withEarlier {A} (earlier : list Event)
    (run : outcome A * Store * list Event) : outcome A * Store * list Event :=
  (run.1.1, run.1.2, earlier ++ run.2).

(** Follows the spec's words (section 4.3): an ordered array of
    alternatives is evaluated until one resolves without raising
    NotDefined.  [resolveOne] resolves a single alternative. *)
Fixpoint specEvalAlternatives (resolveOne : json -> option string)
    (alternatives : list json) : option string :=
  match alternatives with
  | [] => None
  | alt :: rest =>
      match resolveOne alt with
      | Some target => Some target
      | None => specEvalAlternatives resolveOne rest
      end
  end.

(** ** A concrete host: a small project on a posix filesystem

    Used to run the embedding on concrete inputs.  The path functions agree
    with node's posix ones on normalized paths without a trailing slash. *)

Module Demo.

Fixpoint splitLast (p : ascii -> bool) (s : string) : option (string * string) :=
  match s with
  | EmptyString => None
  | String c rest =>
      match splitLast p rest with
      | Some (before, after) => Some (String c before, after)
      | None => if p c then Some (EmptyString, rest) else None
      end
  end.

Definition isAbsolute (p : string) : bool :=
  match p with
  | String c _ => isSlash c
  | EmptyString => false
  end.

Definition dirname (p : string) : string :=
  match splitLast isSlash p with
  | None => "."
  | Some (EmptyString, _) => "/"
  | Some (before, _) => before
  end.

Definition basename (p : string) : string :=
  match splitLast isSlash p with
  | None => p
  | Some (_, after) => after
  end.

Definition extname (p : string) : string :=
  match splitLast (Ascii.eqb ".") (basename p) with
  | None | Some (EmptyString, _) => EmptyString
  | Some (_, ext) => String "." ext
  end.

Definition join (a b : string) : string :=
  a +:+ "/" +:+ (if String.prefix "./" b then Str.drop 2 b else b).

(** The files of the project. *)
Definition files : list string :=
  ["/proj/package.json";
   "/proj/src/main.js";
   "/proj/packages/app/package.json";
   "/proj/packages/app/src/index.js";
   "/proj/node_modules/lib/package.json";
   "/proj/node_modules/lib/a.js";
   "/proj/node_modules/lib/b.js";
   "/proj/node_modules/alts/package.json";
   "/proj/node_modules/alts/a.js";
   "/proj/node_modules/legacy/package.json";
   "/proj/node_modules/legacy/util.js";
   "/proj/node_modules/legacy/bin/cli";
   "/proj/node_modules/legacy/tool/index.js";
   "/proj/node_modules/legacy/style.css";
   "/proj/node_modules/esm-only/package.json";
   "/proj/node_modules/esm-only/index.mjs"].

Definition existsSync (p : string) : bool := Str.mem p files.

Definition sideEffects (_ : string) : jsval := Some (JBool true).

(** A package with a subpath map as its exports field. *)
Definition libPkg : PackageData :=
  {| ref := 1%N;
     dir := "/proj/node_modules/lib";
     data := JObj [("name", JStr "lib");
                   ("exports", JObj [("./a", JStr "./a.js")]);
                   ("browser", JObj [("./a.js", JBool false)])];
     hasSideEffects := sideEffects |}.

(** A package whose exports field is an array of alternatives. *)
Definition altsPkg : PackageData :=
  {| ref := 2%N;
     dir := "/proj/node_modules/alts";
     data := JObj [("name", JStr "alts");
                   ("exports", JArr [JObj [("./x", JStr "./x.js")];
                                     JObj [("./a", JStr "./a.js")]])];
     hasSideEffects := sideEffects |}.

(** A package with no exports field and a browser field. *)
Definition legacyPkg : PackageData :=
  {| ref := 3%N;
     dir := "/proj/node_modules/legacy";
     data := JObj [("name", JStr "legacy");
                   ("main", JStr "util.js");
                   ("browser", JObj [("./server", JBool false);
                                     ("./util", JStr "./util.js")])];
     hasSideEffects := sideEffects |}.

(** A package whose entry only resolves under the import condition. *)
Definition esmOnlyPkg : PackageData :=
  {| ref := 4%N;
     dir := "/proj/node_modules/esm-only";
     data := JObj [("name", JStr "esm-only");
                   ("exports", JObj [("import", JStr "./index.mjs")])];
     hasSideEffects := sideEffects |}.

(** The consumer: it declares [foo] as an optional peer dependency. *)
Definition appPkg : PackageData :=
  {| ref := 5%N;
     dir := "/proj/packages/app";
     data := JObj [("name", JStr "app");
                   ("peerDependencies", JObj [("foo", JStr "*"); ("bar", JStr "*")]);
                   ("peerDependenciesMeta",
                    JObj [("foo", JObj [("optional", JBool true)])])];
     hasSideEffects := sideEffects |}.

Definition rootPkg : PackageData :=
  {| ref := 6%N;
     dir := "/proj";
     data := JObj [("name", JStr "proj")];
     hasSideEffects := sideEffects |}.

(** The string-keyed members of the built-in prototypes, as node 20 has
    them; every value inherits those of [Object.prototype]. *)
Definition objectPrototype : list string :=
  ["constructor"; "hasOwnProperty"; "isPrototypeOf"; "propertyIsEnumerable";
   "toLocaleString"; "toString"; "valueOf"; "__proto__"; "__defineGetter__";
   "__defineSetter__"; "__lookupGetter__"; "__lookupSetter__"].

Definition arrayPrototype : list string :=
  ["at"; "concat"; "copyWithin"; "entries"; "every"; "fill"; "filter"; "find";
   "findIndex"; "findLast"; "findLastIndex"; "flat"; "flatMap"; "forEach";
   "includes"; "indexOf"; "join"; "keys"; "lastIndexOf"; "map"; "pop"; "push";
   "reduce"; "reduceRight"; "reverse"; "shift"; "slice"; "some"; "sort";
   "splice"; "toReversed"; "toSorted"; "toSpliced"; "unshift"; "values";
   "with"].

Definition stringPrototype : list string :=
  ["at"; "charAt"; "charCodeAt"; "codePointAt"; "concat"; "endsWith";
   "includes"; "indexOf"; "lastIndexOf"; "localeCompare"; "match"; "matchAll";
   "normalize"; "padEnd"; "padStart"; "repeat"; "replace"; "replaceAll";
   "search"; "slice"; "split"; "startsWith"; "substring"; "toLocaleLowerCase";
   "toLocaleUpperCase"; "toLowerCase"; "toUpperCase"; "trim"; "trimEnd";
   "trimStart"; "isWellFormed"; "toWellFormed"; "substr"; "anchor"; "big";
   "blink"; "bold"; "fixed";
   "fontcolor"; "fontsize"; "italics"; "link"; "small"; "strike"; "sub";
   "sup"; "trimLeft"; "trimRight"].

Definition numberPrototype : list string :=
  ["toExponential"; "toFixed"; "toPrecision"].

Definition prototypeMember (kind : JsKind) (k : string) : bool :=
  Str.mem k
    (objectPrototype
     ++ match kind with
        | KObject | KBoolean => []
        | KArray => arrayPrototype
        | KString => stringPrototype
        | KNumber => numberPrototype
        end).

Definition lookupPackage (pkgId basedir : string) (_ : bool)
    (_ : option PackageCache) : outcome (option PackageData) :=
  Ret (if negb (String.prefix "/proj" basedir) then None
       else if String.eqb pkgId "lib" then Some libPkg
       else if String.eqb pkgId "alts" then Some altsPkg
       else if String.eqb pkgId "legacy" then Some legacyPkg
       else if String.eqb pkgId "esm-only" then Some esmOnlyPkg
       else None).

Definition nearestPackage (basedir : string) (_ : option PackageCache)
    : outcome (option PackageData) :=
  Ret (if String.prefix "/proj/packages/app" basedir then Some appPkg
       else if String.prefix "/proj/node_modules/lib" basedir then Some libPkg
       else if String.prefix "/proj/node_modules/legacy" basedir then Some legacyPkg
       else if String.prefix "/proj" basedir then Some rootPkg
       else None).

(** One exports target looked up for a subpath: a string for the package
    root, a subpath map by exact key, an array by its first alternative
    that resolves. *)
Fixpoint resolveTarget (fuel : nat) (target : json) (key : string) : option string :=
  match fuel with
  | O => None
  | S fuel' =>
      match target with
      | JStr s => if String.eqb key "." then Some s else None
      | JObj fields =>
          match assoc key fields with
          | Some (JStr s) => Some s
          | _ => None
          end
      | JArr alternatives =>
          (fix first (l : list json) : option string :=
             match l with
             | [] => None
             | alt :: rest =>
                 match resolveTarget fuel' alt key with
                 | Some r => Some r
                 | None => first rest
                 end
             end) alternatives
      | _ => None
      end
  end.

(** The entry of [esm-only] throws unless resolved for import. *)
Definition packageEntry (id : string) (pkg : PackageData) (_ : bool)
    (options : Options) : outcome (option string) :=
  if N.eqb (ref pkg) 4 then
    match isRequire options with
    | Some false => Ret (Some "/proj/node_modules/esm-only/index.mjs")
    | _ => Throw "No known conditions for the entry of esm-only"
    end
  else
    match js_get (Some (data pkg)) "main" with
    | Some (JStr main) => Ret (Some (join (dir pkg) main))
    | _ => Ret None
    end.

Definition exportsOrImports (manifest : json) (key : string) (_ : Options)
    (_ : bool) (field : string) : outcome (option string) :=
  match js_get (Some manifest) field with
  | Some target => Ret (resolveTarget 8 target key)
  | None => Ret None
  end.

Definition browserMapping (relativePath : string) (table : jsval)
    : outcome BrowserMapping :=
  Ret (match js_get table relativePath with
       | Some (JStr s) => Mapped s
       | Some (JBool false) => MappedFalse
       | _ => NotMapped
       end).

Definition firstExisting (candidates : list string) : option string :=
  List.find existsSync candidates.

Definition fsResolve (stem : string) (options : Options) (tryIndex : bool)
    (_ : bool) : outcome (option string) :=
  Ret (firstExisting
         (stem :: map (fun ext => stem +:+ ext) (extensions options)
          ++ (if tryIndex
              then map (fun ext => stem +:+ "/index" +:+ ext) (extensions options)
              else []))).

Definition splitPostfix (p : string) : string * string :=
  (cleanUrl p, Str.drop (String.length (cleanUrl p)) p).

#[export] Instance host : Host :=
  {| path_isAbsolute := isAbsolute;
     path_dirname := dirname;
     path_extname := extname;
     path_join := join;
     path_isAbsolute_empty := eq_refl;
     fs_existsSync := existsSync;
     builtinModules := ["fs"; "path"; "url"; "module"; "os"];
     prototypeHas := prototypeMember;
     resolvePackageData := lookupPackage;
     findNearestMainPackageData := nearestPackage;
     findNearestPackageData := nearestPackage;
     resolvePackageEntry := packageEntry;
     resolveExportsOrImports := exportsOrImports;
     mapWithBrowserField := browserMapping;
     tryFsResolve := fsResolve;
     splitFileAndPostfix := splitPostfix;
     DEFAULT_MAIN_FIELDS := ["module"; "jsnext:main"; "jsnext"];
     isInNodeModules := Str.includes "node_modules";
     isOptimizable := fun p _ => isJsExtension (extname p);
     OPTIMIZABLE_ENTRY_RE := fun p => isJsExtension (extname p);
     SPECIAL_QUERY_RE := fun _ => false;
     injectQuery := fun p q => p +:+ "?" +:+ q |}.

Definition options : Options :=
  {| root := "/proj";
     dedupe := Some ["lib"];
     isBuild := false;
     preserveSymlinks := false;
     packageCache := None;
     tryEsmOnly := false;
     idOnly := false;
     scan := false;
     ssrOptimizeCheck := false;
     ssrExclude := None;
     ssrInclude := None;
     browserField := true;
     isRequire := Some true;
     mainFields := ["main"];
     extensions := DEFAULT_EXTENSIONS |}.

Definition esmRetryOptions : Options :=
  {| root := "/proj";
     dedupe := Some ["lib"];
     isBuild := false;
     preserveSymlinks := false;
     packageCache := None;
     tryEsmOnly := true;
     idOnly := false;
     scan := false;
     ssrOptimizeCheck := false;
     ssrExclude := None;
     ssrInclude := None;
     browserField := true;
     isRequire := Some true;
     mainFields := ["main"];
     extensions := DEFAULT_EXTENSIONS |}.

Definition emptyStore : Store :=
  {| webResolvedImports := ∅; nodeResolvedImports := ∅ |}.

(** Two importers: a module of the consumer [app], a module of the project. *)
Definition appImporter : option string := Some "/proj/packages/app/src/index.js".

Definition mainImporter : option string := Some "/proj/src/main.js".

(** The message thrown at lines 569-572 for the manifests of [lib] and
    [alts]: the subpath slot reads [undefined]. *)
Definition libNotDefined : string :=
  "Package subpath 'undefined' is not defined by " +:+ Str.dquote +:+ "exports"
  +:+ Str.dquote +:+ " in /proj/node_modules/lib/package.json.".

Definition altsNotDefined : string :=
  "Package subpath 'undefined' is not defined by " +:+ Str.dquote +:+ "exports"
  +:+ Str.dquote +:+ " in /proj/node_modules/alts/package.json.".

End Demo.

(** The demo host on a node release whose [builtinModules] lists some
    modules only under their [node:] name. *)
Definition hostWithBuiltins (names : list string) : Host :=
  {| path_isAbsolute := Demo.isAbsolute;
     path_dirname := Demo.dirname;
     path_extname := Demo.extname;
     path_join := Demo.join;
     path_isAbsolute_empty := eq_refl;
     fs_existsSync := Demo.existsSync;
     builtinModules := names;
     prototypeHas := Demo.prototypeMember;
     resolvePackageData := Demo.lookupPackage;
     findNearestMainPackageData := Demo.nearestPackage;
     findNearestPackageData := Demo.nearestPackage;
     resolvePackageEntry := Demo.packageEntry;
     resolveExportsOrImports := Demo.exportsOrImports;
     mapWithBrowserField := Demo.browserMapping;
     tryFsResolve := Demo.fsResolve;
     splitFileAndPostfix := Demo.splitPostfix;
     DEFAULT_MAIN_FIELDS := ["module"; "jsnext:main"; "jsnext"];
     isInNodeModules := Str.includes "node_modules";
     isOptimizable := fun p _ => isJsExtension (Demo.extname p);
     OPTIMIZABLE_ENTRY_RE := fun p => isJsExtension (Demo.extname p);
     SPECIAL_QUERY_RE := fun _ => false;
     injectQuery := fun p q => p +:+ "?" +:+ q |}.

(** The imports registered with the pre-bundling coordinator in a log. *)
Definition registrations (evs : list Event) : list (string * string) :=
  omap (fun ev => match ev with
                  | EvRegisterMissingImport id resolved => Some (id, resolved)
                  | _ => None
                  end) evs.

(** The operands of [skipOptimization] that are tested before the
    manifest of the resolved file may be read (lines 465-473). *)
Definition skipsBeforeManifest {host : Host} (id : string)
    (importer : option string) (options : Options) (ssr : bool)
    (resolved : string) (isJsType : bool)
    (excludeList : option (list string)) : bool :=
  negb isJsType
  || (str_truthy importer
      && match importer with Some imp => isInNodeModules imp | None => false end)
  || memOpt (packageIdOf id) excludeList
  || memOpt id excludeList
  || SPECIAL_QUERY_RE resolved
  || (negb (ssrOptimizeCheck options) && negb (isBuild options) && ssr).

(** More of the demo project: a pre-bundling coordinator that excludes
    [legacy], the demo options with [idOnly] set, and a package linked
    from outside the project. *)
Module DemoMore.

Definition optimizer : DepsOptimizer :=
  {| optimizerOptions := {| exclude := Some ["legacy"]; include := None |};
     browserHash := "abc123";
     registerMissingImport := fun id resolved => JStr id;
     getOptimizedDepId :=
       fun info => "/proj/node_modules/.vite/deps/" +:+ json_toString info
                   +:+ ".js" |}.

Definition idOnlyOptions : Options :=
  {| root := "/proj";
     dedupe := Some ["lib"];
     isBuild := true;
     preserveSymlinks := false;
     packageCache := None;
     tryEsmOnly := false;
     idOnly := true;
     scan := false;
     ssrOptimizeCheck := false;
     ssrExclude := None;
     ssrInclude := None;
     browserField := true;
     isRequire := Some true;
     mainFields := ["main"];
     extensions := DEFAULT_EXTENSIONS |}.

Definition linkedPkg : PackageData :=
  {| ref := 7%N;
     dir := "/work/linked-src";
     data := JObj [("name", JStr "linked")];
     hasSideEffects := Demo.sideEffects |}.







End DemoMore.

(** ** The rest of the source: path helpers *)

Definition backslash : ascii := ascii_of_nat 92.

(** [slash], lines 93-96: every backslash of the path becomes a slash. *)
Fixpoint slash (p : string) : string :=
  match p with
  | EmptyString => EmptyString
  | String c rest =>
      String (if Ascii.eqb c backslash then "/"%char else c) (slash rest)
  end.

(** ** The configuration loader, lines 9-303

    [lookupFile], [loadConfigFromFile], [bundleConfigFile] and
    [loadConfigFromBundledFile].  What they call outside the source
    (esbuild, the module loader of node, the filesystem, the clock) are
    the fields of [ConfigHost].  The loader threads the state of
    [_require] (its extension table and module cache) and logs the calls
    that touch the outside; a loop that climbs directories takes fuel,
    and a run that exhausts it is [None]. *)

(** Lines 23-30. *)
Definition DEFAULT_CONFIG_FILES : list string :=
  ["vite.config.js"; "vite.config.mjs"; "vite.config.ts";
   "vite.config.cjs"; "vite.config.mts"; "vite.config.cts"].

(** [s.endsWith(suffix)]; also a regular expression that is a literal
    suffix anchored at the end. *)
Definition endsWith (suffix s : string) : bool :=
  (String.length suffix <=? String.length s)
  && String.eqb (Str.drop (String.length s - String.length suffix) s) suffix.

(** [ConfigEnv], lines 9-16. *)
Inductive Command : Type := Build | Serve.

Record ConfigEnv : Type := {
  command : Command;
  mode : string;
  ssrBuild : option bool
}.

(** What a configuration module exports: a value, or a function from the
    environment to a value (or to a promise of one, which may reject). *)
Inductive UserConfigExport : Type :=
| ExportValue (v : jsval)
| ExportFunction (f : ConfigEnv -> outcome jsval).

(** [module.exports] of a required file, by the three reads of line 301. *)
Record RawModule : Type := {
  rawEsModule : bool;
  rawDefault : UserConfigExport;
  rawSelf : UserConfigExport
}.

(** An entry of [_require.extensions]: a loader of node, the loader
    installed at line 290, or [undefined]. *)
Inductive Loader : Type :=
| NativeLoader (name : string)
| PatchedLoader (realFileName bundledCode : string) (defaultLoader : Loader)
| UndefinedLoader.

(** What a loader does with a file. *)
Inductive LoaderAction : Type :=
| CompileCode (code filename : string)
| RunNative (name filename : string)
| CallUndefined.

(** Lines 290-296: the installed loader compiles the bundled code for the
    real file name and hands every other file to the loader it replaced. *)
Fixpoint loaderAction (loader : Loader) (filename : string) : LoaderAction :=
  match loader with
  | NativeLoader name => RunNative name filename
  | PatchedLoader realFileName bundledCode defaultLoader =>
      if String.eqb filename realFileName
      then CompileCode bundledCode filename
      else loaderAction defaultLoader filename
  | UndefinedLoader => CallUndefined
  end.

(** The options handed to esbuild, lines 186-236; the two plugins are
    [externalizeDeps] and [injectFileScopeVariables] below. *)
Record BuildOptions : Type := {
  absWorkingDir : string;
  entryPoints : list string;
  outfile : string;
  write : bool;
  target : list string;
  platform : string;
  bundle : bool;
  format : string;
  buildMainFields : list string;
  sourcemap : string;
  metafileOption : bool;
  define : list (string * string);
  plugins : list string
}.

(** The result of esbuild: the texts of the output files, and the keys of
    [metafile.inputs] when there is a metafile. *)
Record BuildResult : Type := {
  outputFiles : list string;
  metafileInputs : option (list string)
}.

Record Bundled : Type := {
  code : string;
  dependencies : list string
}.

(** What [loadConfigFromFile] resolves to. *)
Record LoadedConfig : Type := {
  configPath : string;
  config : jsval;
  configDependencies : list string
}.

(** The state of [_require]. *)
Record RequireState : Type := {
  requireExtensions : gmap string Loader;
  requireCache : gset string
}.

Inductive LoaderEvent : Type :=
| LdExistsSync (file : string)
| LdConsoleWarn (message : string)
| LdConsoleError (message : string)
| LdBuild (options : BuildOptions)
| LdWriteFile (file contents : string)
| LdImport (url : string)
| LdUnlink (file : string)
| LdRealpath (file : string)
| LdRequireResolve (file : string)
| LdRequire (file : string).

Class ConfigHost : Type := {
  (** [process.cwd()] *)
  cwd : string;
  (** [path.resolve(...segments)] and [path.posix.normalize] *)
  path_resolve : list string -> string;
  path_posix_normalize : string -> string;
  (** [os.platform() === 'win32'] *)
  isWindows : bool;
  (** [fs.statSync(file, { throwIfNoEntry: false })], by the [isFile()] of
      the stats it returns; [None] when there is no entry *)
  fs_statSync : string -> outcome (option bool);
  fs_readFileSync : string -> outcome string;
  JSON_parse : string -> outcome json;
  JSON_stringify : string -> string;
  (** [pathToFileURL(p)] as a string *)
  pathToFileURL : string -> string;
  esbuild_build : BuildOptions -> outcome BuildResult;
  fsp_writeFile : string -> string -> outcome unit;
  fsp_readFile : string -> outcome string;
  fsp_realpath : string -> outcome string;
  (** [(await dynamicImport(url)).default] *)
  dynamicImportDefault : string -> outcome UserConfigExport;
  require_resolve : string -> outcome string;
  (** [_require(file)] under an extension table: what the call returns or
      throws, and the keys of [_require.cache] when it is over (node caches
      what it loads) *)
  require_load : gmap string Loader -> string -> outcome RawModule;
  require_cached : gmap string Loader -> gset string -> string -> gset string;
  (** [Date.now()], [Math.random().toString(16).slice(2)] and the elapsed
      time with two decimals, as text *)
  dateNow : string;
  randomHex : string;
  elapsedMs : string
}.

(** The loader monad: state, log and thrown errors as for the resolver,
    and [None] for a run that exhausts its fuel. *)
Definition L (A : Type) : Type :=
  RequireState -> option (outcome A * RequireState * list LoaderEvent).

Definition lret {A} (a : A) : L A := fun st => Some (Ret a, st, []).

Definition lthrow {A} (e : JsError) : L A := fun st => Some (Throw e, st, []).

Definition lbind {A B} (m : L A) (k : A -> L B) : L B :=
  fun st =>
    match m st with
    | Some (Ret a, st1, ev1) =>
        match k a st1 with
        | Some (r, st2, ev2) => Some (r, st2, ev1 ++ ev2)
        | None => None
        end
    | Some (Throw e, st1, ev1) => Some (Throw e, st1, ev1)
    | None => None
    end.

Definition lcall {A} (ev : LoaderEvent) (result : outcome A) : L A :=
  fun st => Some (result, st, [ev]).

Definition lemit (ev : LoaderEvent) : L unit := lcall ev (Ret tt).

(** [try { m } finally { cleanup }] for a cleanup that does not throw. *)
Definition ltryFinally {A} (m : L A) (cleanup : L unit) : L A :=
  fun st =>
    match m st with
    | Some (r, st1, ev1) =>
        match cleanup st1 with
        | Some (_, st2, ev2) => Some (r, st2, ev1 ++ ev2)
        | None => None
        end
    | None => None
    end.

(** [try { m } catch (e) { handler e }]. *)
Definition ltryCatch {A} (m : L A) (handler : JsError -> L A) : L A :=
  fun st =>
    match m st with
    | Some (Ret a, st1, ev1) => Some (Ret a, st1, ev1)
    | Some (Throw e, st1, ev1) =>
        match handler e st1 with
        | Some (r, st2, ev2) => Some (r, st2, ev1 ++ ev2)
        | None => None
        end
    | None => None
    end.

(** A pure step that may exhaust its fuel. *)
Definition lfuel {A} (a : option A) : L A :=
  fun st => match a with Some x => Some (Ret x, st, []) | None => None end.

Notation "'let+' x := m 'in' k" := (lbind m (fun x => k))
  (at level 10, x name, m at level 100, k at level 200,
   format "'[v' 'let+'  x  :=  m  'in' '/' k ']'").
Notation "'do+' m 'in' k" := (lbind m (fun _ => k))
  (at level 10, m at level 100, k at level 200,
   format "'[v' 'do+'  m  'in' '/' k ']'").

Section ConfigLoader.

Context {host : Host} {configHost : ConfigHost}.

(** [tryStatSync], lines 67-73, by the [isFile()] of its result. *)
Definition tryStatSync (file : string) : option bool :=
  match fs_statSync file with
  | Ret stats => stats
  | Throw _ => None
  end.

(** [tryStatSync(fullPath)?.isFile()] as a condition. *)
Definition isFileAt (fullPath : string) : bool :=
  match tryStatSync fullPath with
  | Some true => true
  | _ => false
  end.

(** [lookupFile], lines 74-88.  [fuel] bounds the directories visited. *)
Fixpoint lookupFile (fuel : nat) (dir : string) (fileNames : list string)
    : option (option string) :=
  match fuel with
  | O => None
  | S fuel' =>
      if Str.is_empty dir then Some None
      else
        match List.find (fun fileName => isFileAt (path_join dir fileName))
                fileNames with
        | Some fileName => Some (Some (path_join dir fileName))
        | None =>
            let parentDir := path_dirname dir in
            if String.eqb parentDir dir then Some None
            else lookupFile fuel' parentDir fileNames
        end
  end.

(** [normalizePath], lines 97-99. *)
Definition normalizePath (id : string) : string :=
  path_posix_normalize (if isWindows then slash id else id).

(** Lines 117-132 of [loadConfigFromFile]: the path of the config file. *)
Fixpoint firstExistingConfig (configRoot : string) (fileNames : list string)
    : L (option string) :=
  match fileNames with
  | [] => lret None
  | filename :: rest =>
      let filePath := path_resolve [configRoot; filename] in
      let+ found := lcall (LdExistsSync filePath) (Ret (fs_existsSync filePath)) in
      if found then lret (Some filePath)
      else firstExistingConfig configRoot rest
  end.

Definition resolveConfigPath (configFile : option string) (configRoot : string)
    : L (option string) :=
  match configFile with
  | Some (String c rest) => lret (Some (path_resolve [String c rest]))
  | _ => firstExistingConfig configRoot DEFAULT_CONFIG_FILES
  end.

(** Lines 139-151: is the config file an ES module?  The extension
    decides where it can; otherwise the nearest [package.json] above
    [configRoot] does, and an error while reading it counts as no. *)
Definition detectESM (fuel : nat) (resolvedPath configRoot : string)
    : option bool :=
  if endsWith ".mjs" resolvedPath || endsWith ".mts" resolvedPath then Some true
  else if endsWith ".cjs" resolvedPath || endsWith ".cts" resolvedPath
  then Some false
  else
    match lookupFile fuel configRoot ["package.json"] with
    | None => None
    | Some None => Some false
    | Some (Some pkg) =>
        Some (negb (Str.is_empty pkg)
              && match fs_readFileSync pkg with
                 | Ret text =>
                     match JSON_parse text with
                     | Ret manifest =>
                         match js_get (Some manifest) "type" with
                         | Some (JStr t) => String.eqb t "module"
                         | _ => false
                         end
                     | Throw _ => false
                     end
                 | Throw _ => false
                 end)
    end.

(** ** [bundleConfigFile], lines 179-242 *)

Definition dirnameVarName : string := "__vite_injected_original_dirname".
Definition filenameVarName : string := "__vite_injected_original_filename".
Definition importMetaUrlVarName : string :=
  "__vite_injected_original_import_meta_url".

Definition buildOptions (fileName : string) (isESM : bool) : BuildOptions :=
  {| absWorkingDir := cwd;
     entryPoints := [fileName];
     outfile := "out.js";
     write := false;
     target := ["node14.18"; "node16"];
     platform := "node";
     bundle := true;
     format := if isESM then "esm" else "cjs";
     buildMainFields := ["main"];
     sourcemap := "inline";
     metafileOption := true;
     define := [("__dirname", dirnameVarName);
                ("__filename", filenameVarName);
                ("import.meta.url", importMetaUrlVarName)];
     plugins := ["externalize-deps"; "inject-file-scope-variables"] |}.

(** Lines 207-211: the [onResolve] callback of [externalize-deps]; [true]
    stands for the result that marks the path external, [false] for no
    result. *)
Definition externalizeDeps (importPath : string) : bool :=
  negb (match importPath with
        | String c _ => Ascii.eqb c "."
        | EmptyString => false
        end)
  && negb (path_isAbsolute importPath).

(** Line 217: the filter of the [onLoad] callback, a dot, an optional c
    or m, j or t, s, at the end of the path. *)
Definition fileScopeFilter (filePath : string) : bool :=
  existsb (fun ext => endsWith ext filePath)
    [".js"; ".ts"; ".cjs"; ".cts"; ".mjs"; ".mts"].

(** Lines 217-232: the [onLoad] callback of
    [inject-file-scope-variables]: the loader and the contents. *)
Definition injectFileScopeVariables (filePath : string)
    : outcome (string * string) :=
  match fsp_readFile filePath with
  | Throw e => Throw e
  | Ret contents =>
      let injectValues :=
        "const " +:+ dirnameVarName +:+ " = "
        +:+ JSON_stringify (path_dirname filePath) +:+ ";"
        +:+ "const " +:+ filenameVarName +:+ " = "
        +:+ JSON_stringify filePath +:+ ";"
        +:+ "const " +:+ importMetaUrlVarName +:+ " = "
        +:+ JSON_stringify (pathToFileURL filePath) +:+ ";" in
      Ret (if endsWith "ts" filePath then "ts" else "js",
           injectValues +:+ contents)
  end.

(** The error of destructuring [result.outputFiles[0]] when there is no
    output file. *)
Definition noOutputFile : JsError :=
  "Cannot destructure property 'text' of undefined".

Definition bundleConfigFile (fileName : string) (isESM : bool) : L Bundled :=
  let+ result :=
    lcall (LdBuild (buildOptions fileName isESM))
      (esbuild_build (buildOptions fileName isESM)) in
  match outputFiles result with
  | text :: _ =>
      lret {| code := text;
              dependencies := match metafileInputs result with
                              | Some inputs => inputs
                              | None => []
                              end |}
  | [] => lthrow noOutputFile
  end.

(** ** [loadConfigFromBundledFile], lines 263-303 *)

Definition setExtension (ext : string) (loader : Loader) : L unit :=
  fun st =>
    Some (Ret tt,
          {| requireExtensions := <[ext := loader]> (requireExtensions st);
             requireCache := requireCache st |},
          []).

Definition deleteCached (key : string) : L unit :=
  fun st =>
    Some (Ret tt,
          {| requireExtensions := requireExtensions st;
             requireCache := requireCache st ∖ {[key]} |},
          []).

(** The call [_require(fileName)] of line 299.  What it returns or throws
    is the host's, and so is the module cache it leaves behind; the code
    it runs is taken not to assign to the extension table. *)
Definition requireFile (fileName : string) : L RawModule :=
  fun st =>
    Some (require_load (requireExtensions st) fileName,
          {| requireExtensions := requireExtensions st;
             requireCache :=
               require_cached (requireExtensions st) (requireCache st) fileName |},
          [LdRequire fileName]).

Definition temporaryFileBase (fileName : string) : string :=
  fileName +:+ ".timestamp-" +:+ dateNow +:+ "-" +:+ randomHex.

Definition loadConfigFromBundledFile (fileName bundledCode : string)
    (isESM : bool) : L UserConfigExport :=
  if isESM then
    let fileBase := temporaryFileBase fileName in
    let fileNameTmp := fileBase +:+ ".mjs" in
    let fileUrl := pathToFileURL fileBase +:+ ".mjs" in
    do+ lcall (LdWriteFile fileNameTmp bundledCode)
          (fsp_writeFile fileNameTmp bundledCode) in
    ltryFinally
      (lcall (LdImport fileUrl) (dynamicImportDefault fileUrl))
      (lemit (LdUnlink fileNameTmp))
  else
    let extension := path_extname fileName in
    let+ realFileName := lcall (LdRealpath fileName) (fsp_realpath fileName) in
    fun st =>
      let loaderExt :=
        if bool_decide (is_Some (requireExtensions st !! extension))
        then extension else ".js" in
      let defaultLoader :=
        default UndefinedLoader (requireExtensions st !! loaderExt) in
      (do+ setExtension loaderExt
             (PatchedLoader realFileName bundledCode defaultLoader) in
       let+ key := lcall (LdRequireResolve fileName) (require_resolve fileName) in
       do+ deleteCached key in
       let+ raw := requireFile fileName in
       do+ setExtension loaderExt defaultLoader in
       lret (if rawEsModule raw then rawDefault raw else rawSelf raw)) st.

(** ** [loadConfigFromFile], lines 104-177 *)

Definition configMustBeObject : JsError :=
  "config must export or return an object.".

(** Lines 153-176: bundle, load, evaluate and check the configuration. *)
Definition loadResolvedConfig (configEnv : ConfigEnv) (resolvedPath : string)
    (isESM : bool) : L LoadedConfig :=
  ltryCatch
    (let+ bundled := bundleConfigFile resolvedPath isESM in
     let+ userConfig :=
       loadConfigFromBundledFile resolvedPath (code bundled) isESM in
     do+ lemit (LdConsoleWarn
                  ("bundled config file loaded in " +:+ elapsedMs +:+ "ms")) in
     let+ configValue :=
       (match userConfig with
        | ExportFunction f => fun st => Some (f configEnv, st, [])
        | ExportValue v => lret v
        end) in
     if isObject configValue
     then lret {| configPath := normalizePath resolvedPath;
                  config := configValue;
                  configDependencies := dependencies bundled |}
     else lthrow configMustBeObject)
    (fun e =>
       do+ lemit (LdConsoleError ("failed to load config from " +:+ resolvedPath)) in
       lthrow e).

(** [configRoot] defaults to [process.cwd()] (line 107). *)
Definition loadConfigFromFile (fuel : nat) (configEnv : ConfigEnv)
    (configFile configRootArg : option string) : L (option LoadedConfig) :=
  let configRoot := default cwd configRootArg in
  let+ resolvedPath := resolveConfigPath configFile configRoot in
  match resolvedPath with
  | Some (String c rest) =>
      let+ isESM := lfuel (detectESM fuel (String c rest) configRoot) in
      let+ loaded := loadResolvedConfig configEnv (String c rest) isESM in
      lret (Some loaded)
  | _ =>
      do+ lemit (LdConsoleWarn "no config file found.") in
      lret None
  end.

(** The directory reached from [dir] by [n] steps of [path.dirname]. *)
Fixpoint ancestorDir (n : nat) (dir : string) : string :=
  match n with
  | O => dir
  | S n' => ancestorDir n' (path_dirname dir)
  end.

(** The existence check of a default config name, as the log has it. *)
Definition probe (configRoot fileName : string) : LoaderEvent :=
  LdExistsSync (path_resolve [configRoot; fileName]).

(** Lines 286-289: the extension whose loader is replaced, the loader it
    has before, and the extension table while the file is required. *)
Definition loaderExtOf (fileName : string) (st : RequireState) : string :=
  if bool_decide (is_Some (requireExtensions st !! path_extname fileName))
  then path_extname fileName else ".js".

Definition defaultLoaderOf (fileName : string) (st : RequireState) : Loader :=
  default UndefinedLoader (requireExtensions st !! loaderExtOf fileName st).

Definition patchedExtensions (fileName realFileName bundledCode : string)
    (st : RequireState) : gmap string Loader :=
  <[loaderExtOf fileName st :=
      PatchedLoader realFileName bundledCode (defaultLoaderOf fileName st)]>
    (requireExtensions st).

(** The messages written with [console.error] in a log. *)
Definition consoleErrors (evs : list LoaderEvent) : list string :=
  omap (fun ev => match ev with
                  | LdConsoleError message => Some message
                  | _ => None
                  end) evs.

(** The log lines of a failed load (line 174) and of a loaded bundle
    (line 160). *)
Definition failedToLoad (resolvedPath : string) : LoaderEvent :=
  LdConsoleError ("failed to load config from " +:+ resolvedPath).

Definition bundledLoaded : LoaderEvent :=
  LdConsoleWarn ("bundled config file loaded in " +:+ elapsedMs +:+ "ms").

(** The declarations that [injectFileScopeVariables] puts before the
    contents of a file (lines 219-226). *)
Definition injectedValues (filePath : string) : string :=
  "const " +:+ dirnameVarName +:+ " = "
  +:+ JSON_stringify (path_dirname filePath) +:+ ";"
  +:+ "const " +:+ filenameVarName +:+ " = "
  +:+ JSON_stringify filePath +:+ ";"
  +:+ "const " +:+ importMetaUrlVarName +:+ " = "
  +:+ JSON_stringify (pathToFileURL filePath) +:+ ";".

(** The path ends in one of the TypeScript extensions. *)
Definition isTypeScriptPath (filePath : string) : bool :=
  endsWith ".ts" filePath || endsWith ".cts" filePath
  || endsWith ".mts" filePath.

(** The first of [fileNames] that exists under [configRoot]. *)
Definition firstConfigIn (configRoot : string) (fileNames : list string)
    : option string :=
  List.find (fun name => fs_existsSync (path_resolve [configRoot; name]))
    fileNames.

End ConfigLoader.

(** A demo host for the loader: the demo project with the given files,
    node's loaders for [.js] and [.json], a bundler that returns one
    output file, and a module loader that runs what the [.js] loader
    compiles. *)
Module DemoConfig.

Definition hostWithFiles (files : list string) : Host :=
  {| path_isAbsolute := Demo.isAbsolute;
     path_dirname := Demo.dirname;
     path_extname := Demo.extname;
     path_join := Demo.join;
     path_isAbsolute_empty := eq_refl;
     fs_existsSync := fun p => Str.mem p files;
     builtinModules := ["fs"; "path"; "url"; "module"; "os"];
     prototypeHas := Demo.prototypeMember;
     resolvePackageData := Demo.lookupPackage;
     findNearestMainPackageData := Demo.nearestPackage;
     findNearestPackageData := Demo.nearestPackage;
     resolvePackageEntry := Demo.packageEntry;
     resolveExportsOrImports := Demo.exportsOrImports;
     mapWithBrowserField := Demo.browserMapping;
     tryFsResolve := Demo.fsResolve;
     splitFileAndPostfix := Demo.splitPostfix;
     DEFAULT_MAIN_FIELDS := ["module"; "jsnext:main"; "jsnext"];
     isInNodeModules := Str.includes "node_modules";
     isOptimizable := fun p _ => isJsExtension (Demo.extname p);
     OPTIMIZABLE_ENTRY_RE := fun p => isJsExtension (Demo.extname p);
     SPECIAL_QUERY_RE := fun _ => false;
     injectQuery := fun p q => p +:+ "?" +:+ q |}.

Definition files : list string :=
  ["/proj/package.json";
   "/proj/vite.config.ts";
   "/proj/vite.config.mts";
   "/proj/packages/app/package.json";
   "/proj/packages/app/src/index.js"].

Definition projectHost : Host := hostWithFiles files.

Definition resolveSegments (segments : list string) : string :=
  match segments with
  | [p] => if Demo.isAbsolute p then p else Demo.join "/proj" p
  | [base; p] => if Demo.isAbsolute p then p else Demo.join base p
  | _ => "/proj"
  end.

Definition exportedConfig : jsval := Some (JObj [("base", JStr "/app/")]).

(** The exports of the bundled config: a function of the environment. *)
Definition configModule : RawModule :=
  {| rawEsModule := true;
     rawDefault := ExportFunction (fun env => Ret exportedConfig);
     rawSelf := ExportValue (Some (JObj [("default", JNull)])) |}.

(** Requiring a file runs the [.js] loader of the table on it. *)
Definition requireWith (table : gmap string Loader) (file : string)
    : outcome RawModule :=
  match loaderAction (default UndefinedLoader (table !! ".js")) file with
  | CompileCode _ _ => Ret configModule
  | RunNative _ _ => Throw "Unexpected token 'export'"
  | CallUndefined => Throw "loader is not a function"
  end.

Definition makeConfigHost
    (load : gmap string Loader -> string -> outcome RawModule)
    (imported : UserConfigExport) : ConfigHost :=
  {| cwd := "/proj";
     path_resolve := resolveSegments;
     path_posix_normalize := fun p => p;
     isWindows := false;
     fs_statSync := fun p => Ret (if Str.mem p files then Some true else None);
     fs_readFileSync :=
       fun p => if String.eqb p "/proj/package.json" then Ret "{ type: module }"
                else Throw "ENOENT";
     JSON_parse :=
       fun text => if String.eqb text "{ type: module }"
                   then Ret (JObj [("type", JStr "module")])
                   else Throw "Unexpected token";
     JSON_stringify := fun text => Str.dquote +:+ text +:+ Str.dquote;
     pathToFileURL := fun p => "file://" +:+ p;
     esbuild_build :=
       fun options =>
         Ret {| outputFiles := ["module.exports = config"];
                metafileInputs := Some (entryPoints options ++ ["shared.ts"]) |};
     fsp_writeFile := fun _ _ => Ret tt;
     fsp_readFile := fun _ => Ret "export default {}";
     fsp_realpath := fun p => Ret p;
     dynamicImportDefault := fun _ => Ret imported;
     require_resolve := fun p => Ret p;
     require_load := load;
     require_cached :=
       fun table cache file =>
         match load table file with
         | Ret _ => cache ∪ {[file]}
         | Throw _ => cache
         end;
     dateNow := "1700000000000";
     randomHex := "a1b2c3";
     elapsedMs := "12.34" |}.

#[export] Instance configHost : ConfigHost :=
  makeConfigHost requireWith (ExportValue exportedConfig).

(** The same with a config module that throws while it is evaluated, and
    with one whose default export is an array. *)
Definition throwingConfigHost : ConfigHost :=
  makeConfigHost (fun _ _ => Throw "boom") (ExportValue exportedConfig).

Definition arrayConfigHost : ConfigHost :=
  makeConfigHost requireWith (ExportValue (Some (JArr []))).

Definition nodeRequire : RequireState :=
  {| requireExtensions :=
       {[ ".js" := NativeLoader "js"; ".json" := NativeLoader "json" ]};
     requireCache := {[ "/proj/vite.config.ts" ]} |}.

Definition env : ConfigEnv :=
  {| command := Serve; mode := "development"; ssrBuild := None |}.

End DemoConfig.

(** * Properties *)

(** ** Strings *)

Lemma mem_elem_of (x : string) (xs : list string) :
  Str.mem x xs = true <-> x ∈ xs.
Proof.
  unfold Str.mem. induction xs as [|y ys IH]; simpl.
  - split; [discriminate | intros H; inversion H].
  - rewrite orb_true_iff, IH, elem_of_cons.
    destruct (String.eqb_spec x y) as [Heq|Hne]; split.
    + now left.
    + now left.
    + intros [H|H]; [discriminate | now right].
    + intros [H|H]; [contradiction | now right].
Qed.

Lemma mem_not_elem_of (x : string) (xs : list string) :
  Str.mem x xs = false <-> x ∉ xs.
Proof.
  rewrite <- mem_elem_of. destruct (Str.mem x xs); split; intros H;
    try reflexivity; try discriminate; try (intros H'; discriminate).
  now contradiction H.
Qed.

Lemma append_cons (c : ascii) (s t : string) :
  String c s +:+ t = String c (s +:+ t).
Proof. reflexivity. Qed.

Lemma append_empty_r (s : string) : s +:+ EmptyString = s.
Proof.
  induction s as [|c s IH]; [reflexivity|].
  rewrite append_cons. now rewrite IH.
Qed.

(** [take_until] and [after_first] cut a string at the first character
    that satisfies the test. *)
Lemma take_until_split (p : ascii -> bool) (s : string) :
  match Str.after_first p s with
  | Some rest => exists c, p c = true /\ s = Str.take_until p s +:+ String c rest
  | None => s = Str.take_until p s
  end.
Proof.
  induction s as [|c s IH]; simpl; [reflexivity|].
  destruct (p c) eqn:Hc.
  - exists c. split; [exact Hc | reflexivity].
  - destruct (Str.after_first p s) as [rest|].
    + destruct IH as (d & Hd & Heq). exists d. split; [exact Hd|].
      rewrite Heq at 1. reflexivity.
    + rewrite IH at 1. reflexivity.
Qed.

Lemma take_until_clean (p : ascii -> bool) (s : string) (c : ascii) :
  Str.has_char c (Str.take_until p s) = true -> p c = false.
Proof.
  induction s as [|d s IH]; simpl; [discriminate|].
  destruct (p d) eqn:Hd; simpl; [discriminate|].
  rewrite orb_true_iff. intros [Heq|Hin]; [|now apply IH].
  apply Ascii.eqb_eq in Heq. now subst.
Qed.

(** [cleanUrl] keeps the part of a url before its query or fragment. *)
Lemma cleanUrl_prefix (url : string) :
  exists postfix,
    url = cleanUrl url +:+ postfix
    /\ (postfix = EmptyString
        \/ exists c rest, postfix = String c rest /\ isPostfixStart c = true).
Proof.
  unfold cleanUrl. pose proof (take_until_split isPostfixStart url) as H.
  destruct (Str.after_first isPostfixStart url) as [rest|].
  - destruct H as (c & Hc & Heq). exists (String c rest). split; [exact Heq|].
    right. now exists c, rest.
  - exists EmptyString. split; [|now left].
    now rewrite append_empty_r.
Qed.

Lemma cleanUrl_no_postfix (url : string) (c : ascii) :
  Str.has_char c (cleanUrl url) = true -> isPostfixStart c = false.
Proof. apply take_until_clean. Qed.

(** ** The deep-import resolver *)

Section DeepImport.

Context {host : Host}.

Implicit Types (id : string) (pkg : PackageData) (targetWeb : bool)
  (options : Options) (st : Store).

Lemma cacheEntry_setResolvedCache pkg id entry targetWeb st st' :
  setResolvedCache pkg id entry targetWeb st = (Ret tt, st', []) ->
  cacheEntry st' pkg id targetWeb = Some entry.
Proof.
  unfold setResolvedCache, cacheEntry. intros [= <-].
  destruct targetWeb; simpl; apply lookup_insert_eq.
Qed.

Lemma cacheEntry_setWebResolvedImport pkg id v st st' :
  setWebResolvedImport pkg id v st = (Ret tt, st', []) ->
  cacheEntry st' pkg id true = Some v.
Proof.
  unfold setWebResolvedImport, cacheEntry. intros [= <-].
  simpl. apply lookup_insert_eq.
Qed.

(** Lines 539-542: a truthy cache entry is returned at once. *)
Lemma resolveDeepImport_cache_hit id pkg targetWeb options st entry :
  cacheEntry st pkg id targetWeb = Some entry ->
  Str.is_empty entry = false ->
  resolveDeepImport id pkg targetWeb options st = (Ret (Some entry), st, []).
Proof.
  intros Hentry Hne. unfold resolveDeepImport, bind, getResolvedCache.
  rewrite Hentry. destruct entry; [discriminate | reflexivity].
Qed.

(** Without a truthy cache entry the resolver runs the mapping step and
    then, unless that step returned or threw, the filesystem step. *)
Lemma resolveDeepImport_cache_miss id pkg targetWeb options st :
  str_truthy (cacheEntry st pkg id targetWeb) = false ->
  resolveDeepImport id pkg targetWeb options st =
  match mapRelativeId id pkg targetWeb options st with
  | (Ret (Return v), st1, ev1) => (Ret v, st1, ev1 ++ [])
  | (Ret (Continue relativeId), st1, ev1) =>
      match resolveRelativeId id pkg targetWeb options relativeId st1 with
      | (r, st2, ev2) => (r, st2, ev1 ++ ev2)
      end
  | (Throw e, st1, ev1) => (Throw e, st1, ev1)
  end.
Proof.
  intros Hmiss. unfold resolveDeepImport, bind, getResolvedCache.
  rewrite Hmiss.
  destruct (mapRelativeId id pkg targetWeb options st) as [[[[v|rel]|e] st1] ev1];
    simpl; [reflexivity | | reflexivity].
  now destruct (resolveRelativeId id pkg targetWeb options rel st1) as [[r st2] ev2].
Qed.

(** The mapping step through the exports field: it never writes the store,
    never looks at the browser field or the filesystem, and either yields a
    truthy [relativeId] or throws. *)
Lemma mapRelativeId_exports id pkg targetWeb options st :
  truthy (exportsField pkg) = true ->
  exists r evs,
    mapRelativeId id pkg targetWeb options st = (r, st, evs)
    /\ browserLookups evs = [] /\ fsLookups evs = []
    /\ match r with
       | Ret (Continue relativeId) => str_truthy relativeId = true
       | Ret (Return _) => False
       | Throw _ => True
       end.
Proof.
  intros Hexp. unfold mapRelativeId. rewrite Hexp.
  destruct (isObject (exportsField pkg) && negb (Array_isArray (exportsField pkg))).
  - destruct (splitFileAndPostfix id) as [file postfix].
    unfold bind, call, ret, throw.
    destruct (resolveExportsOrImports (data pkg) file options targetWeb "exports")
      as [[e|]|err].
    + destruct (e +:+ postfix) as [|c rest]; simpl; eauto 10.
    + simpl. eauto 10.
    + simpl. eauto 10.
  - unfold bind, ret, throw. simpl. eauto 10.
Qed.

(** The filesystem step: at most one candidate resolution, with
    [tryIndex] set to the negation of the exports field; the store only
    changes by the cache entry of a truthy result. *)
Lemma resolveRelativeId_run id pkg targetWeb options relativeId st :
  exists r st' evs,
    resolveRelativeId id pkg targetWeb options relativeId st = (r, st', evs)
    /\ browserLookups evs = []
    /\ (tryIndexFlags evs = []
        \/ tryIndexFlags evs = [negb (truthy (exportsField pkg))])
    /\ match r with
       | Ret (Some entry) =>
           cacheEntry st' pkg id targetWeb = Some entry
           /\ Str.is_empty entry = false
       | _ => st' = st
       end.
Proof.
  unfold resolveRelativeId.
  destruct relativeId as [[|c rest]|]; [unfold ret; eauto 10| |unfold ret; eauto 10].
  unfold bind, call.
  destruct (tryFsResolve _ options _ targetWeb) as [[[|d r]|]|err]; simpl;
    try (unfold ret; simpl; eauto 10; fail).
  unfold setResolvedCache, ret. simpl.
  do 3 eexists. split; [reflexivity|]. split; [reflexivity|].
  split; [now right|]. split; [|reflexivity].
  unfold cacheEntry. destruct targetWeb; simpl; apply lookup_insert_eq.
Qed.

(** The mapping step without an exports field: it never calls the exports
    resolver or the filesystem, and only the early return of line 581
    writes the store. *)
Lemma mapRelativeId_no_exports id pkg targetWeb options st :
  truthy (exportsField pkg) = false ->
  exists r st' evs,
    mapRelativeId id pkg targetWeb options st = (r, st', evs)
    /\ exportsLookups evs = [] /\ tryIndexFlags evs = []
    /\ match r with
       | Ret (Return v) =>
           v = Some browserExternalId /\ targetWeb = true
           /\ cacheEntry st' pkg id targetWeb = Some browserExternalId
       | _ => st' = st
       end.
Proof.
  intros Hexp. unfold mapRelativeId. rewrite Hexp.
  destruct targetWeb; simpl; [|unfold ret; eauto 10].
  destruct (browserField options && isObject (browserFieldTable pkg));
    [|unfold ret; eauto 10].
  destruct (splitFileAndPostfix id) as [file postfix].
  unfold bind, call.
  destruct (mapWithBrowserField file (browserFieldTable pkg)) as [[m| |]|err];
    try (unfold ret; simpl; eauto 10; fail).
  - destruct m; unfold ret; simpl; eauto 10.
  - unfold setWebResolvedImport, ret. simpl.
    do 3 eexists. split; [reflexivity|]. repeat split.
    unfold cacheEntry. simpl. apply lookup_insert_eq.
Qed.

Lemma cache_hit_or_miss id pkg targetWeb st :
  (exists entry, cacheEntry st pkg id targetWeb = Some entry
                 /\ Str.is_empty entry = false)
  \/ str_truthy (cacheEntry st pkg id targetWeb) = false.
Proof.
  destruct (cacheEntry st pkg id targetWeb) as [[|c rest]|]; simpl; eauto.
Qed.

(** C7.  In a deep-import resolution of a package whose manifest declares
    an exports field (a truthy [exports], as the source tests it at line
    548), the browser-field table is never looked up, whatever the target
    and whether or not a browser field exists. *)
Theorem exports_field_excludes_browser_field id pkg targetWeb options st :
  truthy (exportsField pkg) = true ->
  browserLookups (resolveDeepImport id pkg targetWeb options st).2 = [].
Proof.
  intros Hexp.
  destruct (cache_hit_or_miss id pkg targetWeb st) as [(entry & Hhit & Hne)|Hmiss].
  - now rewrite (resolveDeepImport_cache_hit _ _ _ options _ _ Hhit Hne).
  - rewrite (resolveDeepImport_cache_miss _ _ _ options _ Hmiss).
    destruct (mapRelativeId_exports id pkg targetWeb options st Hexp)
      as (r & ev1 & -> & Hb1 & _ & Hr).
    destruct r as [[v|relativeId]|e]; [contradiction| |exact Hb1].
    destruct (resolveRelativeId_run id pkg targetWeb options relativeId st)
      as (r2 & st2 & ev2 & -> & Hb2 & _).
    simpl. unfold browserLookups in *. now rewrite omap_app, Hb1, Hb2.
Qed.

(** The filesystem step with a non-empty relative id makes the candidate
    resolution, once, with [tryIndex] the negation of the exports field. *)
Lemma resolveRelativeId_calls id pkg targetWeb options (c : ascii)
    (rest : string) st :
  (resolveRelativeId id pkg targetWeb options (Some (String c rest)) st).2
  = [EvTryFsResolve (path_join (dir pkg) (String c rest)) options
       (negb (truthy (exportsField pkg))) targetWeb].
Proof.
  unfold resolveRelativeId, bind, call.
  destruct (tryFsResolve _ options _ targetWeb) as [[[|d r]|]|err]; reflexivity.
Qed.

(** A run makes at most one candidate resolution, and its [tryIndex] is
    the negation of the exports field. *)
Lemma tryIndexFlags_run id pkg targetWeb options st :
  tryIndexFlags (resolveDeepImport id pkg targetWeb options st).2 = []
  \/ tryIndexFlags (resolveDeepImport id pkg targetWeb options st).2
     = [negb (truthy (exportsField pkg))].
Proof.
  destruct (cache_hit_or_miss id pkg targetWeb st) as [(entry & Hhit & Hne)|Hmiss].
  - left. now rewrite (resolveDeepImport_cache_hit _ _ _ options _ _ Hhit Hne).
  - rewrite (resolveDeepImport_cache_miss _ _ _ options _ Hmiss).
    assert (Hmap : exists r st1 ev1,
               mapRelativeId id pkg targetWeb options st = (r, st1, ev1)
               /\ tryIndexFlags ev1 = []).
    { destruct (truthy (exportsField pkg)) eqn:Hexp.
      - destruct (mapRelativeId_exports id pkg targetWeb options st Hexp)
          as (r & ev1 & Hrun & _ & Hfs & _).
        exists r, st, ev1. split; [exact Hrun|].
        clear Hrun. unfold tryIndexFlags, fsLookups in *.
        induction ev1 as [|[] ev1 IH]; simpl in *; try discriminate; auto.
      - destruct (mapRelativeId_no_exports id pkg targetWeb options st Hexp)
          as (r & st1 & ev1 & Hrun & _ & Hfs & _). eauto. }
    destruct Hmap as (r & st1 & ev1 & -> & Hfs1).
    destruct r as [[v|relativeId]|e]; simpl.
    + left. unfold tryIndexFlags in *. now rewrite omap_app, Hfs1.
    + destruct (resolveRelativeId_run id pkg targetWeb options relativeId st1)
        as (r2 & st2 & ev2 & -> & _ & Hfs2 & _).
      simpl. unfold tryIndexFlags in *. rewrite omap_app, Hfs1. exact Hfs2.
    + now left.
Qed.

(** C8.  A deep-import resolution makes at most one filesystem candidate
    resolution, and its [tryIndex] argument is the negation of the exports
    field.  Without an exports field the resolution of a specifier that is
    not cached does make it, with [tryIndex] true: for the path of the
    specifier itself when the browser field does not apply or has no
    mapping for it, for the mapped path when it has one; only a mapping to
    [false], or an error of the mapper, ends the resolution before it.
    With an exports field that maps the subpath, the candidate resolution
    is made with [tryIndex] false. *)
Theorem tryIndex_only_without_exports_field id pkg targetWeb options st :
  let run := resolveDeepImport id pkg targetWeb options st in
  let file := (splitFileAndPostfix id).1 in
  let postfix := (splitFileAndPostfix id).2 in
  (tryIndexFlags run.2 = []
   \/ tryIndexFlags run.2 = [negb (truthy (exportsField pkg))])
  /\ (str_truthy (cacheEntry st pkg id targetWeb) = false ->
      truthy (exportsField pkg) = false ->
      Str.is_empty id = false ->
      if targetWeb && browserField options && isObject (browserFieldTable pkg)
      then
        match mapWithBrowserField file (browserFieldTable pkg) with
        | Ret (Mapped target) =>
            tryIndexFlags run.2 = [true]
            /\ fsLookups run.2
               = [path_join (dir pkg)
                    (if Str.is_empty target then id else target +:+ postfix)]
        | Ret NotMapped =>
            tryIndexFlags run.2 = [true]
            /\ fsLookups run.2 = [path_join (dir pkg) id]
        | Ret MappedFalse | Throw _ => tryIndexFlags run.2 = []
        end
      else
        run.2 = [EvTryFsResolve (path_join (dir pkg) id) options true targetWeb])
  /\ (str_truthy (cacheEntry st pkg id targetWeb) = false ->
      isObject (exportsField pkg) = true ->
      forall target : string,
        resolveExportsOrImports (data pkg) file options targetWeb "exports"
        = Ret (Some target) ->
        Str.is_empty (target +:+ postfix) = false ->
        tryIndexFlags run.2 = [false]
        /\ fsLookups run.2 = [path_join (dir pkg) (target +:+ postfix)]).
Proof.
  intros run file postfix. subst run file postfix.
  split; [apply tryIndexFlags_run|]. split.
  - intros Hmiss Hexp Hid.
    rewrite (resolveDeepImport_cache_miss _ _ _ options _ Hmiss).
    unfold mapRelativeId. rewrite Hexp.
    destruct id as [|c rest]; [discriminate|].
    destruct (targetWeb && browserField options && isObject (browserFieldTable pkg)).
    + destruct (splitFileAndPostfix (String c rest)) as [file postfix].
      cbn [fst snd]. unfold bind, call.
      destruct (mapWithBrowserField file (browserFieldTable pkg))
        as [[[|d target]| |]|err]; cbn [fst snd Str.is_empty ret].
      * pose proof (resolveRelativeId_calls (String c rest) pkg targetWeb
                      options c rest st) as Hcall.
        destruct (resolveRelativeId (String c rest) pkg targetWeb options
                    (Some (String c rest)) st) as [[r st2] ev2].
        cbn [fst snd] in *. subst ev2. rewrite Hexp. now split.
      * rewrite append_cons.
        pose proof (resolveRelativeId_calls (String c rest) pkg targetWeb
                      options d (target +:+ postfix) st) as Hcall.
        destruct (resolveRelativeId (String c rest) pkg targetWeb options
                    (Some (String d (target +:+ postfix))) st) as [[r st2] ev2].
        cbn [fst snd] in *. subst ev2. rewrite Hexp. now split.
      * reflexivity.
      * pose proof (resolveRelativeId_calls (String c rest) pkg targetWeb
                      options c rest st) as Hcall.
        destruct (resolveRelativeId (String c rest) pkg targetWeb options
                    (Some (String c rest)) st) as [[r st2] ev2].
        cbn [fst snd] in *. subst ev2. rewrite Hexp. now split.
      * reflexivity.
    + cbn [ret].
      pose proof (resolveRelativeId_calls (String c rest) pkg targetWeb
                    options c rest st) as Hcall.
      destruct (resolveRelativeId (String c rest) pkg targetWeb options
                  (Some (String c rest)) st) as [[r st2] ev2].
      cbn [fst snd] in *. subst ev2. now rewrite Hexp.
  - intros Hmiss Hobj target Htarget Hne.
    rewrite (resolveDeepImport_cache_miss _ _ _ options _ Hmiss).
    unfold mapRelativeId.
    assert (Hexp : truthy (exportsField pkg) = true).
    { destruct (exportsField pkg) as [[]|]; try discriminate; reflexivity. }
    assert (Harr : Array_isArray (exportsField pkg) = false).
    { destruct (exportsField pkg) as [[]|]; try discriminate; reflexivity. }
    rewrite Hexp, Hobj, Harr. cbn [negb andb].
    destruct (splitFileAndPostfix id) as [file postfix]. cbn [fst snd] in *.
    unfold bind, call. rewrite Htarget. cbn [ret fst snd].
    destruct (target +:+ postfix) as [|d relative]; [discriminate|].
    cbn [str_truthy ret].
    pose proof (resolveRelativeId_calls id pkg targetWeb options d relative st)
      as Hcall.
    destruct (resolveRelativeId id pkg targetWeb options
                (Some (String d relative)) st) as [[r st2] ev2].
    cbn [fst snd] in *. subst ev2. rewrite Hexp. now split.
Qed.

Lemma browserExternalId_truthy : Str.is_empty browserExternalId = false.
Proof. reflexivity. Qed.

(** C3, amended.  A cache entry for (package, subpath, target) is written
    by a resolution that succeeds, and only by such a one: after a
    successful resolution the entry holds the result, and the same request
    repeated returns the same result from the cache, calling no
    collaborator and leaving the store as it is; a resolution that returns
    nothing or throws leaves the store untouched. *)
Theorem cache_entry_written_on_success id pkg targetWeb options st res st1 ev1 :
  resolveDeepImport id pkg targetWeb options st = (res, st1, ev1) ->
  match res with
  | Ret (Some resolved) =>
      cacheEntry st1 pkg id targetWeb = Some resolved
      /\ resolveDeepImport id pkg targetWeb options st1
         = (Ret (Some resolved), st1, [])
  | _ => st1 = st
  end.
Proof.
  assert (Hagain : forall st' entry,
             cacheEntry st' pkg id targetWeb = Some entry ->
             Str.is_empty entry = false ->
             cacheEntry st' pkg id targetWeb = Some entry
             /\ resolveDeepImport id pkg targetWeb options st'
                = (Ret (Some entry), st', [])).
  { intros st' entry Hentry Hne. split; [exact Hentry|].
    now apply resolveDeepImport_cache_hit. }
  destruct (cache_hit_or_miss id pkg targetWeb st) as [(entry & Hhit & Hne)|Hmiss].
  - rewrite (resolveDeepImport_cache_hit _ _ _ options _ _ Hhit Hne).
    intros [= <- <- <-]. now apply Hagain.
  - rewrite (resolveDeepImport_cache_miss _ _ _ options _ Hmiss).
    destruct (truthy (exportsField pkg)) eqn:Hexp.
    + destruct (mapRelativeId_exports id pkg targetWeb options st Hexp)
        as (r & ev & -> & _ & _ & Hr).
      destruct r as [[v|relativeId]|e]; [contradiction| |now intros [= <- <- <-]].
      destruct (resolveRelativeId_run id pkg targetWeb options relativeId st)
        as (r2 & st2 & ev2 & -> & _ & _ & Hr2).
      intros [= <- <- <-]. destruct r2 as [[entry|]|e]; try exact Hr2.
      destruct Hr2 as [Hentry Hne]. now apply Hagain.
    + destruct (mapRelativeId_no_exports id pkg targetWeb options st Hexp)
        as (r & st' & ev & -> & _ & _ & Hr).
      destruct r as [[v|relativeId]|e].
      * intros [= <- <- <-]. destruct Hr as (-> & _ & Hentry).
        apply Hagain; [exact Hentry | exact browserExternalId_truthy].
      * subst st'.
        destruct (resolveRelativeId_run id pkg targetWeb options relativeId st)
          as (r2 & st2 & ev2 & -> & _ & _ & Hr2).
        intros [= <- <- <-]. destruct r2 as [[entry|]|e]; try exact Hr2.
        destruct Hr2 as [Hentry Hne]. now apply Hagain.
      * now intros [= <- <- <-].
Qed.

(** C2, amended.  When the exports field is an array, no alternative is
    evaluated: on a cache miss the resolution throws the not-defined
    error at once, without calling the exports resolver, the browser-field
    mapper or the filesystem. *)
Theorem array_exports_are_not_exposed id pkg targetWeb options st :
  str_truthy (cacheEntry st pkg id targetWeb) = false ->
  Array_isArray (exportsField pkg) = true ->
  resolveDeepImport id pkg targetWeb options st
  = (Throw (subpathNotDefinedMessage None (dir pkg)), st, []).
Proof.
  intros Hmiss Harr.
  rewrite (resolveDeepImport_cache_miss _ _ _ options _ Hmiss).
  unfold mapRelativeId.
  destruct (exportsField pkg) as [[| | | |alternatives|]|]; try discriminate.
  reflexivity.
Qed.

(** A subpath the exports field does not cover is a hard error: the
    resolution throws, the store is unchanged and the filesystem is not
    consulted.  The message names the manifest path; the subpath it
    interpolates is [relativeId], which is [undefined] on this path. *)
Lemma uncovered_subpath_is_hard_error id pkg targetWeb options st :
  str_truthy (cacheEntry st pkg id targetWeb) = false ->
  truthy (exportsField pkg) = true ->
  (isObject (exportsField pkg) = true ->
   resolveExportsOrImports (data pkg) (splitFileAndPostfix id).1 options
     targetWeb "exports" = Ret None) ->
  exists evs,
    resolveDeepImport id pkg targetWeb options st
    = (Throw (subpathNotDefinedMessage None (dir pkg)), st, evs)
    /\ fsLookups evs = [] /\ browserLookups evs = [].
Proof.
  intros Hmiss Hexp Hnone.
  rewrite (resolveDeepImport_cache_miss _ _ _ options _ Hmiss).
  unfold mapRelativeId. rewrite Hexp.
  destruct (isObject (exportsField pkg)) eqn:Hobj.
  - assert (Array_isArray (exportsField pkg) = false) as ->.
    { now destruct (exportsField pkg) as [[]|]. }
    simpl. specialize (Hnone eq_refl).
    destruct (splitFileAndPostfix id) as [file postfix]. simpl in Hnone.
    unfold bind, call. rewrite Hnone. simpl. eauto.
  - simpl. eauto.
Qed.

(** The message of that error is the same whatever subpath was asked for. *)
Lemma subpath_error_ignores_subpath id1 id2 pkg targetWeb options st :
  str_truthy (cacheEntry st pkg id1 targetWeb) = false ->
  str_truthy (cacheEntry st pkg id2 targetWeb) = false ->
  truthy (exportsField pkg) = true ->
  resolveExportsOrImports (data pkg) (splitFileAndPostfix id1).1 options
    targetWeb "exports" = Ret None ->
  resolveExportsOrImports (data pkg) (splitFileAndPostfix id2).1 options
    targetWeb "exports" = Ret None ->
  (resolveDeepImport id1 pkg targetWeb options st).1.1
  = (resolveDeepImport id2 pkg targetWeb options st).1.1.
Proof.
  intros Hm1 Hm2 Hexp H1 H2.
  destruct (uncovered_subpath_is_hard_error id1 pkg targetWeb options st Hm1 Hexp
              (fun _ => H1)) as (ev1 & -> & _).
  destruct (uncovered_subpath_is_hard_error id2 pkg targetWeb options st Hm2 Hexp
              (fun _ => H2)) as (ev2 & -> & _).
  reflexivity.
Qed.

End DeepImport.

(** ** The orchestrator *)

Section NodeResolve.

Context {host : Host}.

Implicit Types (id : string) (importer : option string) (options : Options)
  (targetWeb ssr externalize allowLinkedExternal : bool)
  (depsOptimizer : option DepsOptimizer) (st : Store).

(** Choosing the base directory never throws and never writes the store. *)
Lemma chooseBasedir_run id importer options st :
  exists basedir evs,
    chooseBasedir id importer options st = (Ret basedir, st, evs).
Proof.
  unfold chooseBasedir.
  destruct (match dedupe options with Some _ => _ | None => _ end);
    [unfold ret; eauto|].
  destruct importer as [imp|]; [|unfold ret; eauto].
  destruct (negb (Str.is_empty imp) && path_isAbsolute imp); [|unfold ret; eauto].
  destruct (match Str.last imp with Some _ => _ | None => _ end);
    [unfold ret; eauto|].
  unfold bind, call. destruct (fs_existsSync (cleanUrl imp)); unfold ret; eauto.
Qed.

(** [tryNodeResolve] after its base directory is known: the package lookup
    comes next, and its result selects the rest. *)
Lemma tryNodeResolve_run id importer options targetWeb depsOptimizer ssr
    externalize allowLinkedExternal st basedir ev0 :
  chooseBasedir id importer options st = (Ret basedir, st, ev0) ->
  tryNodeResolve id importer options targetWeb depsOptimizer ssr externalize
    allowLinkedExternal st
  = match resolvePackageData (packageIdOf id) basedir (preserveSymlinks options)
            (packageCache options) with
    | Throw e => (Throw e, st, ev0 ++ [packageLookup id basedir options])
    | Ret None =>
        withEarlier (ev0 ++ [packageLookup id basedir options])
          (resolveMissingPackage id basedir options st)
    | Ret (Some pkg) =>
        withEarlier (ev0 ++ [packageLookup id basedir options])
          (bind (resolveWithRetry (bool_decide (is_Some (deepImportRE id)))
                   (unresolvedIdOf id) pkg targetWeb options)
             (finishResolve id importer options depsOptimizer ssr externalize
                allowLinkedExternal (bool_decide (is_Some (deepImportRE id))) pkg)
             st)
    end.
Proof.
  intros Hbase. unfold tryNodeResolve. unfold bind at 1. rewrite Hbase.
  unfold bind at 1, call, packageLookup, withEarlier.
  destruct (resolvePackageData _ _ _ _) as [[pkg|]|e]; [| |reflexivity].
  - match goal with |- context [bind ?m ?k st] => destruct (bind m k st) as [[r st'] evs] end.
    simpl. now rewrite <- app_assoc.
  - destruct (resolveMissingPackage id basedir options st) as [[r st'] evs].
    simpl. now rewrite <- app_assoc.
Qed.

(** The first call [tryNodeResolve] makes after choosing [basedir] is the
    package lookup from [basedir]. *)
Lemma tryNodeResolve_lookup id importer options targetWeb depsOptimizer ssr
    externalize allowLinkedExternal st basedir ev0 :
  chooseBasedir id importer options st = (Ret basedir, st, ev0) ->
  exists rest,
    (tryNodeResolve id importer options targetWeb depsOptimizer ssr externalize
       allowLinkedExternal st).2
    = ev0 ++ packageLookup id basedir options :: rest.
Proof.
  intros Hbase. rewrite (tryNodeResolve_run _ _ _ _ _ _ _ _ _ _ _ Hbase).
  destruct (resolvePackageData _ _ _ _) as [[pkg|]|e]; unfold withEarlier; simpl.
  - eexists. now rewrite <- app_assoc.
  - eexists. now rewrite <- app_assoc.
  - now exists [].
Qed.

(** C9.  When the package id extracted from the specifier is a member of
    the dedupe list, the base directory is the project root, chosen
    without a look at the importer, and the package is looked up from
    there. *)
Theorem dedupe_forces_project_root id importer options targetWeb depsOptimizer
    ssr externalize allowLinkedExternal st (names : list string) :
  dedupe options = Some names ->
  packageIdOf id ∈ names ->
  chooseBasedir id importer options st = (Ret (root options), st, [])
  /\ exists rest,
       (tryNodeResolve id importer options targetWeb depsOptimizer ssr
          externalize allowLinkedExternal st).2
       = packageLookup id (root options) options :: rest.
Proof.
  intros Hdedupe Hin.
  assert (Hbase : chooseBasedir id importer options st = (Ret (root options), st, [])).
  { unfold chooseBasedir. rewrite Hdedupe.
    apply mem_elem_of in Hin. now rewrite Hin. }
  split; [exact Hbase|].
  exact (tryNodeResolve_lookup _ _ _ targetWeb depsOptimizer ssr externalize
           allowLinkedExternal _ _ _ Hbase).
Qed.

(** C10.  For a specifier that is not deduped and an absolute importer:
    when the importer ends in a star its directory is the base directory
    and the filesystem is not asked; otherwise the existence of the
    importer, its query or fragment removed by [cleanUrl], is checked, and
    the base directory is the importer's directory when it exists and the
    project root when it does not. *)
Theorem importer_directory_as_basedir id (imp : string) options targetWeb
    depsOptimizer ssr externalize allowLinkedExternal st :
  notDeduped id options ->
  path_isAbsolute imp = true ->
  let events :=
    (tryNodeResolve id (Some imp) options targetWeb depsOptimizer ssr
       externalize allowLinkedExternal st).2 in
  (Str.last imp = Some "*"%char ->
   chooseBasedir id (Some imp) options st = (Ret (path_dirname imp), st, [])
   /\ exists rest, events = packageLookup id (path_dirname imp) options :: rest)
  /\ (Str.last imp <> Some "*"%char ->
      let basedir :=
        if fs_existsSync (cleanUrl imp) then path_dirname imp else root options in
      chooseBasedir id (Some imp) options st
      = (Ret basedir, st, [EvExistsSync (cleanUrl imp)])
      /\ exists rest,
           events = EvExistsSync (cleanUrl imp)
                    :: packageLookup id basedir options :: rest).
Proof.
  intros Hnot Habs events.
  assert (Hne : Str.is_empty imp = false).
  { destruct imp; [|reflexivity]. rewrite path_isAbsolute_empty in Habs. discriminate. }
  assert (Hdedupe : match dedupe options with
                    | Some names => Str.mem (packageIdOf id) names
                    | None => false
                    end = false).
  { destruct (dedupe options) as [names|] eqn:Hd; [|reflexivity].
    apply mem_not_elem_of. now apply Hnot. }
  split.
  - intros Hstar.
    assert (Hbase : chooseBasedir id (Some imp) options st
                    = (Ret (path_dirname imp), st, [])).
    { unfold chooseBasedir. rewrite Hdedupe, Hne, Habs, Hstar. reflexivity. }
    split; [exact Hbase|].
    exact (tryNodeResolve_lookup _ _ _ targetWeb depsOptimizer ssr externalize
             allowLinkedExternal _ _ _ Hbase).
  - intros Hstar basedir.
    assert (Hbase : chooseBasedir id (Some imp) options st
                    = (Ret basedir, st, [EvExistsSync (cleanUrl imp)])).
    { unfold chooseBasedir. rewrite Hdedupe, Hne, Habs. simpl.
      assert (match Str.last imp with
              | Some c => Ascii.eqb c "*"
              | None => false
              end = false) as ->.
      { destruct (Str.last imp) as [c|]; [|reflexivity].
        destruct (Ascii.eqb_spec c "*"); [subst; contradiction|reflexivity]. }
      unfold bind, call, basedir.
      now destruct (fs_existsSync (cleanUrl imp)). }
    split; [exact Hbase|].
    exact (tryNodeResolve_lookup _ _ _ targetWeb depsOptimizer ssr externalize
             allowLinkedExternal _ _ _ Hbase).
Qed.





(** [processResult] marks a result external only when externalization is
    requested and the extension of the resolved path is empty or one of
    [.js], [.mjs], [.cjs]. *)
Lemma processResult_external id (deep : bool) (pkg : PackageData) externalize
    allowLinkedExternal (resolved : PartialResolvedId) :
  res_external resolved = None ->
  res_external (processResult id deep pkg externalize allowLinkedExternal resolved)
  = Some true ->
  externalize = true
  /\ (path_extname (res_id resolved) = EmptyString
      \/ isJsExtension (path_extname (res_id resolved)) = true).
Proof.
  intros Hunmarked. unfold processResult.
  destruct externalize; simpl; [|congruence].
  destruct (negb allowLinkedExternal && negb (isInNodeModules (res_id resolved)));
    [congruence|].
  destruct (path_extname (res_id resolved)) as [|c ext] eqn:Hext; simpl.
  - intros _. split; [reflexivity | now left].
  - destruct (isJsExtension (String c ext)) eqn:Hjs; simpl; [|congruence].
    intros _. split; [reflexivity | now right].
Qed.

(** Shaping a result without [processResult] never sets the mark. *)
Lemma shapeResult_unmarked id importer options depsOptimizer ssr externalize
    allowLinkedExternal (deep : bool) (pkg : PackageData) (resolved : string)
    st r st' evs :
  negb (idOnly options)
  && ((negb (scan options) && isBuild options
       && negb (bool_decide (is_Some depsOptimizer)))
      || externalize) = false ->
  shapeResult id importer options depsOptimizer ssr externalize
    allowLinkedExternal deep pkg resolved st = (Ret (Some r), st', evs) ->
  res_external r = None.
Proof.
  intros Hguard. unfold shapeResult. rewrite Hguard.
  destruct (negb (ssrOptimizeCheck options) && _); [now intros [= <- _ _]|].
  unfold bind.
  destruct (skipOptimization _ _ _ _ _ _ _ _ _ _ st) as [[[skip|e] st1] ev1];
    [|discriminate].
  destruct (ssrOptimizeCheck options); [now intros [= <- _ _]|].
  match goal with
  | |- context [(if skip then ?a else ?b) st1] =>
      destruct ((if skip then a else b) st1) as [[[resolved'|e] st2] ev2]
  end; [|discriminate].
  destruct (negb (idOnly options) && negb (scan options) && isBuild options);
    now intros [= <- _ _].
Qed.

(** C4, amended.  A result of [tryNodeResolve] carries the external mark
    only when externalization was requested and the extension of the
    resolved path is empty or one of [.js], [.mjs], [.cjs]; a resolved path
    with any other, non-empty extension is returned without the mark. *)
Theorem external_mark_needs_js_or_empty_extension id importer options
    depsOptimizer ssr externalize allowLinkedExternal (deep : bool)
    (pkg : PackageData) (resolved : string) st r st' evs :
  finishResolve id importer options depsOptimizer ssr externalize
    allowLinkedExternal deep pkg (Some resolved) st = (Ret (Some r), st', evs) ->
  (res_external r = Some true ->
   externalize = true
   /\ (path_extname resolved = EmptyString
       \/ isJsExtension (path_extname resolved) = true))
  /\ (path_extname resolved <> EmptyString ->
      isJsExtension (path_extname resolved) = false ->
      res_external r = None).
Proof.
  intros Hrun.
  assert (Hmark : res_external r = Some true ->
                  externalize = true
                  /\ (path_extname resolved = EmptyString
                      \/ isJsExtension (path_extname resolved) = true)).
  { unfold finishResolve in Hrun. destruct resolved as [|c rest]; [discriminate|].
    destruct (negb (idOnly options)
              && ((negb (scan options) && isBuild options
                   && negb (bool_decide (is_Some depsOptimizer)))
                  || externalize)) eqn:Hguard.
    - unfold shapeResult in Hrun. rewrite Hguard in Hrun.
      injection Hrun as <- _ _.
      now apply processResult_external.
    - rewrite (shapeResult_unmarked _ _ _ _ _ _ _ _ _ _ _ _ _ _ Hguard Hrun).
      discriminate. }
  split; [exact Hmark|].
  intros Hext Hjs.
  destruct (res_external r) as [[|]|] eqn:Hr; [| |reflexivity].
  - destruct (Hmark eq_refl) as [_ [H|H]]; [contradiction | congruence].
  - exfalso. unfold finishResolve in Hrun.
    destruct resolved as [|c rest]; [discriminate|].
    destruct (negb (idOnly options)
              && ((negb (scan options) && isBuild options
                   && negb (bool_decide (is_Some depsOptimizer)))
                  || externalize)) eqn:Hguard.
    + unfold shapeResult in Hrun. rewrite Hguard in Hrun.
      injection Hrun as <- _ _. unfold processResult in Hr. simpl in Hr.
      repeat match type of Hr with
             | context [if ?b then _ else _] => destruct b
             end; discriminate.
    + rewrite (shapeResult_unmarked _ _ _ _ _ _ _ _ _ _ _ _ _ _ Hguard Hrun) in Hr.
      discriminate.
Qed.

End NodeResolve.

(** ** The resolver on the demo project *)

Section OnDemo.

Import Demo.

(** C1.  The package [lib] declares the exports map with the single key
    [./a]; the file [b.js] exists on disk.  Asking for [./b] throws, the
    store is unchanged and the filesystem is not asked, and the message
    names the manifest; but where the subpath should stand it reads
    [undefined], and [./b] occurs nowhere in it. *)
Theorem subpath_error_omits_requested_subpath :
  existsSync "/proj/node_modules/lib/b.js" = true
  /\ exportsField libPkg = Some (JObj [("./a", JStr "./a.js")])
  /\ resolveDeepImport "./b" libPkg false options emptyStore
     = (Throw libNotDefined, emptyStore,
        [EvResolveExportsOrImports 1 "./b" options false])
  /\ Str.includes "/proj/node_modules/lib/package.json" libNotDefined = true
  /\ Str.includes "./b" libNotDefined = false.
Proof. repeat split; vm_compute; reflexivity. Qed.

(** C2, counterexample.  The exports field of [alts] is an array whose
    second alternative maps [./a] to [./a.js], a file that exists.
    Evaluating the alternatives in order resolves; the resolver throws
    the not-defined error and never calls the exports resolver. *)
Lemma array_exports_alternatives_not_evaluated :
  exportsField altsPkg
  = Some (JArr [JObj [("./x", JStr "./x.js")]; JObj [("./a", JStr "./a.js")]])
  /\ specEvalAlternatives (fun alt => resolveTarget 8 alt "./a")
       [JObj [("./x", JStr "./x.js")]; JObj [("./a", JStr "./a.js")]]
     = Some "./a.js"
  /\ existsSync (join (dir altsPkg) "./a.js") = true
  /\ resolveDeepImport "./a" altsPkg false options emptyStore
     = (Throw altsNotDefined, emptyStore, []).
Proof. repeat split; vm_compute; reflexivity. Qed.

(** The amended C2 at [alts]. *)
Lemma array_exports_are_not_exposed_witness :
  str_truthy (cacheEntry emptyStore altsPkg "./a" false) = false
  /\ Array_isArray (exportsField altsPkg) = true
  /\ resolveDeepImport "./a" altsPkg false options emptyStore
     = (Throw (subpathNotDefinedMessage None (dir altsPkg)), emptyStore, []).
Proof.
  split; [reflexivity|]. split; [reflexivity|].
  apply (array_exports_are_not_exposed (host := host)); reflexivity.
Defined.

(** C3, counterexample.  [legacy] has no file for the subpath [./nothing]:
    the resolution fails, no entry is written for the key, and the same
    request repeated asks the filesystem again. *)
Lemma failed_resolution_is_not_cached :
  let first := resolveDeepImport "./nothing" legacyPkg false options emptyStore in
  let second := resolveDeepImport "./nothing" legacyPkg false options first.1.2 in
  first.1.1 = Ret None
  /\ cacheEntry first.1.2 legacyPkg "./nothing" false = None
  /\ fsLookups first.2 = ["/proj/node_modules/legacy/nothing"]
  /\ second.1.1 = Ret None
  /\ fsLookups second.2 = ["/proj/node_modules/legacy/nothing"].
Proof. repeat split; vm_compute; reflexivity. Qed.

(** The amended C3 at [lib]: [./a] resolves for the web target, the entry
    is written, and the repeated request is served from it. *)
Lemma cache_entry_written_on_success_witness :
  let first := resolveDeepImport "./a" libPkg true options emptyStore in
  first.1.1 = Ret (Some "/proj/node_modules/lib/a.js")
  /\ cacheEntry first.1.2 libPkg "./a" true = Some "/proj/node_modules/lib/a.js"
  /\ resolveDeepImport "./a" libPkg true options first.1.2
     = (Ret (Some "/proj/node_modules/lib/a.js"), first.1.2, []).
Proof.
  intros first.
  assert (Hrun : first = (Ret (Some "/proj/node_modules/lib/a.js"), first.1.2, first.2))
    by (vm_compute; reflexivity).
  split; [vm_compute; reflexivity|].
  exact (cache_entry_written_on_success (host := host) _ _ _ _ _ _ _ _ Hrun).
Defined.

(** C7 at [lib], which has both fields, resolved for the web target. *)
Lemma exports_field_excludes_browser_field_witness :
  truthy (exportsField libPkg) = true
  /\ isObject (browserFieldTable libPkg) = true
  /\ browserLookups (resolveDeepImport "./a" libPkg true options emptyStore).2 = [].
Proof.
  split; [reflexivity|]. split; [reflexivity|].
  apply (exports_field_excludes_browser_field (host := host)). reflexivity.
Defined.

(** C8 on the demo project.  The package [legacy] has no exports field:
    its deep imports reach the filesystem step with [tryIndex] true, under
    the path of the specifier for the node target and under the path the
    browser field maps it to for the web target.  The package [lib] has
    an exports field: [tryIndex] is false. *)
Lemma tryIndex_only_without_exports_field_witness :
  (resolveDeepImport "./tool" legacyPkg false options emptyStore).2
  = [EvTryFsResolve "/proj/node_modules/legacy/tool" options true false]
  /\ (tryIndexFlags (resolveDeepImport "./util" legacyPkg true options emptyStore).2
      = [true]
      /\ fsLookups (resolveDeepImport "./util" legacyPkg true options emptyStore).2
         = ["/proj/node_modules/legacy/util.js"])
  /\ (tryIndexFlags (resolveDeepImport "./a" libPkg false options emptyStore).2
      = [false]
      /\ fsLookups (resolveDeepImport "./a" libPkg false options emptyStore).2
         = ["/proj/node_modules/lib/a.js"]).
Proof.
  split; [|split].
  - destruct (tryIndex_only_without_exports_field (host := host) "./tool"
                legacyPkg false options emptyStore) as (_ & Hwithout & _).
    exact (Hwithout eq_refl eq_refl eq_refl).
  - destruct (tryIndex_only_without_exports_field (host := host) "./util"
                legacyPkg true options emptyStore) as (_ & Hwithout & _).
    exact (Hwithout eq_refl eq_refl eq_refl).
  - destruct (tryIndex_only_without_exports_field (host := host) "./a"
                libPkg false options emptyStore) as (_ & _ & Hwith).
    exact (Hwith eq_refl eq_refl "./a.js" eq_refl eq_refl).
Defined.

(** Both values of [tryIndex] occur: false for [lib], which has an exports
    field, true for [legacy], which has none. *)
Example tryIndex_flag_of_lib_and_legacy :
  tryIndexFlags (resolveDeepImport "./a" libPkg false options emptyStore).2 = [false]
  /\ tryIndexFlags (resolveDeepImport "./tool" legacyPkg false options emptyStore).2
     = [true]
  /\ (resolveDeepImport "./tool" legacyPkg false options emptyStore).1.1
     = Ret (Some "/proj/node_modules/legacy/tool/index.js").
Proof. repeat split; vm_compute; reflexivity. Qed.

(** Without an exports field and for the web target the browser field is
    consulted, and an entry mapped to [false] yields the stub id. *)
Example browser_stub_of_legacy :
  resolveDeepImport "./server" legacyPkg true options emptyStore
  = (Ret (Some browserExternalId),
     {| webResolvedImports := {[ (3%N, "./server") := browserExternalId ]};
        nodeResolvedImports := ∅ |},
     [EvMapWithBrowserField 3 "./server"]).
Proof. vm_compute. reflexivity. Qed.

(** C4, counterexample.  [legacy/bin/cli] resolves to a file without an
    extension; with externalization requested the result carries the
    external mark. *)
Lemma extensionless_result_is_externalized :
  extname "/proj/node_modules/legacy/bin/cli" = EmptyString
  /\ (tryNodeResolve "legacy/bin/cli" (Some "/proj/src/main.js") options false
        None false true true emptyStore).1.1
     = Ret (Some {| res_id := "legacy/bin/cli";
                    res_external := Some true;
                    res_moduleSideEffects := Some (Some (JBool true)) |})
  /\ fsLookups (tryNodeResolve "legacy/bin/cli" (Some "/proj/src/main.js") options
                  false None false true true emptyStore).2
     = ["/proj/node_modules/legacy/bin/cli"].
Proof. repeat split; vm_compute; reflexivity. Qed.

(** The amended C4 at [legacy]: a stylesheet stays unmarked, a [.js] file
    is marked. *)
Lemma external_mark_needs_js_or_empty_extension_witness :
  let css := "/proj/node_modules/legacy/style.css" in
  let js := "/proj/node_modules/legacy/util.js" in
  (finishResolve "legacy/style.css" (Some "/proj/src/main.js") options None
     false true true true legacyPkg (Some css) emptyStore).1.1
  = Ret (Some (withSideEffects legacyPkg css))
  /\ res_external (withSideEffects legacyPkg css) = None
  /\ (finishResolve "legacy/util.js" (Some "/proj/src/main.js") options None
        false true true true legacyPkg (Some js) emptyStore).1.1
     = Ret (Some {| res_id := "legacy/util.js";
                    res_external := Some true;
                    res_moduleSideEffects := Some (Some (JBool true)) |})
  /\ isJsExtension (extname js) = true.
Proof.
  intros css js.
  split; [vm_compute; reflexivity|].
  split.
  { apply (external_mark_needs_js_or_empty_extension (host := host)
             "legacy/style.css" (Some "/proj/src/main.js") options None
             false true true true legacyPkg css emptyStore
             (withSideEffects legacyPkg css) emptyStore []).
    - vm_compute. reflexivity.
    - vm_compute. discriminate.
    - vm_compute. reflexivity. }
  split; [vm_compute; reflexivity|].
  assert (Hrun : finishResolve "legacy/util.js" (Some "/proj/src/main.js")
                   options None false true true true legacyPkg (Some js) emptyStore
                 = (Ret (Some {| res_id := "legacy/util.js";
                                 res_external := Some true;
                                 res_moduleSideEffects := Some (Some (JBool true)) |}),
                    emptyStore, []))
    by (vm_compute; reflexivity).
  destruct (external_mark_needs_js_or_empty_extension (host := host)
              _ _ _ _ _ _ _ _ _ _ _ _ _ _ Hrun) as [Hmark _].
  destruct (Hmark eq_refl) as [_ [Hempty|Hjs]]; [discriminate Hempty | exact Hjs].
Defined.




(** C9 at [lib/a], imported from inside [app]; [lib] is deduped. *)
Lemma dedupe_forces_project_root_witness :
  dedupe options = Some ["lib"]
  /\ packageIdOf "lib/a" = "lib"
  /\ chooseBasedir "lib/a" appImporter options emptyStore
     = (Ret "/proj", emptyStore, [])
  /\ exists rest,
       (tryNodeResolve "lib/a" appImporter options false None false false true
          emptyStore).2
       = EvResolvePackageData "lib" "/proj" false None :: rest.
Proof.
  split; [reflexivity|]. split; [reflexivity|].
  apply (dedupe_forces_project_root (host := host) "lib/a" appImporter options
           false None false false true emptyStore ["lib"] eq_refl).
  apply mem_elem_of. reflexivity.
Defined.

(** C10 at [legacy/util]: an importer that ends in a star and does not
    exist, one that does not exist, and one that exists once its query is
    removed. *)
Lemma importer_directory_as_basedir_witness :
  chooseBasedir "legacy/util" (Some "/proj/packages/app/gone.css*") options
    emptyStore
  = (Ret "/proj/packages/app", emptyStore, [])
  /\ chooseBasedir "legacy/util" (Some "/proj/packages/app/gone.js?x") options
       emptyStore
     = (Ret "/proj", emptyStore, [EvExistsSync "/proj/packages/app/gone.js"])
  /\ chooseBasedir "legacy/util" (Some "/proj/packages/app/src/index.js?x")
       options emptyStore
     = (Ret "/proj/packages/app/src", emptyStore,
        [EvExistsSync "/proj/packages/app/src/index.js"]).
Proof.
  assert (Hnot : notDeduped "legacy/util" options).
  { intros names [= <-]. apply mem_not_elem_of. reflexivity. }
  split; [|split].
  - destruct (importer_directory_as_basedir (host := host) "legacy/util"
                "/proj/packages/app/gone.css*" options false None false false
                true emptyStore Hnot eq_refl) as [Hstar _].
    exact (proj1 (Hstar eq_refl)).
  - destruct (importer_directory_as_basedir (host := host) "legacy/util"
                "/proj/packages/app/gone.js?x" options false None false false
                true emptyStore Hnot eq_refl) as [_ Hplain].
    exact (proj1 (Hplain ltac:(discriminate))).
  - destruct (importer_directory_as_basedir (host := host) "legacy/util"
                "/proj/packages/app/src/index.js?x" options false None false
                false true emptyStore Hnot eq_refl) as [_ Hplain].
    exact (proj1 (Hplain ltac:(discriminate))).
Defined.

End OnDemo.

(** * Further properties of the source *)

(** ** Specifiers: [deepImportRE], [bareImportRE], [cleanUrl], [isBuiltin] *)

Lemma append_assoc (a b c : string) : (a +:+ b) +:+ c = a +:+ (b +:+ c).
Proof.
  induction a as [|x a IH]; [reflexivity|].
  rewrite !append_cons. now rewrite IH.
Qed.

Lemma drop_length_append (a b : string) :
  Str.drop (String.length a) (a +:+ b) = b.
Proof.
  induction a as [|x a IH]; [now destruct b|].
  rewrite append_cons. exact IH.
Qed.

Lemma take_until_free (p : ascii -> bool) (s : string) :
  Str.after_first p (Str.take_until p s) = None.
Proof.
  induction s as [|c s IH]; simpl; [reflexivity|].
  destruct (p c) eqn:Hc; simpl; [reflexivity|]. now rewrite Hc.
Qed.

Lemma after_first_none_take_until (p : ascii -> bool) (s : string) :
  Str.after_first p s = None -> Str.take_until p s = s.
Proof.
  induction s as [|c s IH]; simpl; [reflexivity|].
  destruct (p c); [discriminate|]. intros H. now rewrite IH.
Qed.

Lemma after_first_slash_none (s : string) :
  Str.after_first isSlash s = None <-> Str.has_char "/" s = false.
Proof.
  induction s as [|c s IH]; [simpl; tauto|].
  cbn [Str.after_first Str.has_char]. unfold isSlash at 1.
  rewrite (Ascii.eqb_sym c "/").
  destruct (Ascii.eqb "/" c); cbn [orb];
    [split; intros; discriminate | exact IH].
Qed.


Lemma split_at_slash (s rest : string) :
  Str.after_first isSlash s = Some rest ->
  s = Str.take_until isSlash s +:+ "/" +:+ rest.
Proof.
  intros H. pose proof (take_until_split isSlash s) as Hsplit.
  rewrite H in Hsplit. destruct Hsplit as (c & Hc & Heq).
  apply Ascii.eqb_eq in Hc. now subst c.
Qed.

(** A specifier that [deepImportRE] matches is the package id, a slash
    and a rest; the id handed to the resolver is that rest behind a dot
    and a slash, so joining the two parts gives the specifier back. *)
Theorem deep_import_splits_specifier (id pkgId : string) :
  deepImportRE id = Some pkgId ->
  packageIdOf id = pkgId
  /\ exists rest,
       id = pkgId +:+ "/" +:+ rest
       /\ unresolvedIdOf id = "./" +:+ rest
       /\ pkgId +:+ Str.drop 1 (unresolvedIdOf id) = id.
Proof.
  intros Hmatch. unfold packageIdOf, unresolvedIdOf. rewrite Hmatch.
  split; [reflexivity|].
  assert (Hsplit : exists rest, id = pkgId +:+ "/" +:+ rest).
  { unfold deepImportRE in Hmatch. destruct id as [|c s]; [discriminate|].
    destruct (isAt c).
    - destruct (Str.after_first isSlash s) as [s2|] eqn:H1; [|discriminate].
      destruct (Str.after_first isSlash s2) as [s3|] eqn:H2; [|discriminate].
      destruct (Str.is_empty _ || Str.is_empty _); [discriminate|].
      injection Hmatch as <-. exists s3.
      rewrite (split_at_slash s s2 H1) at 1.
      rewrite (split_at_slash s2 s3 H2) at 1.
      rewrite !append_cons, !append_assoc. reflexivity.
    - destruct (Str.after_first isSlash s) as [s2|] eqn:H1; [|discriminate].
      injection Hmatch as <-. exists s2.
      rewrite (split_at_slash s s2 H1) at 1. now rewrite append_cons. }
  destruct Hsplit as (rest & ->). exists rest.
  rewrite drop_length_append. repeat split.
Qed.


(** A specifier with no slash after its first character, and a scoped
    name with a single slash, are not deep imports: the package id and the
    id handed to the resolver are the specifier itself. *)
Theorem package_root_is_not_deep (c : ascii) (s : string) :
  (Str.has_char "/" s = false
   \/ (isAt c = true
       /\ exists scope name,
            s = scope +:+ "/" +:+ name /\ Str.has_char "/" scope = false
            /\ Str.has_char "/" name = false)) ->
  deepImportRE (String c s) = None
  /\ packageIdOf (String c s) = String c s
  /\ unresolvedIdOf (String c s) = String c s.
Proof.
  intros H.
  assert (Hnone : deepImportRE (String c s) = None).
  { unfold deepImportRE. destruct H as [H|(Hat & scope & name & -> & Hs & Hn)].
    - apply after_first_slash_none in H. rewrite H. now destruct (isAt c).
    - rewrite Hat.
      assert (Str.after_first isSlash (scope +:+ "/" +:+ name) = Some name) as ->.
      { clear Hat Hn. induction scope as [|x scope IH]; [reflexivity|].
        cbn [Str.has_char] in Hs. apply orb_false_iff in Hs as [Hx Hs].
        rewrite append_cons. cbn [Str.after_first]. unfold isSlash at 1.
        rewrite Ascii.eqb_sym, Hx. now apply IH. }
      apply after_first_slash_none in Hn. now rewrite Hn. }
  unfold packageIdOf, unresolvedIdOf. now rewrite Hnone.
Qed.

Lemma package_root_is_not_deep_witness :
  deepImportRE "lodash" = None
  /\ deepImportRE "@vue/shared" = None
  /\ unresolvedIdOf "@vue/shared" = "@vue/shared".
Proof.
  split; [|split].
  - apply (package_root_is_not_deep "l" "odash"). now left.
  - apply (package_root_is_not_deep "@" "vue/shared"). right.
    split; [reflexivity|]. exists "vue", "shared". now repeat split.
  - apply (package_root_is_not_deep "@" "vue/shared"). right.
    split; [reflexivity|]. exists "vue", "shared". now repeat split.
Defined.

Lemma deep_import_splits_specifier_witness :
  packageIdOf "@vue/shared/dist/x.js" = "@vue/shared"
  /\ exists rest,
       "@vue/shared/dist/x.js" = "@vue/shared" +:+ "/" +:+ rest
       /\ unresolvedIdOf "@vue/shared/dist/x.js" = "./" +:+ rest
       /\ "@vue/shared" +:+ Str.drop 1 (unresolvedIdOf "@vue/shared/dist/x.js")
          = "@vue/shared/dist/x.js".
Proof. apply deep_import_splits_specifier. reflexivity. Defined.









Lemma take_until_append (p : ascii -> bool) (s t : string) (c : ascii) :
  Str.after_first p s = None -> p c = true ->
  Str.take_until p (s +:+ String c t) = s.
Proof.
  intros Hs Hc. induction s as [|x s IH].
  - change (EmptyString +:+ String c t) with (String c t).
    cbn [Str.take_until]. now rewrite Hc.
  - rewrite append_cons. cbn [Str.take_until Str.after_first] in *.
    destruct (p x); [discriminate|]. now rewrite IH.
Qed.

(** [cleanUrl] returns a prefix of the url that holds no question mark and
    no hash, and cleaning twice changes nothing more. *)
Theorem cleanUrl_idempotent (url : string) :
  Str.after_first isPostfixStart (cleanUrl url) = None
  /\ cleanUrl (cleanUrl url) = cleanUrl url
  /\ String.prefix (cleanUrl url) url = true.
Proof.
  unfold cleanUrl. split; [apply take_until_free|]. split.
  - apply after_first_none_take_until, take_until_free.
  - induction url as [|c url IH]; [reflexivity|].
    cbn [Str.take_until]. destruct (isPostfixStart c); [reflexivity|].
    cbn [String.prefix]. destruct (ascii_dec c c); [exact IH | contradiction].
Qed.

(** A file name without question mark or hash, followed by a query or a
    fragment, is cleaned back to the file name. *)
Theorem cleanUrl_removes_postfix (file postfix : string) (c : ascii) :
  Str.after_first isPostfixStart file = None ->
  isPostfixStart c = true ->
  cleanUrl file = file /\ cleanUrl (file +:+ String c postfix) = file.
Proof.
  intros Hfile Hc. unfold cleanUrl. split.
  - now apply after_first_none_take_until.
  - now apply take_until_append.
Qed.

Lemma cleanUrl_removes_postfix_witness :
  cleanUrl "/src/a.css" = "/src/a.css"
  /\ cleanUrl ("/src/a.css" +:+ "?inline#x") = "/src/a.css".
Proof. apply (cleanUrl_removes_postfix "/src/a.css" "inline#x" "?"); reflexivity. Defined.

(** [slash] leaves no backslash, keeps the length of the path, changes
    nothing in a path without backslash and so nothing when applied
    twice. *)
Theorem slash_normal_form (p : string) :
  Str.has_char backslash (slash p) = false
  /\ String.length (slash p) = String.length p
  /\ slash (slash p) = slash p
  /\ (Str.has_char backslash p = false -> slash p = p).
Proof.
  assert (Hid : forall q, Str.has_char backslash q = false -> slash q = q).
  { induction q as [|c q IH]; [reflexivity|].
    cbn [Str.has_char slash]. rewrite (Ascii.eqb_sym c backslash).
    destruct (Ascii.eqb backslash c); [discriminate|].
    cbn [orb]. intros H. now rewrite IH. }
  assert (Hfree : Str.has_char backslash (slash p) = false).
  { induction p as [|c p IH]; [reflexivity|].
    cbn [slash Str.has_char]. destruct (Ascii.eqb c backslash) eqn:Hc.
    - now rewrite IH.
    - rewrite Ascii.eqb_sym, Hc. exact IH. }
  split; [exact Hfree|]. split; [|split; [now apply Hid | exact (Hid p)]].
  clear Hfree Hid.
  induction p as [|c p IH]; [reflexivity|]. cbn [slash String.length]. now rewrite IH.
Qed.

Lemma prefix_append (a b : string) : String.prefix a (a +:+ b) = true.
Proof.
  induction a as [|x a IH]; [now destruct b|].
  rewrite append_cons. cbn [String.prefix].
  destruct (ascii_dec x x); [exact IH | contradiction].
Qed.

Section Builtins.

Context {host : Host}.

(** A module of the builtin list whose name does not itself start with
    [node:] is recognised under its name and under its [node:] name. *)
Theorem builtin_with_or_without_namespace (name : string) :
  name ∈ builtins ->
  String.prefix NODE_BUILTIN_NAMESPACE name = false ->
  isBuiltin name = true /\ isBuiltin (NODE_BUILTIN_NAMESPACE +:+ name) = true.
Proof.
  intros Hin Hplain. apply mem_elem_of in Hin. unfold isBuiltin. split.
  - now rewrite Hplain.
  - rewrite prefix_append. now rewrite drop_length_append.
Qed.

(** The namespace is stripped before the lookup, once: a specifier that
    starts with [node:] is a builtin only when the list holds its name
    without the namespace.  A module that node lists under its [node:]
    name alone is therefore not recognised. *)
Theorem namespaced_builtin_needs_bare_listing (id : string) :
  String.prefix NODE_BUILTIN_NAMESPACE id = true ->
  Str.drop (String.length NODE_BUILTIN_NAMESPACE) id ∉ builtins ->
  isBuiltin id = false.
Proof.
  intros Hprefix Hnot. unfold isBuiltin. rewrite Hprefix.
  now apply mem_not_elem_of.
Qed.

End Builtins.

Lemma builtin_with_or_without_namespace_witness :
  @isBuiltin Demo.host "fs/promises" = true
  /\ @isBuiltin Demo.host "node:fs/promises" = true.
Proof.
  apply (builtin_with_or_without_namespace (host := Demo.host) "fs/promises");
    [apply mem_elem_of|]; reflexivity.
Defined.

Lemma namespaced_builtin_needs_bare_listing_witness :
  "node:test" ∈ @builtins (hostWithBuiltins ["fs"; "path"; "node:test"])
  /\ @isBuiltin (hostWithBuiltins ["fs"; "path"; "node:test"]) "node:test" = false.
Proof.
  split; [apply mem_elem_of; reflexivity|].
  apply (namespaced_builtin_needs_bare_listing
           (host := hostWithBuiltins ["fs"; "path"; "node:test"]) "node:test");
    [|apply mem_not_elem_of]; reflexivity.
Defined.

(** ** More on the deep-import resolver *)

Section DeepImportMore.

Context {host : Host}.

Implicit Types (id : string) (pkg : PackageData) (targetWeb : bool)
  (options : Options) (st : Store).

(** The browser field is left alone unless the target is web, the
    [browserField] option is on and the field is an object: in every other
    case no lookup in it is made. *)
Theorem browser_field_needs_web_target id pkg targetWeb options st :
  targetWeb = false \/ browserField options = false
  \/ isObject (browserFieldTable pkg) = false ->
  browserLookups (resolveDeepImport id pkg targetWeb options st).2 = [].
Proof.
  intros Hoff.
  destruct (cache_hit_or_miss id pkg targetWeb st) as [(entry & Hhit & Hne)|Hmiss].
  - now rewrite (resolveDeepImport_cache_hit _ _ _ options _ _ Hhit Hne).
  - rewrite (resolveDeepImport_cache_miss _ _ _ options _ Hmiss).
    destruct (truthy (exportsField pkg)) eqn:Hexp.
    { destruct (mapRelativeId_exports id pkg targetWeb options st Hexp)
        as (r & ev1 & -> & Hb1 & _ & Hr).
      destruct r as [[v|relativeId]|e]; [contradiction| |exact Hb1].
      destruct (resolveRelativeId_run id pkg targetWeb options relativeId st)
        as (r2 & st2 & ev2 & -> & Hb2 & _).
      cbn [snd]. unfold browserLookups in *. now rewrite omap_app, Hb1, Hb2. }
    assert (Hplain : mapRelativeId id pkg targetWeb options st
                     = (Ret (Continue (Some id)), st, [])).
    { unfold mapRelativeId. rewrite Hexp.
      destruct Hoff as [->|[Hb|Hb]]; [reflexivity| |]; rewrite Hb.
      - now rewrite andb_false_r.
      - now rewrite andb_false_r. }
    rewrite Hplain.
    destruct (resolveRelativeId_run id pkg targetWeb options (Some id) st)
      as (r2 & st2 & ev2 & -> & Hb2 & _).
    exact Hb2.
Qed.

(** Through an exports map: the resolver is asked for the subpath without
    its query or fragment, the postfix is put back behind the target it
    returns, and the package directory joined with that is handed to the
    filesystem step, with no index fallback.  What the filesystem step
    finds is the result. *)
Theorem exports_target_keeps_postfix id pkg targetWeb options st
    (file postfix target : string) :
  str_truthy (cacheEntry st pkg id targetWeb) = false ->
  isObject (exportsField pkg) = true ->
  splitFileAndPostfix id = (file, postfix) ->
  resolveExportsOrImports (data pkg) file options targetWeb "exports"
  = Ret (Some target) ->
  Str.is_empty (target +:+ postfix) = false ->
  let stem := path_join (dir pkg) (target +:+ postfix) in
  let run := resolveDeepImport id pkg targetWeb options st in
  run.2 = [EvResolveExportsOrImports (ref pkg) file options targetWeb;
           EvTryFsResolve stem options false targetWeb]
  /\ match tryFsResolve stem options false targetWeb with
     | Ret (Some (String c rest)) =>
         run.1.1 = Ret (Some (String c rest))
         /\ cacheEntry run.1.2 pkg id targetWeb = Some (String c rest)
     | Ret _ => run.1.1 = Ret None /\ run.1.2 = st
     | Throw e => run.1.1 = Throw e /\ run.1.2 = st
     end.
Proof.
  intros Hmiss Hobj Hsplit Htarget Hne stem run. subst run.
  rewrite (resolveDeepImport_cache_miss _ _ _ options _ Hmiss).
  assert (Hexp : truthy (exportsField pkg) = true /\
                 Array_isArray (exportsField pkg) = false).
  { destruct (exportsField pkg) as [[]|]; try discriminate. now split. }
  destruct Hexp as [Hexp Harr].
  assert (Hmap : mapRelativeId id pkg targetWeb options st
                 = (Ret (Continue (Some (target +:+ postfix))), st,
                    [EvResolveExportsOrImports (ref pkg) file options targetWeb])).
  { unfold mapRelativeId. rewrite Hexp, Hobj, Harr, Hsplit. cbn [negb andb].
    unfold bind, call. rewrite Htarget. cbn.
    destruct (target +:+ postfix); [discriminate | reflexivity]. }
  rewrite Hmap. unfold resolveRelativeId.
  destruct (target +:+ postfix) as [|c0 rest0] eqn:Hrel; [discriminate|].
  unfold bind, call. rewrite Hexp. cbn [negb]. fold stem.
  destruct (tryFsResolve stem options false targetWeb) as [[[|c rest]|]|e];
    cbn; auto.
  split; [reflexivity|]. split; [reflexivity|].
  unfold cacheEntry. destruct targetWeb; cbn; apply lookup_insert_eq.
Qed.

(** Without an exports field, for the web target: a browser-field entry
    mapped to [false] makes the resolution return the browser-external id
    and note it in [webResolvedImports], without asking the filesystem; a
    non-empty mapped string replaces the subpath, its postfix put back;
    no entry, or an empty string, leaves the subpath as it is.  In the
    last two cases the filesystem step runs with the index fallback. *)
Theorem browser_field_mapping id pkg options st (file postfix : string) :
  str_truthy (cacheEntry st pkg id true) = false ->
  truthy (exportsField pkg) = false ->
  browserField options = true ->
  isObject (browserFieldTable pkg) = true ->
  splitFileAndPostfix id = (file, postfix) ->
  let lookup := EvMapWithBrowserField (ref pkg) file in
  let run := resolveDeepImport id pkg true options st in
  match mapWithBrowserField file (browserFieldTable pkg) with
  | Ret MappedFalse =>
      run.1.1 = Ret (Some browserExternalId)
      /\ run.2 = [lookup]
      /\ webResolvedImports run.1.2 !! (ref pkg, id) = Some browserExternalId
  | Ret (Mapped (String c rest)) =>
      run = withEarlier [lookup]
              (resolveRelativeId id pkg true options
                 (Some (String c rest +:+ postfix)) st)
  | Ret _ =>
      run = withEarlier [lookup]
              (resolveRelativeId id pkg true options (Some id) st)
  | Throw e => run = (Throw e, st, [lookup])
  end.
Proof.
  intros Hmiss Hexp Hopt Hobj Hsplit lookup run. subst run.
  rewrite (resolveDeepImport_cache_miss _ _ _ options _ Hmiss).
  unfold mapRelativeId. rewrite Hexp, Hopt, Hobj, Hsplit. cbn [andb].
  unfold bind, call, withEarlier.
  generalize (resolveRelativeId id pkg true options). intros step.
  destruct (mapWithBrowserField file (browserFieldTable pkg)) as [[[|c rest]| |]|e];
    cbn.
  - now destruct (step (Some id) st) as [[r st2] ev2].
  - now destruct (step _ st) as [[r st2] ev2].
  - repeat split. apply lookup_insert_eq.
  - now destruct (step (Some id) st) as [[r st2] ev2].
  - reflexivity.
Qed.

End DeepImportMore.

Lemma browser_field_needs_web_target_witness :
  isObject (browserFieldTable Demo.legacyPkg) = true
  /\ browserLookups
       (resolveDeepImport (host := Demo.host) "./server" Demo.legacyPkg false
          Demo.options Demo.emptyStore).2 = [].
Proof.
  split; [reflexivity|].
  apply (browser_field_needs_web_target (host := Demo.host)). now left.
Defined.

Lemma exports_target_keeps_postfix_witness :
  (resolveDeepImport (host := Demo.host) "./a?raw" Demo.libPkg false
     Demo.options Demo.emptyStore).2
  = [EvResolveExportsOrImports 1 "./a" Demo.options false;
     EvTryFsResolve "/proj/node_modules/lib/a.js?raw" Demo.options false false].
Proof.
  exact (proj1 (exports_target_keeps_postfix (host := Demo.host) "./a?raw"
                  Demo.libPkg false Demo.options Demo.emptyStore "./a" "?raw"
                  "./a.js" eq_refl eq_refl eq_refl eq_refl eq_refl)).
Defined.

Lemma browser_field_mapping_witness :
  let run :=
    resolveDeepImport (host := Demo.host) "./server" Demo.legacyPkg true
      Demo.options Demo.emptyStore in
  run.1.1 = Ret (Some browserExternalId)
  /\ run.2 = [EvMapWithBrowserField 3 "./server"]
  /\ webResolvedImports run.1.2 !! (3%N, "./server") = Some browserExternalId.
Proof.
  exact (browser_field_mapping (host := Demo.host) "./server" Demo.legacyPkg
           Demo.options Demo.emptyStore "./server" EmptyString
           eq_refl eq_refl eq_refl eq_refl eq_refl).
Defined.

(** ** More on the orchestrator *)

Section NodeResolveMore.

Context {host : Host}.

Implicit Types (id : string) (importer : option string) (options : Options)
  (targetWeb ssr externalize allowLinkedExternal deep : bool)
  (depsOptimizer : option DepsOptimizer) (pkg : PackageData) (st : Store).

(** When the package is not found, the consumer's manifest is read only
    if the base directory is not the project root and the specifier is a
    bare import that is no builtin and holds no NUL: otherwise the result
    is [undefined] and the package lookup was the last call made. *)
Theorem missing_package_skips_consumer_manifest id importer options targetWeb
    depsOptimizer ssr externalize allowLinkedExternal st basedir ev0 :
  chooseBasedir id importer options st = (Ret basedir, st, ev0) ->
  resolvePackageData (packageIdOf id) basedir (preserveSymlinks options)
    (packageCache options) = Ret None ->
  basedir = root options \/ isBuiltin id = true
  \/ Str.has_char Str.nul id = true \/ bareImportRE id = false ->
  tryNodeResolve id importer options targetWeb depsOptimizer ssr externalize
    allowLinkedExternal st
  = (Ret None, st, ev0 ++ [packageLookup id basedir options]).
Proof.
  intros Hbase Hmissing Hguard.
  rewrite (tryNodeResolve_run _ _ _ _ _ _ _ _ _ _ _ Hbase), Hmissing.
  unfold resolveMissingPackage.
  assert (negb (String.eqb basedir (root options)) && negb (isBuiltin id)
          && negb (Str.has_char Str.nul id) && bareImportRE id = false) as ->.
  { destruct Hguard as [ -> | [ -> | [ -> | -> ] ] ].
    - now rewrite String.eqb_refl.
    - now rewrite andb_false_r.
    - now rewrite andb_false_r.
    - now rewrite andb_false_r. }
  unfold withEarlier, ret. cbn. now rewrite app_nil_r.
Qed.

(** The package is found and the first resolution attempt returns.  A
    truthy result, or any result when [tryEsmOnly] is off, is final: no
    second attempt is made, and a falsy one makes [tryNodeResolve] return
    [undefined].  A falsy result with [tryEsmOnly] on is followed by one
    more attempt with the import settings. *)
Theorem first_result_decides_retry id importer options targetWeb depsOptimizer
    ssr externalize allowLinkedExternal st basedir ev0 pkg resolved st1 ev1 :
  let deep := bool_decide (is_Some (deepImportRE id)) in
  chooseBasedir id importer options st = (Ret basedir, st, ev0) ->
  resolvePackageData (packageIdOf id) basedir (preserveSymlinks options)
    (packageCache options) = Ret (Some pkg) ->
  resolveId deep (unresolvedIdOf id) pkg targetWeb options st
  = (Ret resolved, st1, ev1) ->
  let earlier := ev0 ++ packageLookup id basedir options :: ev1 in
  let run :=
    tryNodeResolve id importer options targetWeb depsOptimizer ssr
      externalize allowLinkedExternal st in
  let finish :=
    finishResolve id importer options depsOptimizer ssr externalize
      allowLinkedExternal deep pkg in
  (str_truthy resolved = true \/ tryEsmOnly options = false ->
   run = withEarlier earlier (finish resolved st1))
  /\ (str_truthy resolved = false -> tryEsmOnly options = false ->
      run = (Ret None, st1, earlier))
  /\ (str_truthy resolved = false -> tryEsmOnly options = true ->
      run = withEarlier earlier
              (bind (resolveId deep (unresolvedIdOf id) pkg targetWeb
                       (esmOptions options)) finish st1)).
Proof.
  intros deep Hbase Hpkg Hfirst earlier run finish.
  assert (Hrun : run
                 = withEarlier (ev0 ++ [packageLookup id basedir options])
                     (bind (resolveWithRetry deep (unresolvedIdOf id) pkg
                              targetWeb options) finish st)).
  { unfold run. now rewrite (tryNodeResolve_run _ _ _ _ _ _ _ _ _ _ _ Hbase), Hpkg. }
  assert (Hearlier : earlier = (ev0 ++ [packageLookup id basedir options]) ++ ev1).
  { unfold earlier. now rewrite <- app_assoc. }
  assert (Hfinal : negb (str_truthy resolved) && tryEsmOnly options = false ->
                   run = withEarlier earlier (finish resolved st1)).
  { intros Hno. rewrite Hrun, Hearlier.
    unfold withEarlier, bind, resolveWithRetry, tryCatch, bind.
    rewrite Hfirst, Hno. unfold ret. cbn [fst snd].
    destruct (finish resolved st1) as [[r st2] ev2]. cbn [fst snd].
    now rewrite ?app_nil_r, <- ?app_assoc. }
  split; [|split].
  - intros [Htruthy|Hesm]; apply Hfinal.
    + now rewrite Htruthy.
    + rewrite Hesm. apply andb_false_r.
  - intros Hfalsy Hesm. rewrite Hfinal by (rewrite Hesm; apply andb_false_r).
    unfold finish, finishResolve, withEarlier.
    destruct resolved as [[|c rest]|]; try discriminate;
      unfold ret; cbn [fst snd]; now rewrite app_nil_r.
  - intros Hfalsy Hesm. rewrite Hrun, Hearlier.
    unfold withEarlier, bind, resolveWithRetry, tryCatch, bind.
    rewrite Hfirst, Hfalsy, Hesm. cbn [negb andb fst snd].
    destruct (resolveId deep (unresolvedIdOf id) pkg targetWeb
                (esmOptions options) st1) as [[[resolved2|err2] st2] ev2];
      cbn [fst snd].
    + destruct (finish resolved2 st2) as [[r st3] ev3]. cbn [fst snd].
      now rewrite ?app_nil_r, <- ?app_assoc.
    + now rewrite ?app_nil_r, <- ?app_assoc.
Qed.

(** With [idOnly] set the result is the bare id: it never carries the
    external mark nor a side-effects value. *)
Theorem idOnly_result_is_plain id importer options depsOptimizer ssr
    externalize allowLinkedExternal deep pkg (resolved : option string)
    st r st' evs :
  idOnly options = true ->
  finishResolve id importer options depsOptimizer ssr externalize
    allowLinkedExternal deep pkg resolved st = (Ret (Some r), st', evs) ->
  res_external r = None /\ res_moduleSideEffects r = None.
Proof.
  intros Honly. unfold finishResolve.
  destruct resolved as [[|c rest]|]; try discriminate.
  unfold shapeResult. rewrite Honly. cbn [negb andb].
  destruct (negb (ssrOptimizeCheck options) && _); [now intros [= <- _ _]|].
  unfold bind.
  destruct (skipOptimization _ _ _ _ _ _ _ _ _ _ st) as [[[skip|e] st1] ev1];
    [|discriminate].
  destruct (ssrOptimizeCheck options); [now intros [= <- _ _]|].
  match goal with
  | |- context [(if skip then ?a else ?b) st1] =>
      destruct ((if skip then a else b) st1) as [[[resolved'|e] st2] ev2]
  end; [|discriminate].
  now intros [= <- _ _].
Qed.

(** A linked package, resolved outside any [node_modules] directory, is
    never marked external when [allowLinkedExternal] is off. *)
Theorem linked_package_stays_internal id importer options depsOptimizer ssr
    externalize deep pkg (resolved : string) st r st' evs :
  isInNodeModules resolved = false ->
  finishResolve id importer options depsOptimizer ssr externalize false deep
    pkg (Some resolved) st = (Ret (Some r), st', evs) ->
  res_external r = None.
Proof.
  intros Hlinked Hrun. unfold finishResolve in Hrun.
  destruct resolved as [|c rest]; [discriminate|].
  destruct (negb (idOnly options)
            && ((negb (scan options) && isBuild options
                 && negb (bool_decide (is_Some depsOptimizer)))
                || externalize)) eqn:Hguard.
  - unfold shapeResult in Hrun. rewrite Hguard in Hrun.
    injection Hrun as <- _ _. unfold processResult.
    destruct externalize; [|reflexivity].
    cbn [negb andb withSideEffects res_id]. now rewrite Hlinked.
  - exact (shapeResult_unmarked _ _ _ _ _ _ _ _ _ _ _ _ _ _ Hguard Hrun).
Qed.

Lemma skipOptimization_run id importer options ssr (resolved ext : string)
    (isJsType : bool) (excludeList includeList : option (list string)) st :
  exists r evs,
    skipOptimization id (packageIdOf id) importer options ssr resolved ext
      isJsType excludeList includeList st = (r, st, evs)
    /\ registrations evs = []
    /\ (r = Ret false ->
        skipsBeforeManifest id importer options ssr resolved isJsType excludeList
        = false).
Proof.
  unfold skipOptimization, skipsBeforeManifest.
  destruct (negb isJsType || _ || _ || _ || _ || _) eqn:Hpure.
  - unfold ret. do 2 eexists. split; [reflexivity|]. split; [reflexivity|].
    discriminate.
  - destruct ssr; [|unfold ret; eauto].
    unfold bind. destruct (String.eqb ext ".cjs"); [unfold ret; cbn; eauto|].
    destruct (String.eqb ext ".js"); [|unfold ret; cbn; eauto].
    unfold call.
    destruct (findNearestPackageData _ _) as [nearest|e]; unfold ret; cbn; eauto.
Qed.

(** An import is registered with the pre-bundling coordinator at most
    once per resolution, under its specifier and resolved path, and only
    when a coordinator is there, the resolved file is an optimizable one
    inside [node_modules], this is neither the scan phase nor the SSR
    optimize check nor SSR during serve, externalization is not in force,
    the importer is not itself inside [node_modules], and neither the
    package id nor the specifier is excluded. *)
Theorem registration_needs_optimizable_dependency id importer options
    depsOptimizer ssr externalize allowLinkedExternal deep pkg
    (resolved : string) st :
  let evs :=
    (finishResolve id importer options depsOptimizer ssr externalize
       allowLinkedExternal deep pkg (Some resolved) st).2 in
  registrations evs = []
  \/ (registrations evs = [(id, resolved)]
      /\ exists optimizer,
           depsOptimizer = Some optimizer
           /\ ssrOptimizeCheck options = false
           /\ scan options = false
           /\ isInNodeModules resolved = true
           /\ (idOnly options = true \/ externalize = false)
           /\ skipsBeforeManifest id importer options ssr resolved
                (isOptimizable resolved (optimizerOptions optimizer))
                (exclude (optimizerOptions optimizer)) = false).
Proof.
  intros evs. subst evs. unfold finishResolve.
  destruct resolved as [|c rest]; [now left|].
  set (resolved := String c rest). unfold shapeResult.
  destruct (negb (idOnly options) && _) eqn:Hguard; [now left|].
  destruct (negb (ssrOptimizeCheck options) && _) eqn:Hplain; [now left|].
  unfold bind.
  match goal with
  | |- context [skipOptimization _ _ _ _ _ _ ?e ?j ?x ?i st] =>
      destruct (skipOptimization_run id importer options ssr resolved e j x i st)
        as (r & ev1 & -> & Hreg1 & Hskip)
  end.
  destruct r as [skip|e]; [|left; exact Hreg1].
  destruct (ssrOptimizeCheck options) eqn:Hcheck.
  { left. cbn. unfold registrations in *. now rewrite omap_app, Hreg1. }
  destruct skip.
  - left.
    assert (Hnone : forall (m : M string) r2 st2 ev2,
               m st = (r2, st2, ev2) -> registrations ev2 = [] ->
               registrations
                 (let '(r3, st3, ev3) :=
                    match m st with
                    | (Ret a, st4, ev4) =>
                        let '(r5, st5, ev5) :=
                          (if negb (idOnly options) && negb (scan options)
                              && isBuild options
                           then ret (Some (withSideEffects pkg a))
                           else ret (Some (plainResult a))) st4 in
                        (r5, st5, ev4 ++ ev5)
                    | (Throw e, st4, ev4) => (Throw e, st4, ev4)
                    end in
                  (r3, st3, ev1 ++ ev3)).2 = []).
    { intros m r2 st2 ev2 -> Hev2. destruct r2 as [a|e]; cbn.
      - destruct (negb (idOnly options) && negb (scan options) && isBuild options);
          cbn; unfold registrations in *;
          now rewrite omap_app, Hreg1, app_nil_r.
      - unfold registrations in *. now rewrite omap_app, Hreg1. }
    destruct (isBuild options); cbn [negb].
    + eapply Hnone; reflexivity.
    + destruct depsOptimizer as [d|].
      * destruct (negb (Str.is_empty (browserHash d)) && _);
          eapply Hnone; reflexivity.
      * eapply Hnone; reflexivity.
  - destruct depsOptimizer as [d|].
    + right. split.
      * unfold call, ret. cbn.
        destruct (negb (idOnly options) && negb (scan options) && isBuild options);
          cbn; unfold registrations in *; rewrite omap_app, Hreg1; reflexivity.
      * exists d. split; [reflexivity|].
        cbn [bool_decide negb orb andb] in Hplain.
        assert (Hopt : bool_decide (is_Some (Some d)) = true)
          by (apply bool_decide_eq_true; eauto).
        rewrite Hopt in Hplain, Hguard. cbn [negb orb andb] in Hplain, Hguard.
        rewrite !andb_false_r in Hguard. cbn [orb] in Hguard.
        destruct (scan options); [now rewrite orb_true_r in Hplain|].
        rewrite orb_false_r in Hplain.
        destruct (isInNodeModules resolved); [|discriminate].
        repeat split.
        { destruct (idOnly options); [now left|]. right. exact Hguard. }
        now apply Hskip.
    + left. unfold throw. cbn. rewrite app_nil_r. exact Hreg1.
Qed.

Lemma substring_drop (n len : nat) (s : string) :
  substring n len s = substring 0 len (Str.drop n s).
Proof.
  revert s. induction n as [|n IH]; intros s; [reflexivity|].
  destruct s as [|c s]; [now destruct len|]. apply IH.
Qed.

(** Where [indexOf] finds the needle, what follows starts with it. *)
Lemma indexOf_prefix (needle s : string) (n : nat) :
  Str.indexOf needle s = Some n -> String.prefix needle (Str.drop n s) = true.
Proof.
  unfold Str.indexOf. intros Hindex.
  apply String.index_correct1 in Hindex.
  apply String.prefix_correct. now rewrite <- substring_drop.
Qed.

(** The id of a result that [processResult] marks external.  It is the
    specifier as written, unless the import is deep, the package has no
    exports field and the extension of the resolved path differs from that
    of the specifier: then it is the resolved path from the first
    occurrence of the specifier on, which starts with the specifier; and
    when the specifier does not occur in the resolved path, it is the last
    character of that path.  The side-effects value is kept. *)
Theorem externalized_id_of_deep_import id deep pkg allowLinkedExternal
    (resolved : PartialResolvedId) :
  allowLinkedExternal = true \/ isInNodeModules (res_id resolved) = true ->
  path_extname (res_id resolved) = EmptyString
  \/ isJsExtension (path_extname (res_id resolved)) = true ->
  let r := processResult id deep pkg true allowLinkedExternal resolved in
  res_external r = Some true
  /\ res_moduleSideEffects r = res_moduleSideEffects resolved
  /\ (deep = false \/ truthy (exportsField pkg) = true
      \/ path_extname id = path_extname (res_id resolved) ->
      res_id r = id)
  /\ (deep = true -> truthy (exportsField pkg) = false ->
      path_extname id <> path_extname (res_id resolved) ->
      match Str.indexOf id (res_id resolved) with
      | Some n =>
          res_id r = Str.drop n (res_id resolved)
          /\ String.prefix id (res_id r) = true
      | None =>
          res_id r
          = Str.drop (String.length (res_id resolved) - 1) (res_id resolved)
      end).
Proof.
  intros Hlinked Hext r. subst r. unfold processResult. cbn [negb].
  assert (negb allowLinkedExternal && negb (isInNodeModules (res_id resolved))
          = false) as ->.
  { destruct Hlinked as [->| ->]; [reflexivity | apply andb_false_r]. }
  assert (negb (Str.is_empty (path_extname (res_id resolved)))
          && negb (isJsExtension (path_extname (res_id resolved))) = false) as ->.
  { destruct Hext as [->| ->]; [reflexivity | apply andb_false_r]. }
  cbn [res_external res_moduleSideEffects res_id].
  split; [reflexivity|]. split; [reflexivity|]. split.
  - intros [->|[->|Heq]]; [reflexivity | now rewrite andb_false_r |].
    apply String.eqb_eq in Heq. rewrite Heq. now rewrite andb_false_r.
  - intros -> -> Hdiff. apply String.eqb_neq in Hdiff. rewrite Hdiff.
    cbn [negb andb]. unfold Str.slice_from.
    destruct (Str.indexOf id (res_id resolved)) as [n|] eqn:Hindex;
      [|reflexivity].
    split; [reflexivity|]. now apply indexOf_prefix.
Qed.

End NodeResolveMore.

Section OnDemoMore.

Import Demo DemoMore.

Lemma missing_package_skips_consumer_manifest_witness :
  isBuiltin "fs" = true
  /\ tryNodeResolve "fs" appImporter options false None false false true emptyStore
     = (Ret None, emptyStore,
        [EvExistsSync "/proj/packages/app/src/index.js";
         EvResolvePackageData "fs" "/proj/packages/app/src" false None]).
Proof.
  split; [reflexivity|].
  apply (missing_package_skips_consumer_manifest (host := host) "fs" appImporter
           options false None false false true emptyStore
           "/proj/packages/app/src"
           [EvExistsSync "/proj/packages/app/src/index.js"]);
    [reflexivity | reflexivity | right; now left].
Defined.

Lemma first_result_decides_retry_witness :
  tryEsmOnly esmRetryOptions = true
  /\ (tryNodeResolve "legacy" mainImporter esmRetryOptions false None false false
        true emptyStore).2
     = [EvExistsSync "/proj/src/main.js";
        EvResolvePackageData "legacy" "/proj/src" false None;
        EvResolvePackageEntry "legacy" 3 false esmRetryOptions].
Proof.
  split; [reflexivity|].
  destruct (first_result_decides_retry (host := host) "legacy" mainImporter
              esmRetryOptions false None false false true emptyStore "/proj/src"
              [EvExistsSync "/proj/src/main.js"] legacyPkg
              (Some "/proj/node_modules/legacy/util.js") emptyStore
              [EvResolvePackageEntry "legacy" 3 false esmRetryOptions]
              eq_refl eq_refl eq_refl) as [Hfinal _].
  rewrite (Hfinal (or_introl eq_refl)). reflexivity.
Defined.

Lemma idOnly_result_is_plain_witness :
  (finishResolve "legacy/util" mainImporter idOnlyOptions None false true true
     true legacyPkg (Some "/proj/node_modules/legacy/util.js") emptyStore).1.1
  = Ret (Some (plainResult "/proj/node_modules/legacy/util.js"))
  /\ res_external (plainResult "/proj/node_modules/legacy/util.js") = None
  /\ res_moduleSideEffects (plainResult "/proj/node_modules/legacy/util.js") = None.
Proof.
  split; [reflexivity|].
  apply (idOnly_result_is_plain (host := host) "legacy/util" mainImporter
           idOnlyOptions None false true true true legacyPkg
           (Some "/proj/node_modules/legacy/util.js") emptyStore _ emptyStore []);
    reflexivity.
Defined.

Lemma linked_package_stays_internal_witness :
  (finishResolve "linked/util" mainImporter options None false true false true
     linkedPkg (Some "/work/linked-src/util.js") emptyStore).1.1
  = Ret (Some (withSideEffects linkedPkg "/work/linked-src/util.js"))
  /\ res_external (withSideEffects linkedPkg "/work/linked-src/util.js") = None.
Proof.
  split; [reflexivity|].
  apply (linked_package_stays_internal (host := host) "linked/util" mainImporter
           options None false true true linkedPkg "/work/linked-src/util.js"
           emptyStore _ emptyStore []);
    reflexivity.
Defined.

(** A deep import into [legacy] is externalized under the path from the
    specifier on; one into the linked package, whose directory does not
    spell the specifier, under the last character of its path. *)
Lemma externalized_id_of_deep_import_witness :
  res_id (processResult "legacy/tool" true legacyPkg true true
            (withSideEffects legacyPkg "/proj/node_modules/legacy/tool/index.js"))
  = "legacy/tool/index.js"
  /\ res_id (processResult "linked/util" true linkedPkg true true
               (withSideEffects linkedPkg "/work/linked-src/util.js"))
     = "s".
Proof.
  split.
  - destruct (externalized_id_of_deep_import (host := host) "legacy/tool" true
                legacyPkg true
                (withSideEffects legacyPkg "/proj/node_modules/legacy/tool/index.js")
                (or_introl eq_refl) (or_intror eq_refl))
      as (_ & _ & _ & Hdeep).
    exact (proj1 (Hdeep eq_refl eq_refl ltac:(discriminate))).
  - destruct (externalized_id_of_deep_import (host := host) "linked/util" true
                linkedPkg true
                (withSideEffects linkedPkg "/work/linked-src/util.js")
                (or_introl eq_refl) (or_intror eq_refl))
      as (_ & _ & _ & Hdeep).
    exact (Hdeep eq_refl eq_refl ltac:(discriminate)).
Defined.

(** A dependency inside [node_modules] that is not excluded is registered
    in dev and resolves to its pre-bundled id; the excluded [legacy] is
    not, and gets the version query. *)
Example registration_on_demo :
  tryNodeResolve "lib/a" mainImporter options false (Some optimizer) false false
    true emptyStore
  = (Ret (Some (plainResult "/proj/node_modules/.vite/deps/lib/a.js")),
     {| webResolvedImports := ∅;
        nodeResolvedImports := {[ (1%N, "./a") := "/proj/node_modules/lib/a.js" ]} |},
     [EvResolvePackageData "lib" "/proj" false None;
      EvResolveExportsOrImports 1 "./a" options false;
      EvTryFsResolve "/proj/node_modules/lib/a.js" options false false;
      EvRegisterMissingImport "lib/a" "/proj/node_modules/lib/a.js"])
  /\ (tryNodeResolve "legacy/util" mainImporter options false (Some optimizer)
        false false true emptyStore).1.1
     = Ret (Some (plainResult "/proj/node_modules/legacy/util.js?v=abc123"))
  /\ registrations
       (tryNodeResolve "legacy/util" mainImporter options false (Some optimizer)
          false false true emptyStore).2 = [].
Proof. repeat split; vm_compute; reflexivity. Qed.

End OnDemoMore.

(** ** The configuration loader *)

Section ConfigLoaderFacts.

Context {host : Host} {configHost : ConfigHost}.


(** The walk of [lookupFile] ends: when the [n]-th directory above [dir]
    is empty or its own parent, every run with more than [n] units of
    fuel returns, and they all return the same. *)
Theorem lookupFile_enough_fuel (n : nat) (dir : string)
    (fileNames : list string) :
  Str.is_empty (ancestorDir n dir) = true
  \/ path_dirname (ancestorDir n dir) = ancestorDir n dir ->
  exists result,
    forall fuel, n < fuel -> lookupFile fuel dir fileNames = Some result.
Proof.
  revert dir. induction n as [|n IH]; intros dir Hroot.
  - cbn [ancestorDir] in Hroot.
    exists (if Str.is_empty dir then None
            else match List.find (fun f => isFileAt (path_join dir f)) fileNames with
                 | Some fileName => Some (path_join dir fileName)
                 | None => None
                 end).
    intros [|fuel] Hfuel; [lia|]. cbn [lookupFile].
    destruct (Str.is_empty dir) eqn:Hempty; [reflexivity|].
    destruct (List.find _ fileNames); [reflexivity|].
    destruct Hroot as [Hroot|Hroot]; [discriminate|].
    now rewrite Hroot, String.eqb_refl.
  - cbn [ancestorDir] in Hroot. destruct (IH _ Hroot) as (above & Habove).
    exists (if Str.is_empty dir then None
            else match List.find (fun f => isFileAt (path_join dir f)) fileNames with
                 | Some fileName => Some (path_join dir fileName)
                 | None => if String.eqb (path_dirname dir) dir then None else above
                 end).
    intros [|fuel] Hfuel; [lia|]. cbn [lookupFile].
    destruct (Str.is_empty dir); [reflexivity|].
    destruct (List.find _ fileNames); [reflexivity|].
    destruct (String.eqb (path_dirname dir) dir); [reflexivity|].
    apply Habove. lia.
Qed.

Lemma firstExistingConfig_run (configRoot : string) (fileNames : list string)
    (st : RequireState) :
  exists k,
    firstExistingConfig configRoot fileNames st
    = Some (Ret (option_map (fun name => path_resolve [configRoot; name])
                   (firstConfigIn configRoot fileNames)),
            st, map (probe configRoot) (take k fileNames))
    /\ (firstConfigIn configRoot fileNames = None -> k = length fileNames).
Proof.
  induction fileNames as [|name rest IH].
  - exists 0. split; [reflexivity|]. reflexivity.
  - cbn [firstExistingConfig firstConfigIn List.find].
    unfold lbind, lcall.
    destruct (fs_existsSync (path_resolve [configRoot; name])) eqn:Hexists.
    + exists 1. split; [reflexivity | discriminate].
    + destruct IH as (k & -> & Hall). exists (S k).
      split; [reflexivity|]. intros Hnone. cbn [length].
      f_equal. now apply Hall.
Qed.

(** The names are probed in order up to the first that exists, and no
    further. *)
Lemma firstExistingConfig_stops (configRoot : string) (fileNames : list string)
    (st : RequireState) :
  (exists before name after,
     fileNames = before ++ name :: after
     /\ (forall earlier, earlier ∈ before ->
         fs_existsSync (path_resolve [configRoot; earlier]) = false)
     /\ fs_existsSync (path_resolve [configRoot; name]) = true
     /\ firstExistingConfig configRoot fileNames st
        = Some (Ret (Some (path_resolve [configRoot; name])), st,
                map (probe configRoot) (before ++ [name])))
  \/ ((forall name, name ∈ fileNames ->
       fs_existsSync (path_resolve [configRoot; name]) = false)
      /\ firstExistingConfig configRoot fileNames st
         = Some (Ret None, st, map (probe configRoot) fileNames)).
Proof.
  induction fileNames as [|name rest IH].
  - right. split; [|reflexivity]. intros name Hin. inversion Hin.
  - cbn [firstExistingConfig]. unfold lbind, lcall.
    destruct (fs_existsSync (path_resolve [configRoot; name])) eqn:Hexists.
    + left. exists [], name, rest. split; [reflexivity|].
      split; [intros earlier Hin; inversion Hin|].
      split; [exact Hexists | reflexivity].
    + destruct IH as [(before & found & after & -> & Hbefore & Hfound & ->)
                     |[Hnone ->]].
      * left. exists (name :: before), found, after.
        split; [reflexivity|]. split; [|split; [exact Hfound | reflexivity]].
        intros earlier Hin. apply elem_of_cons in Hin as [ -> | Hin ];
          [exact Hexists | now apply Hbefore].
      * right. split; [|reflexivity].
        intros other Hin. apply elem_of_cons in Hin as [ -> | Hin ];
          [exact Hexists | now apply Hnone].
Qed.

(** The path of the config file.  One that is given is resolved and taken
    as it is, without a look at the filesystem.  Otherwise the default
    names are tried under [configRoot] in their listed order: the names
    before the first that exists are probed and found missing, that one is
    probed and taken, and the names behind it are not probed; when none
    exists all are probed and there is no config file. *)
Theorem config_file_resolution (configFile : option string)
    (configRoot : string) (st : RequireState) :
  match configFile with
  | Some (String c rest) =>
      resolveConfigPath configFile configRoot st
      = Some (Ret (Some (path_resolve [String c rest])), st, [])
  | _ =>
      (exists before name after,
         DEFAULT_CONFIG_FILES = before ++ name :: after
         /\ (forall earlier, earlier ∈ before ->
             fs_existsSync (path_resolve [configRoot; earlier]) = false)
         /\ fs_existsSync (path_resolve [configRoot; name]) = true
         /\ resolveConfigPath configFile configRoot st
            = Some (Ret (Some (path_resolve [configRoot; name])), st,
                    map (probe configRoot) (before ++ [name])))
      \/ ((forall name, name ∈ DEFAULT_CONFIG_FILES ->
           fs_existsSync (path_resolve [configRoot; name]) = false)
          /\ resolveConfigPath configFile configRoot st
             = Some (Ret None, st, map (probe configRoot) DEFAULT_CONFIG_FILES))
  end.
Proof.
  destruct configFile as [[|c rest]|]; [|reflexivity|];
    apply firstExistingConfig_stops.
Qed.

(** Without a given config file and with none of the default names
    present, [loadConfigFromFile] warns and returns [null]: nothing is
    bundled, written or loaded, whatever the fuel. *)
Theorem no_config_file_returns_null (fuel : nat) (configEnv : ConfigEnv)
    (configFile configRootArg : option string) (st : RequireState) :
  configFile = None \/ configFile = Some EmptyString ->
  firstConfigIn (default cwd configRootArg) DEFAULT_CONFIG_FILES = None ->
  loadConfigFromFile fuel configEnv configFile configRootArg st
  = Some (Ret None, st,
          map (probe (default cwd configRootArg)) DEFAULT_CONFIG_FILES
          ++ [LdConsoleWarn "no config file found."]).
Proof.
  intros Himplicit Hnone. unfold loadConfigFromFile, lbind at 1.
  assert (Hpath : resolveConfigPath configFile (default cwd configRootArg) st
                  = Some (Ret None, st,
                          map (probe (default cwd configRootArg))
                            DEFAULT_CONFIG_FILES)).
  { destruct (firstExistingConfig_run (default cwd configRootArg)
                DEFAULT_CONFIG_FILES st) as (k & Hrun & Hk).
    destruct Himplicit as [-> | ->]; unfold resolveConfigPath;
      rewrite Hrun, Hnone, (Hk Hnone); reflexivity. }
  rewrite Hpath. reflexivity.
Qed.

(** An ES module config is written to a temporary file named after the
    config file, imported from there, and the file is unlinked whether
    the import returns or throws; when the write fails nothing is
    imported or unlinked.  The state of [_require] is not touched. *)
Theorem temporary_module_is_always_unlinked (fileName bundledCode : string)
    (st : RequireState) :
  let tmp := fileName +:+ ".timestamp-" +:+ dateNow +:+ "-" +:+ randomHex
             +:+ ".mjs" in
  let url := pathToFileURL (temporaryFileBase fileName) +:+ ".mjs" in
  temporaryFileBase fileName +:+ ".mjs" = tmp
  /\ loadConfigFromBundledFile fileName bundledCode true st
     = match fsp_writeFile tmp bundledCode with
       | Ret _ =>
           Some (dynamicImportDefault url, st,
                 [LdWriteFile tmp bundledCode; LdImport url; LdUnlink tmp])
       | Throw e => Some (Throw e, st, [LdWriteFile tmp bundledCode])
       end.
Proof.
  intros tmp url.
  assert (Htmp : temporaryFileBase fileName +:+ ".mjs" = tmp).
  { unfold temporaryFileBase, tmp. now rewrite !append_assoc. }
  split; [exact Htmp|].
  unfold loadConfigFromBundledFile. cbn zeta. rewrite Htmp. fold url.
  unfold lbind, lcall, ltryFinally, lemit, lcall.
  now destruct (fsp_writeFile tmp bundledCode).
Qed.

(** A CommonJS config that loads: the file is required under an extension
    table whose loader for the extension compiles the bundled code for
    the real file name and is the previous loader for every other file,
    and with a module cache from which the entry of the file has been
    deleted.  Afterwards the previous loader is back, so a table that had
    a loader for the extension is what it was, and the module cache is the
    one the call left.  The result is the default export of an ES module
    wrapper and the exports otherwise. *)
Theorem require_loader_is_restored (fileName bundledCode realFileName key : string)
    (raw : RawModule) (st : RequireState) :
  fsp_realpath fileName = Ret realFileName ->
  require_resolve fileName = Ret key ->
  require_load (patchedExtensions fileName realFileName bundledCode st) fileName
  = Ret raw ->
  let patched :=
    PatchedLoader realFileName bundledCode (defaultLoaderOf fileName st) in
  let cleared := requireCache st ∖ {[key]} in
  loadConfigFromBundledFile fileName bundledCode false st
  = Some (Ret (if rawEsModule raw then rawDefault raw else rawSelf raw),
          {| requireExtensions :=
               <[loaderExtOf fileName st := defaultLoaderOf fileName st]>
                 (requireExtensions st);
             requireCache :=
               require_cached
                 (patchedExtensions fileName realFileName bundledCode st)
                 cleared fileName |},
          [LdRealpath fileName; LdRequireResolve fileName; LdRequire fileName])
  /\ (key ∉ cleared)
  /\ (is_Some (requireExtensions st !! loaderExtOf fileName st) ->
      <[loaderExtOf fileName st := defaultLoaderOf fileName st]>
        (requireExtensions st) = requireExtensions st)
  /\ loaderAction patched realFileName = CompileCode bundledCode realFileName
  /\ (forall other, other <> realFileName ->
      loaderAction patched other
      = loaderAction (defaultLoaderOf fileName st) other).
Proof.
  intros Hreal Hkey Hload patched cleared. subst patched cleared.
  split; [|split; [|split; [|split]]].
  - unfold loadConfigFromBundledFile, lbind at 1, lcall at 1. rewrite Hreal.
    fold (loaderExtOf fileName st). fold (defaultLoaderOf fileName st).
    unfold lbind, setExtension, lcall, deleteCached, requireFile, lret.
    rewrite Hkey. cbn [requireExtensions requireCache].
    fold (patchedExtensions fileName realFileName bundledCode st).
    rewrite Hload. cbn [app]. unfold patchedExtensions.
    now rewrite insert_insert_eq.
  - intros Hin. apply elem_of_difference in Hin as [_ Hnot].
    apply Hnot. now apply elem_of_singleton.
  - intros [loader Hloader]. apply insert_id.
    unfold defaultLoaderOf. now rewrite Hloader.
  - cbn [loaderAction]. now rewrite String.eqb_refl.
  - intros other Hother. cbn [loaderAction].
    apply String.eqb_neq in Hother. now rewrite Hother.
Qed.

(** A CommonJS config that fails to load, because the file cannot be
    resolved or because requiring it throws: the error is passed on, and
    the loader installed for the extension is left in the table. *)
Theorem require_loader_stays_patched_on_error
    (fileName bundledCode realFileName : string) (e : JsError)
    (st : RequireState) :
  fsp_realpath fileName = Ret realFileName ->
  require_resolve fileName = Throw e
  \/ ((exists key, require_resolve fileName = Ret key)
      /\ require_load (patchedExtensions fileName realFileName bundledCode st)
           fileName = Throw e) ->
  exists st' evs,
    loadConfigFromBundledFile fileName bundledCode false st
    = Some (Throw e, st', evs)
    /\ requireExtensions st' !! loaderExtOf fileName st
       = Some (PatchedLoader realFileName bundledCode (defaultLoaderOf fileName st)).
Proof.
  intros Hreal Hfail.
  unfold loadConfigFromBundledFile, lbind at 1, lcall at 1. rewrite Hreal.
  fold (loaderExtOf fileName st). fold (defaultLoaderOf fileName st).
  unfold lbind, setExtension, lcall, deleteCached, requireFile, lret.
  destruct Hfail as [Hresolve|[(key & Hkey) Hload]].
  - rewrite Hresolve. do 2 eexists. split; [reflexivity|].
    cbn [requireExtensions]. apply lookup_insert_eq.
  - rewrite Hkey. cbn [requireExtensions requireCache].
    fold (patchedExtensions fileName realFileName bundledCode st).
    rewrite Hload. do 2 eexists. split; [reflexivity|].
    cbn [requireExtensions]. apply lookup_insert_eq.
Qed.

Lemma loadConfigFromBundledFile_run (fileName bundledCode : string)
    (isESM : bool) (st : RequireState) :
  exists r st' evs,
    loadConfigFromBundledFile fileName bundledCode isESM st = Some (r, st', evs)
    /\ consoleErrors evs = [].
Proof.
  destruct isESM.
  - unfold loadConfigFromBundledFile, lbind, lcall, ltryFinally, lemit, lcall.
    destruct (fsp_writeFile _ bundledCode); [|eauto 10].
    destruct (dynamicImportDefault _); eauto 10.
  - unfold loadConfigFromBundledFile, lbind at 1, lcall at 1.
    destruct (fsp_realpath fileName) as [real|e]; [|eauto 10].
    unfold lbind, setExtension, lcall, deleteCached, requireFile, lret.
    destruct (require_resolve fileName) as [key|e]; [|eauto 10].
    cbn [requireExtensions requireCache].
    destruct (require_load _ fileName) as [raw|e]; eauto 10.
Qed.

(** The runs of lines 153-176 in the model: one that throws ends with
    the failure written to [console.error], the only such line; one that
    returns writes none. *)
Lemma loadResolvedConfig_run (configEnv : ConfigEnv) (resolvedPath : string)
    (isESM : bool) (st : RequireState) :
  exists r st' evs,
    loadResolvedConfig configEnv resolvedPath isESM st = Some (r, st', evs)
    /\ match r with
       | Throw e =>
           exists before,
             evs = before ++ [failedToLoad resolvedPath]
             /\ consoleErrors before = []
       | Ret loaded =>
           consoleErrors evs = []
           /\ isObject (config loaded) = true
           /\ configPath loaded = normalizePath resolvedPath
       end.
Proof.
  unfold loadResolvedConfig, ltryCatch.
  assert (Hfail : forall e st1 before,
             consoleErrors before = [] ->
             exists r st' evs,
               match
                 (do+ lemit (LdConsoleError
                               ("failed to load config from " +:+ resolvedPath)) in
                  lthrow e) st1
               with
               | Some (r0, st2, ev2) => Some (r0, st2, before ++ ev2)
               | None => None
               end = Some (r, st', evs)
               /\ match r with
                  | Throw _ =>
                      exists b, evs = b ++ [failedToLoad resolvedPath]
                                /\ consoleErrors b = []
                  | Ret loaded =>
                      consoleErrors evs = []
                      /\ isObject (config loaded) = true
                      /\ configPath loaded = normalizePath resolvedPath
                  end).
  { intros e st1 before Hquiet. do 3 eexists. split; [reflexivity|]. cbn. eauto. }
  unfold lbind at 1, bundleConfigFile, lbind at 1, lcall at 1.
  destruct (esbuild_build _) as [result|e]; [|now apply Hfail].
  destruct (outputFiles result) as [|text rest]; [now apply Hfail|].
  unfold lret at 1. unfold lbind at 1. cbn [code dependencies].
  destruct (loadConfigFromBundledFile_run resolvedPath text isESM st)
    as (r1 & st1 & ev1 & -> & Hquiet).
  assert (Hquiet1 : forall more,
             consoleErrors more = [] ->
             consoleErrors
               (([LdBuild (buildOptions resolvedPath isESM)] ++ []) ++ ev1 ++ more)
             = []).
  { intros more Hmore. unfold consoleErrors in *.
    now rewrite !omap_app, Hquiet, Hmore. }
  destruct r1 as [userConfig|e].
  2:{ apply Hfail. rewrite <- (app_nil_r ev1). now apply Hquiet1. }
  unfold lbind at 1, lemit, lcall. unfold lbind at 1.
  assert (Hvalue : exists v,
             (match userConfig with
              | ExportValue v => lret v
              | ExportFunction f => fun st0 => Some (f configEnv, st0, [])
              end) st1 = Some (v, st1, [])).
  { destruct userConfig; unfold lret; eauto. }
  destruct Hvalue as (v & ->).
  destruct v as [configValue|e].
  2:{ apply Hfail. rewrite <- !app_assoc. now apply Hquiet1. }
  destruct (isObject configValue) eqn:Hobj.
  2:{ apply Hfail. rewrite <- !app_assoc. now apply Hquiet1. }
  do 3 eexists. split; [reflexivity|]. cbn [config configPath].
  split; [|split; [exact Hobj | reflexivity]].
  unfold consoleErrors in *. rewrite !omap_app, Hquiet. reflexivity.
Qed.

(** A run of lines 153-176 that completes.  When it throws, the last
    thing it did was to write the failure, with the path of the config
    file, to [console.error], and it wrote nothing else there.  When it
    returns, nothing was written there, the config is a plain object, and
    the path is the normalized path of the config file. *)
Theorem load_failure_is_logged (configEnv : ConfigEnv) (resolvedPath : string)
    (isESM : bool) (st st' : RequireState) (r : outcome LoadedConfig)
    (evs : list LoaderEvent) :
  loadResolvedConfig configEnv resolvedPath isESM st = Some (r, st', evs) ->
  match r with
  | Throw e =>
      exists before,
        evs = before ++ [failedToLoad resolvedPath]
        /\ consoleErrors before = []
  | Ret loaded =>
      consoleErrors evs = []
      /\ isObject (config loaded) = true
      /\ configPath loaded = normalizePath resolvedPath
  end.
Proof.
  intros Hrun.
  destruct (loadResolvedConfig_run configEnv resolvedPath isESM st)
    as (r0 & st0 & evs0 & Hrun0 & Hshape).
  rewrite Hrun in Hrun0. injection Hrun0 as <- <- <-. exact Hshape.
Qed.

(** After the bundle is built and the bundled file loaded, the value of
    the config is what the module exports or, for a function, what it
    returns for the environment.  A plain object is returned with the
    normalized path and the inputs of the bundle as dependencies, none
    when there is no metafile; anything else is the error that the config
    must be an object, logged like every failure. *)
Theorem config_must_be_an_object (configEnv : ConfigEnv) (resolvedPath : string)
    (isESM : bool) (st st1 : RequireState) (result : BuildResult)
    (text : string) (rest : list string) (userConfig : UserConfigExport)
    (ev1 : list LoaderEvent) (value : jsval) :
  esbuild_build (buildOptions resolvedPath isESM) = Ret result ->
  outputFiles result = text :: rest ->
  loadConfigFromBundledFile resolvedPath text isESM st
  = Some (Ret userConfig, st1, ev1) ->
  userConfig = ExportValue value
  \/ (exists f, userConfig = ExportFunction f /\ f configEnv = Ret value) ->
  loadResolvedConfig configEnv resolvedPath isESM st
  = if isObject value
    then Some (Ret {| configPath := normalizePath resolvedPath;
                      config := value;
                      configDependencies :=
                        default [] (metafileInputs result) |},
               st1,
               LdBuild (buildOptions resolvedPath isESM)
               :: ev1 ++ [bundledLoaded])
    else Some (Throw configMustBeObject, st1,
               LdBuild (buildOptions resolvedPath isESM)
               :: ev1 ++ [bundledLoaded; failedToLoad resolvedPath]).
Proof.
  intros Hbuild Houtput Hload Hvalue.
  unfold loadResolvedConfig, ltryCatch.
  unfold lbind at 1, bundleConfigFile, lbind at 1, lcall at 1.
  rewrite Hbuild, Houtput. unfold lret at 1. unfold lbind at 1.
  cbn [code dependencies]. rewrite Hload.
  unfold lbind at 1, lemit, lcall. unfold lbind at 1.
  assert ((match userConfig with
           | ExportValue v => lret v
           | ExportFunction f => fun st0 => Some (f configEnv, st0, [])
           end) st1 = Some (Ret value, st1, [])) as ->.
  { destruct Hvalue as [->|(f & -> & Hf)]; [reflexivity | now rewrite Hf]. }
  destruct (isObject value); unfold lret, lthrow, lbind, lcall, failedToLoad,
    bundledLoaded; cbn [app].
  - now destruct (metafileInputs result).
  - rewrite ?app_nil_r, <- ?app_assoc. reflexivity.
Qed.

Lemma drop_drop (a b : nat) (s : string) :
  Str.drop (a + b) s = Str.drop b (Str.drop a s).
Proof.
  revert s. induction a as [|a IH]; intros s; [reflexivity|].
  destruct s as [|c s]; [now destruct b | apply IH].
Qed.

Lemma length_drop (n : nat) (s : string) :
  String.length (Str.drop n s) = String.length s - n.
Proof.
  revert s. induction n as [|n IH]; intros s; [cbn; lia|].
  destruct s as [|c s]; [reflexivity | apply IH].
Qed.

(** A string that ends with [suffix] ends with every ending of it. *)
Lemma endsWith_tail (suffix s : string) (k : nat) :
  endsWith suffix s = true ->
  k <= String.length suffix ->
  Str.drop (String.length s - k) s = Str.drop (String.length suffix - k) suffix.
Proof.
  unfold endsWith. intros H Hk. apply andb_true_iff in H as [Hlen Heq].
  apply Nat.leb_le in Hlen. apply String.eqb_eq in Heq.
  rewrite <- Heq at 2.
  rewrite <- drop_drop. rewrite <- Heq at 1. rewrite length_drop. f_equal. lia.
Qed.

Lemma endsWith_ts (suffix s : string) :
  endsWith suffix s = true ->
  2 <= String.length suffix ->
  endsWith "ts" s
  = String.eqb (Str.drop (String.length suffix - 2) suffix) "ts".
Proof.
  intros H Hlen. pose proof (endsWith_tail suffix s 2 H Hlen) as Htail.
  unfold endsWith in *. apply andb_true_iff in H as [Hs _].
  apply Nat.leb_le in Hs.
  assert ((String.length "ts" <=? String.length s) = true) as ->.
  { apply Nat.leb_le. cbn [String.length] in *. lia. }
  cbn [andb String.length] in *. now rewrite Htail.
Qed.

(** Every file that passes the filter of [inject-file-scope-variables]
    keeps its text, behind the three injected declarations, and is given
    the TypeScript loader exactly when its extension is a TypeScript
    one. *)
Theorem file_scope_loader_follows_extension (filePath contents : string) :
  fsp_readFile filePath = Ret contents ->
  fileScopeFilter filePath = true ->
  injectFileScopeVariables filePath
  = Ret (if isTypeScriptPath filePath then "ts" else "js",
         injectedValues filePath +:+ contents).
Proof.
  intros Hread Hfilter. unfold injectFileScopeVariables. rewrite Hread.
  fold (injectedValues filePath). do 2 f_equal.
  unfold fileScopeFilter in Hfilter. cbn [existsb] in Hfilter.
  unfold isTypeScriptPath.
  assert (Hcase : forall suffix,
             endsWith suffix filePath = true -> 2 <= String.length suffix ->
             endsWith "ts" filePath
             = String.eqb (Str.drop (String.length suffix - 2) suffix) "ts")
    by (intros; now apply endsWith_ts).
  destruct (endsWith ".ts" filePath) eqn:Hts;
    [now rewrite (Hcase ".ts" Hts) by (cbn; lia)|].
  destruct (endsWith ".cts" filePath) eqn:Hcts;
    [now rewrite (Hcase ".cts" Hcts) by (cbn; lia)|].
  destruct (endsWith ".mts" filePath) eqn:Hmts;
    [now rewrite (Hcase ".mts" Hmts) by (cbn; lia)|].
  destruct (endsWith ".js" filePath) eqn:Hjs;
    [now rewrite (Hcase ".js" Hjs) by (cbn; lia)|].
  destruct (endsWith ".cjs" filePath) eqn:Hcjs;
    [now rewrite (Hcase ".cjs" Hcjs) by (cbn; lia)|].
  destruct (endsWith ".mjs" filePath) eqn:Hmjs;
    [now rewrite (Hcase ".mjs" Hmjs) by (cbn; lia)|].
  discriminate.
Qed.

End ConfigLoaderFacts.

Section OnDemoConfig.

Import DemoConfig.


Lemma lookupFile_enough_fuel_witness :
  ancestorDir (host := projectHost) 4 "/proj/packages/app/src" = "/"
  /\ exists result,
       forall fuel, 4 < fuel ->
         lookupFile (host := projectHost) fuel "/proj/packages/app/src"
           ["tsconfig.json"] = Some result.
Proof.
  split; [reflexivity|].
  apply (lookupFile_enough_fuel (host := projectHost) (configHost := configHost)
           4 "/proj/packages/app/src").
  right. reflexivity.
Defined.

Lemma no_config_file_returns_null_witness :
  loadConfigFromFile (host := Demo.host) 0 env None None nodeRequire
  = Some (Ret None, nodeRequire,
          [LdExistsSync "/proj/vite.config.js";
           LdExistsSync "/proj/vite.config.mjs";
           LdExistsSync "/proj/vite.config.ts";
           LdExistsSync "/proj/vite.config.cjs";
           LdExistsSync "/proj/vite.config.mts";
           LdExistsSync "/proj/vite.config.cts";
           LdConsoleWarn "no config file found."]).
Proof.
  exact (no_config_file_returns_null (host := Demo.host)
           (configHost := configHost) 0 env None None nodeRequire
           (or_introl eq_refl) eq_refl).
Defined.

(** The demo project has [vite.config.ts] and [vite.config.mts], and
    neither [vite.config.js] nor [vite.config.mjs]: three names are probed
    and the third is taken. *)
Lemma config_file_resolution_witness :
  resolveConfigPath (host := projectHost) None "/proj" nodeRequire
  = Some (Ret (Some "/proj/vite.config.ts"), nodeRequire,
          [LdExistsSync "/proj/vite.config.js";
           LdExistsSync "/proj/vite.config.mjs";
           LdExistsSync "/proj/vite.config.ts"]).
Proof.
  assert (Hts : fs_existsSync (Host := projectHost)
                  (path_resolve ["/proj"; "vite.config.ts"]) = true)
    by reflexivity.
  destruct (config_file_resolution (host := projectHost) None "/proj" nodeRequire)
    as [(before & name & after & Hsplit & Hbefore & Hfound & Hrun)|[Hnone _]].
  - unfold DEFAULT_CONFIG_FILES in Hsplit.
    destruct before as [|b0 [|b1 [|b2 before]]]; cbn [app] in Hsplit.
    + injection Hsplit as <- _. discriminate Hfound.
    + injection Hsplit as _ <- _. discriminate Hfound.
    + injection Hsplit as <- <- <- _. exact Hrun.
    + injection Hsplit as _ _ <- _.
      rewrite (Hbefore "vite.config.ts") in Hts; [discriminate Hts|].
      rewrite !elem_of_cons. tauto.
  - rewrite (Hnone "vite.config.ts") in Hts; [discriminate Hts|].
    unfold DEFAULT_CONFIG_FILES. rewrite !elem_of_cons. tauto.
Defined.

(** A config module whose default export is an array: the load fails,
    and the failure is the last line of the log and its only error. *)
Lemma load_failure_is_logged_witness :
  exists before,
    loadResolvedConfig (host := projectHost) (configHost := arrayConfigHost) env
      "/proj/vite.config.mts" true nodeRequire
    = Some (Throw configMustBeObject, nodeRequire,
            before ++ [failedToLoad "/proj/vite.config.mts"])
    /\ consoleErrors before = [].
Proof.
  assert (Hrun :
    loadResolvedConfig (host := projectHost) (configHost := arrayConfigHost) env
      "/proj/vite.config.mts" true nodeRequire
    = Some (Throw configMustBeObject, nodeRequire,
            [LdBuild (buildOptions (configHost := arrayConfigHost)
                        "/proj/vite.config.mts" true);
             LdWriteFile "/proj/vite.config.mts.timestamp-1700000000000-a1b2c3.mjs"
               "module.exports = config";
             LdImport
               "file:///proj/vite.config.mts.timestamp-1700000000000-a1b2c3.mjs";
             LdUnlink "/proj/vite.config.mts.timestamp-1700000000000-a1b2c3.mjs";
             LdConsoleWarn "bundled config file loaded in 12.34ms";
             LdConsoleError "failed to load config from /proj/vite.config.mts"]))
    by reflexivity.
  destruct (load_failure_is_logged (host := projectHost)
              (configHost := arrayConfigHost) _ _ _ _ _ _ _ Hrun)
    as (before & Hevs & Hquiet).
  exists before. split; [|exact Hquiet]. rewrite Hrun, Hevs. reflexivity.
Defined.

(** The demo project has [vite.config.ts] and [vite.config.mts]: the
    first in the listed order wins, and the names behind it are not
    probed; a given file is taken unseen. *)
Example config_file_resolution_on_demo :
  resolveConfigPath (host := projectHost) None "/proj" nodeRequire
  = Some (Ret (Some "/proj/vite.config.ts"), nodeRequire,
          [LdExistsSync "/proj/vite.config.js";
           LdExistsSync "/proj/vite.config.mjs";
           LdExistsSync "/proj/vite.config.ts"])
  /\ resolveConfigPath (host := projectHost) (Some "missing.config.js") "/proj"
       nodeRequire
     = Some (Ret (Some "/proj/missing.config.js"), nodeRequire, []).
Proof. split; reflexivity. Qed.

(** The module cache held the config file from an earlier load; its
    entry is deleted before the file is required, and is there again
    afterwards. *)
Lemma require_loader_is_restored_witness :
  "/proj/vite.config.ts" ∈ requireCache nodeRequire
  /\ loadConfigFromBundledFile (host := projectHost) "/proj/vite.config.ts"
       "module.exports = config" false nodeRequire
     = Some (Ret (rawDefault configModule),
             {| requireExtensions := requireExtensions nodeRequire;
                requireCache := {[ "/proj/vite.config.ts" ]} |},
             [LdRealpath "/proj/vite.config.ts";
              LdRequireResolve "/proj/vite.config.ts";
              LdRequire "/proj/vite.config.ts"]).
Proof.
  split; [vm_compute; reflexivity|].
  destruct (require_loader_is_restored (host := projectHost)
              (configHost := configHost) "/proj/vite.config.ts" "module.exports = config"
              "/proj/vite.config.ts" "/proj/vite.config.ts" configModule
              nodeRequire eq_refl eq_refl eq_refl) as (Hrun & _ & Hsame & _).
  rewrite Hrun, Hsame by (vm_compute; eauto). vm_compute. reflexivity.
Defined.

Lemma require_loader_stays_patched_on_error_witness :
  exists st' evs,
    loadConfigFromBundledFile (host := projectHost)
      (configHost := throwingConfigHost) "/proj/vite.config.ts"
      "module.exports = config" false nodeRequire
    = Some (Throw "boom", st', evs)
    /\ requireExtensions st' !! ".js"
       = Some (PatchedLoader "/proj/vite.config.ts" "module.exports = config"
                 (NativeLoader "js")).
Proof.
  apply (require_loader_stays_patched_on_error (host := projectHost)
           (configHost := throwingConfigHost) "/proj/vite.config.ts"
           "module.exports = config" "/proj/vite.config.ts" "boom" nodeRequire
           eq_refl).
  right. split; [now exists "/proj/vite.config.ts" | reflexivity].
Defined.

Lemma config_must_be_an_object_witness :
  (loadResolvedConfig (host := projectHost) (configHost := arrayConfigHost) env
     "/proj/vite.config.mts" true nodeRequire)
  = Some (Throw configMustBeObject, nodeRequire,
          [LdBuild (buildOptions (configHost := arrayConfigHost)
                      "/proj/vite.config.mts" true);
           LdWriteFile "/proj/vite.config.mts.timestamp-1700000000000-a1b2c3.mjs"
             "module.exports = config";
           LdImport
             "file:///proj/vite.config.mts.timestamp-1700000000000-a1b2c3.mjs";
           LdUnlink "/proj/vite.config.mts.timestamp-1700000000000-a1b2c3.mjs";
           LdConsoleWarn "bundled config file loaded in 12.34ms";
           LdConsoleError "failed to load config from /proj/vite.config.mts"]).
Proof.
  rewrite (config_must_be_an_object (host := projectHost)
             (configHost := arrayConfigHost) env "/proj/vite.config.mts" true
             nodeRequire nodeRequire _ "module.exports = config" []
             (ExportValue (Some (JArr []))) _ (Some (JArr []))
             eq_refl eq_refl eq_refl (or_introl eq_refl)).
  reflexivity.
Defined.

Lemma file_scope_loader_follows_extension_witness :
  injectFileScopeVariables (host := projectHost) "/proj/vite.config.mts"
  = Ret ("ts",
         injectedValues (host := projectHost) "/proj/vite.config.mts"
         +:+ "export default {}").
Proof.
  apply (file_scope_loader_follows_extension (host := projectHost)
           (configHost := configHost) "/proj/vite.config.mts"
           "export default {}"); reflexivity.
Defined.

End OnDemoConfig.
